(** * Minipm backend: access control, cascade deletes and the notification hub

    A shallow embedding of [backend/server.py]: the Mongo collections are
    lists of typed documents in insertion order, the process-wide
    [SubscriptionManager] is a dictionary from organization ids to lists of
    queue references, and every GraphQL resolver is a computation in a small
    state-and-exception monad over that world. *)

From Stdlib Require Import Floats.
From stdpp Require Import gmap strings list fin_maps pretty.

Open Scope string_scope.
Open Scope list_scope.

(** ** Documents of the Entity Store *)

(** The authenticated user placed in the request context by [get_context]
    (the [password] field is projected away by [get_current_user]). *)
Record user_doc := mk_user {
  u_id : string;
  u_email : string;
  u_name : string;
  u_created_at : string
}.

Record org_doc := mk_org {
  o_id : string;
  o_user_id : string;
  o_name : string;
  o_slug : string;
  o_contact_email : string;
  o_created_at : string
}.

Record proj_doc := mk_proj {
  p_id : string;
  p_organization_id : string;
  p_name : string;
  p_description : string;
  p_status : string;
  p_due_date : option string;
  p_created_at : string
}.

Record task_doc := mk_task {
  t_id : string;
  t_project_id : string;
  t_title : string;
  t_description : string;
  t_status : string;
  t_assignee_email : string;
  t_due_date : option string;
  t_created_at : string
}.

Record comment_doc := mk_comment {
  c_id : string;
  c_task_id : string;
  c_content : string;
  c_author_email : string;
  c_created_at : string
}.

(** The four collections the resolvers touch, each in natural (insertion)
    order. *)
Record database := mk_db {
  db_organizations : list org_doc;
  db_projects : list proj_doc;
  db_tasks : list task_doc;
  db_task_comments : list comment_doc
}.

(** ** Motor operations on one collection

    A filter document is a boolean predicate on the collection's documents. *)
Section Collection.
Context {A : Type}.

(** [find_one(filter)]: the first matching document, or [None]. *)
Definition find_one (f : A -> bool) (l : list A) : option A := List.find f l.

(** [find(filter).to_list(n)]: at most [n] matching documents. *)
Definition find_to_list (f : A -> bool) (n : nat) (l : list A) : list A :=
  take n (List.filter f l).

(** [count_documents(filter)]. *)
Definition count_documents (f : A -> bool) (l : list A) : nat :=
  length (List.filter f l).

(** [insert_one(doc)]. *)
Definition insert_one (d : A) (l : list A) : list A := l ++ [d].

(** [update_one(filter, {"$set": ...})]: only the first match is changed. *)
Fixpoint update_one (f : A -> bool) (upd : A -> A) (l : list A) : list A :=
  match l with
  | [] => []
  | d :: l' => if f d then upd d :: l' else d :: update_one f upd l'
  end.

(** [delete_one(filter)]: only the first match is removed. *)
Fixpoint delete_one (f : A -> bool) (l : list A) : list A :=
  match l with
  | [] => []
  | d :: l' => if f d then l' else d :: delete_one f l'
  end.

(** [delete_many(filter)]: every match is removed. *)
Definition delete_many (f : A -> bool) (l : list A) : list A :=
  List.filter (fun d => negb (f d)) l.
End Collection.

(** [{"field": {"$in": ids}}] *)
Definition in_ids (ids : list string) (x : string) : bool :=
  existsb (String.eqb x) ids.

(** ** Python exceptions *)
Inductive exn :=
| NotAuthenticated        (* Exception("Not authenticated") *)
| OrganizationNotFound    (* Exception("Organization not found") *)
| ProjectNotFound         (* Exception("Project not found") *)
| TaskNotFound            (* Exception("Task not found") *)
| CommentNotFound         (* Exception("Comment not found") *)
| AccessDenied            (* Exception("Access denied") *)
| ValueError              (* list.remove(x): x not in list *)
| CancelledError          (* asyncio.CancelledError *)
| GeneratorExit           (* raised at the yield by aclose() *)
| ZeroDivisionError       (* int / 0 *)
| TypeError               (* keywords taken from None *)
| RuntimeError.           (* any other exception thrown into the generator *)

Definition message (e : exn) : string :=
  match e with
  | NotAuthenticated => "Not authenticated"
  | OrganizationNotFound => "Organization not found"
  | ProjectNotFound => "Project not found"
  | TaskNotFound => "Task not found"
  | CommentNotFound => "Comment not found"
  | AccessDenied => "Access denied"
  | ValueError => "list.remove(x): x not in list"
  | CancelledError => ""
  | GeneratorExit => ""
  | ZeroDivisionError => "division by zero"
  | TypeError => "argument after ** must be a mapping, not NoneType"
  | RuntimeError => ""
  end.

(** The taxonomy of section 7 of the specification, read off the message. *)
Inductive failure_kind := KNotAuthenticated | KNotFound | KAccessDenied | KOther.

Definition kind (e : exn) : failure_kind :=
  match e with
  | NotAuthenticated => KNotAuthenticated
  | OrganizationNotFound | ProjectNotFound | TaskNotFound | CommentNotFound => KNotFound
  | AccessDenied => KAccessDenied
  | _ => KOther
  end.

(** ** The world: Entity Store, subscription registry, queues, call log *)

(** [{"type": event_type, "data": data}] as put on a queue by [broadcast]. *)
Record event := mk_event {
  ev_type : string;
  ev_data : gmap string string
}.

(** An [asyncio.Queue] object is known by its identity: the number of
    queues allocated before it. *)
Abbreviation queue_ref := nat (only parsing).

(** The calls a resolver makes that change something outside itself: writes
    to a collection and calls of [subscription_manager.broadcast]. *)
Inductive call :=
| InsertOne (collection : string)
| UpdateOne (collection : string)
| DeleteOne (collection : string)
| DeleteMany (collection : string)
| Broadcast (org_id : string) (ev : event).

Record world := mk_world {
  db : database;
  (** [subscription_manager.connections] *)
  connections : gmap string (list queue_ref);
  (** the items of every queue allocated so far, oldest first *)
  heap : list (list event);
  (** the calls made so far, oldest first *)
  calls : list call
}.

Definition with_db (d : database) (w : world) : world :=
  mk_world d (connections w) (heap w) (calls w).
Definition with_connections (c : gmap string (list queue_ref)) (w : world) : world :=
  mk_world (db w) c (heap w) (calls w).
Definition with_heap (h : list (list event)) (w : world) : world :=
  mk_world (db w) (connections w) h (calls w).
Definition log (c : call) (w : world) : world :=
  mk_world (db w) (connections w) (heap w) (calls w ++ [c]).

(** ** The resolver monad: world passing with exceptions

    A raised exception keeps the world reached so far: nothing is rolled
    back. *)
Inductive outcome (A : Type) :=
| Raised (e : exn)
| Returned (a : A).
Arguments Raised {A} e.
Arguments Returned {A} a.

Definition M (A : Type) : Type := world -> outcome A * world.

Definition ret {A} (a : A) : M A := fun w => (Returned a, w).
Definition raise {A} (e : exn) : M A := fun w => (Raised e, w).
Definition bind {A B} (m : M A) (k : A -> M B) : M B :=
  fun w => match m w with
           | (Raised e, w') => (Raised e, w')
           | (Returned a, w') => k a w'
           end.

Declare Scope resolver_scope.
Delimit Scope resolver_scope with resolver.
Notation "x <- c1 ;; c2" := (bind c1 (fun x => c2))
  (at level 100, c1 at next level, right associativity) : resolver_scope.
Notation "c1 ;; c2" := (bind c1 (fun _ => c2))
  (at level 100, right associativity) : resolver_scope.
Open Scope resolver_scope.

(** Reading a collection ([await db.coll.find_one(...)] and the like). *)
Definition query {A} (f : database -> A) : M A := fun w => (Returned (f (db w)), w).

(** Writing a collection; the call is logged. *)
Definition write (c : call) (f : database -> database) : M unit :=
  fun w => (Returned tt, log c (with_db (f (db w)) w)).

(** [x = ...; if not x: raise e] *)
Definition or_raise {A} (o : option A) (e : exn) : M A :=
  match o with
  | Some a => ret a
  | None => raise e
  end.

Definition set_organizations (l : list org_doc) (d : database) : database :=
  mk_db l (db_projects d) (db_tasks d) (db_task_comments d).
Definition set_projects (l : list proj_doc) (d : database) : database :=
  mk_db (db_organizations d) l (db_tasks d) (db_task_comments d).
Definition set_tasks (l : list task_doc) (d : database) : database :=
  mk_db (db_organizations d) (db_projects d) l (db_task_comments d).
Definition set_task_comments (l : list comment_doc) (d : database) : database :=
  mk_db (db_organizations d) (db_projects d) (db_tasks d) l.

(** ** SubscriptionManager *)
Module SubscriptionManager.

(** [await queue.put(item)] on an unbounded queue. *)
Definition put (ev : event) (h : list (list event)) (q : queue_ref) : list (list event) :=
  alter (fun items => items ++ [ev]) q h.

Definition broadcast (org_id event_type : string) (data : gmap string string) : M unit :=
  fun w =>
    let ev := mk_event event_type data in
    let w := log (Broadcast org_id ev) w in
    match connections w !! org_id with
    | Some qs => (Returned tt, with_heap (foldl (put ev) (heap w) qs) w)
    | None => (Returned tt, w)
    end.

Definition subscribe (org_id : string) : M queue_ref :=
  fun w =>
    let conns := match connections w !! org_id with
                 | Some _ => connections w
                 | None => <[org_id := []]> (connections w)
                 end in
    let queue := length (heap w) in
    (Returned queue,
     with_connections (alter (fun qs => qs ++ [queue]) org_id conns)
       (with_heap (heap w ++ [[]]) w)).

(** [list.remove(x)]: drops the first occurrence, [ValueError] if none. *)
Fixpoint list_remove (q : queue_ref) (qs : list queue_ref) : option (list queue_ref) :=
  match qs with
  | [] => None
  | q' :: qs' => if Nat.eqb q' q then Some qs'
                 else match list_remove q qs' with
                      | Some r => Some (q' :: r)
                      | None => None
                      end
  end.

Definition unsubscribe (org_id : string) (queue : queue_ref) : M unit :=
  fun w =>
    match connections w !! org_id with
    | Some qs => match list_remove queue qs with
                 | Some qs' => (Returned tt, with_connections (<[org_id := qs']> (connections w)) w)
                 | None => (Raised ValueError, w)
                 end
    | None => (Returned tt, w)
    end.

End SubscriptionManager.

(** ** Strawberry types returned to the caller *)

(** [Organization] built from the keywords of [org]: the document without
    [_id] and [user_id]. *)
Record Organization := mk_Organization {
  org_id : string;
  org_name : string;
  org_slug : string;
  org_contact_email : string;
  org_created_at : string
}.

Definition Organization_of (o : org_doc) : Organization :=
  mk_Organization (o_id o) (o_name o) (o_slug o) (o_contact_email o) (o_created_at o).

(** [Project] built from the keywords of [proj] and the two counts. *)
Record Project := mk_Project {
  project_doc : proj_doc;
  task_count : nat;
  completed_tasks : nat
}.

(** [Task] and [TaskComment], built from the keywords of a stored document,
    have exactly its fields. *)
Definition Task := task_doc.
Definition TaskComment := comment_doc.

(** A Python number: [completion_rate] is the int [0] or a float. *)
Inductive number :=
| PyInt (z : Z)
| PyFloat (x : float).

Record ProjectStats := mk_ProjectStats {
  total_projects : nat;
  active_projects : nat;
  completed_projects : nat;
  on_hold_projects : nat;
  total_tasks : nat;
  stats_completed_tasks : nat;
  completion_rate : number
}.

(** ** Python arithmetic used by [project_stats] *)

(** [float(n)] for a document count: exact below [2^53], which no
    collection reaches. *)
Definition float_of_nat (n : nat) : float :=
  PrimFloat.of_uint63 (Uint63.of_Z (Z.of_nat n)).

(** Rounding a non-negative rational [n / d] to the nearest integer, ties to
    the even one. *)
Definition round_half_even (n d : Z) : Z :=
  let q := (n / d)%Z in
  let r := (n mod d)%Z in
  if (2 * r <? d)%Z then q
  else if (d <? 2 * r)%Z then (q + 1)%Z
  else if Z.even q then q else (q + 1)%Z.

(** The binary64 number nearest to [q / 10]. *)
Definition tenths (s : bool) (q : Z) : float :=
  match q with
  | Zpos p => SF2Prim (SFdiv prec emax (S754_finite s p 0) (S754_finite false 10 0))
  | _ => SF2Prim (S754_zero s)
  end.

(** [round(x, 1)] on a float: the exact binary value of [x] is rounded to
    one decimal, ties to even, and the decimal is read back as a float.
    Infinities and NaN round to themselves; a float with no fractional bits
    is already a whole number. *)
Definition float_round1 (x : float) : float :=
  match Prim2SF x with
  | S754_finite s m (Zneg k) => tenths s (round_half_even (10 * Zpos m) (2 ^ Zpos k))
  | _ => x
  end.

(** [round(v, 1)]: an int is returned as it is. *)
Definition py_round1 (v : number) : number :=
  match v with
  | PyInt z => PyInt z
  | PyFloat x => PyFloat (float_round1 x)
  end.

(** [a / b] on two document counts: true division, [ZeroDivisionError] when
    the divisor is zero. *)
Definition true_div (a b : nat) : M float :=
  match b with
  | O => raise ZeroDivisionError
  | S _ => ret (PrimFloat.div (float_of_nat a) (float_of_nat b))
  end.

(** ** Filter documents *)
Definition org_with_id (id : string) (o : org_doc) : bool := String.eqb (o_id o) id.
Definition org_with_user (uid : string) (o : org_doc) : bool := String.eqb (o_user_id o) uid.
(** [{"id": id, "user_id": user["id"]}] *)
Definition org_with_id_user (id uid : string) (o : org_doc) : bool :=
  String.eqb (o_id o) id && String.eqb (o_user_id o) uid.
Definition proj_with_id (id : string) (p : proj_doc) : bool := String.eqb (p_id p) id.
Definition proj_with_org (oid : string) (p : proj_doc) : bool :=
  String.eqb (p_organization_id p) oid.
Definition proj_with_org_status (oid st : string) (p : proj_doc) : bool :=
  String.eqb (p_organization_id p) oid && String.eqb (p_status p) st.
Definition task_with_id (id : string) (t : task_doc) : bool := String.eqb (t_id t) id.
Definition task_with_project (pid : string) (t : task_doc) : bool :=
  String.eqb (t_project_id t) pid.
Definition task_with_project_status (pid st : string) (t : task_doc) : bool :=
  String.eqb (t_project_id t) pid && String.eqb (t_status t) st.
Definition task_with_project_in (pids : list string) (t : task_doc) : bool :=
  in_ids pids (t_project_id t).
Definition task_with_project_in_status (pids : list string) (st : string) (t : task_doc) : bool :=
  in_ids pids (t_project_id t) && String.eqb (t_status t) st.
Definition comment_with_id (id : string) (c : comment_doc) : bool := String.eqb (c_id c) id.
Definition comment_with_task (tid : string) (c : comment_doc) : bool :=
  String.eqb (c_task_id c) tid.
Definition comment_with_task_in (tids : list string) (c : comment_doc) : bool :=
  in_ids tids (c_task_id c).

(** [user = info.context.get("user"); if not user: raise ...] *)
Definition authenticated (user : option user_doc) : M user_doc :=
  or_raise user NotAuthenticated.

(** ** Query *)
Module Query.

Definition me (user : option user_doc) : M (option user_doc) := ret user.

Definition organizations (user : option user_doc) : M (list Organization) :=
  user <- authenticated user;;
  orgs <- query (fun d => find_to_list (org_with_user (u_id user)) 100 (db_organizations d));;
  ret (map Organization_of orgs).

Definition organization (user : option user_doc) (id : string) : M (option Organization) :=
  user <- authenticated user;;
  org <- query (fun d => find_one (org_with_id_user id (u_id user)) (db_organizations d));;
  match org with
  | Some org => ret (Some (Organization_of org))
  | None => ret None
  end.

(** The body of the loop over [projects] in [Query.projects]. *)
Definition with_counts (proj : proj_doc) : M Project :=
  task_count <- query (fun d => count_documents (task_with_project (p_id proj)) (db_tasks d));;
  completed_tasks <-
    query (fun d => count_documents (task_with_project_status (p_id proj) "DONE") (db_tasks d));;
  ret (mk_Project proj task_count completed_tasks).

Fixpoint for_each {A B} (f : A -> M B) (l : list A) : M (list B) :=
  match l with
  | [] => ret []
  | a :: l' => b <- f a;; bs <- for_each f l';; ret (b :: bs)
  end.

Definition projects (user : option user_doc) (organization_id : string) : M (list Project) :=
  user <- authenticated user;;
  org <- query (fun d => find_one (org_with_id_user organization_id (u_id user)) (db_organizations d));;
  _ <- or_raise org OrganizationNotFound;;
  projects <- query (fun d => find_to_list (proj_with_org organization_id) 100 (db_projects d));;
  for_each with_counts projects.

Definition project (user : option user_doc) (id : string) : M (option Project) :=
  user <- authenticated user;;
  proj <- query (fun d => find_one (proj_with_id id) (db_projects d));;
  match proj with
  | Some proj =>
      org <- query (fun d => find_one (org_with_id_user (p_organization_id proj) (u_id user))
                               (db_organizations d));;
      _ <- or_raise org AccessDenied;;
      r <- with_counts proj;;
      ret (Some r)
  | None => ret None
  end.

Definition tasks (user : option user_doc) (project_id : string) : M (list Task) :=
  user <- authenticated user;;
  proj <- query (fun d => find_one (proj_with_id project_id) (db_projects d));;
  proj <- or_raise proj ProjectNotFound;;
  org <- query (fun d => find_one (org_with_id_user (p_organization_id proj) (u_id user))
                           (db_organizations d));;
  _ <- or_raise org AccessDenied;;
  query (fun d => find_to_list (task_with_project project_id) 1000 (db_tasks d)).

Definition task (user : option user_doc) (id : string) : M (option Task) :=
  user <- authenticated user;;
  task <- query (fun d => find_one (task_with_id id) (db_tasks d));;
  match task with
  | Some task =>
      proj <- query (fun d => find_one (proj_with_id (t_project_id task)) (db_projects d));;
      match proj with
      | Some proj =>
          org <- query (fun d => find_one (org_with_id_user (p_organization_id proj) (u_id user))
                                   (db_organizations d));;
          match org with
          | Some _ => ret (Some task)
          | None => ret None
          end
      | None => ret None
      end
  | None => ret None
  end.

Definition task_comments (user : option user_doc) (task_id : string) : M (list TaskComment) :=
  user <- authenticated user;;
  query (fun d => find_to_list (comment_with_task task_id) 1000 (db_task_comments d)).

Definition project_stats (user : option user_doc) (organization_id : string) : M ProjectStats :=
  user <- authenticated user;;
  org <- query (fun d => find_one (org_with_id_user organization_id (u_id user))
                           (db_organizations d));;
  _ <- or_raise org OrganizationNotFound;;
  total_projects <-
    query (fun d => count_documents (proj_with_org organization_id) (db_projects d));;
  active_projects <-
    query (fun d => count_documents (proj_with_org_status organization_id "ACTIVE")
                      (db_projects d));;
  completed_projects <-
    query (fun d => count_documents (proj_with_org_status organization_id "COMPLETED")
                      (db_projects d));;
  on_hold_projects <-
    query (fun d => count_documents (proj_with_org_status organization_id "ON_HOLD")
                      (db_projects d));;
  projects <-
    query (fun d => find_to_list (proj_with_org organization_id) 1000 (db_projects d));;
  let project_ids := map p_id projects in
  total_tasks <-
    match project_ids with
    | [] => ret 0
    | _ => query (fun d => count_documents (task_with_project_in project_ids) (db_tasks d))
    end;;
  completed_tasks <-
    match project_ids with
    | [] => ret 0
    | _ => query (fun d => count_documents (task_with_project_in_status project_ids "DONE")
                             (db_tasks d))
    end;;
  completion_rate <-
    (if (0 <? total_tasks)%nat
     then q <- true_div completed_tasks total_tasks;; ret (PyFloat (PrimFloat.mul q 100))
     else ret (PyInt 0));;
  ret (mk_ProjectStats total_projects active_projects completed_projects on_hold_projects
         total_tasks completed_tasks (py_round1 completion_rate)).

End Query.

(** ** Input types *)
Record ProjectInput := mk_ProjectInput {
  pi_organization_id : string;
  pi_name : string;
  pi_description : string;
  pi_status : string;
  pi_due_date : option string
}.

Record ProjectUpdateInput := mk_ProjectUpdateInput {
  pu_name : option string;
  pu_description : option string;
  pu_status : option string;
  pu_due_date : option string
}.

Record TaskInput := mk_TaskInput {
  ti_project_id : string;
  ti_title : string;
  ti_description : string;
  ti_status : string;
  ti_assignee_email : string;
  ti_due_date : option string
}.

Record TaskUpdateInput := mk_TaskUpdateInput {
  tu_title : option string;
  tu_description : option string;
  tu_status : option string;
  tu_assignee_email : option string;
  tu_due_date : option string
}.

Record TaskCommentInput := mk_TaskCommentInput {
  ci_task_id : string;
  ci_content : string
}.

(** ** Partial updates *)

(** [if value is not None: update_data[key] = value] *)
Definition set_if_given (key : string) (value : option string)
    (update_data : gmap string string) : gmap string string :=
  match value with
  | Some v => <[key := v]> update_data
  | None => update_data
  end.

(** [{"$set": update_data}] on a stored project: a key of [update_data]
    replaces the field of that name. *)
Definition set_proj (update_data : gmap string string) (p : proj_doc) : proj_doc :=
  mk_proj
    (default (p_id p) (update_data !! "id"))
    (default (p_organization_id p) (update_data !! "organization_id"))
    (default (p_name p) (update_data !! "name"))
    (default (p_description p) (update_data !! "description"))
    (default (p_status p) (update_data !! "status"))
    (match update_data !! "due_date" with Some v => Some v | None => p_due_date p end)
    (default (p_created_at p) (update_data !! "created_at")).

(** [{"$set": update_data}] on a stored task. *)
Definition set_task (update_data : gmap string string) (t : task_doc) : task_doc :=
  mk_task
    (default (t_id t) (update_data !! "id"))
    (default (t_project_id t) (update_data !! "project_id"))
    (default (t_title t) (update_data !! "title"))
    (default (t_description t) (update_data !! "description"))
    (default (t_status t) (update_data !! "status"))
    (default (t_assignee_email t) (update_data !! "assignee_email"))
    (match update_data !! "due_date" with Some v => Some v | None => t_due_date t end)
    (default (t_created_at t) (update_data !! "created_at")).

(** ** Mutation

    [generate_id()] and [datetime.now(timezone.utc).isoformat()] are read
    from the environment: each resolver that calls them takes their results
    as [new_id] and [now]. *)
Module Mutation.
Import SubscriptionManager.

Definition create_project (user : option user_doc) (new_id now : string)
    (input : ProjectInput) : M Project :=
  user <- authenticated user;;
  org <- query (fun d => find_one (org_with_id_user (pi_organization_id input) (u_id user))
                           (db_organizations d));;
  _ <- or_raise org OrganizationNotFound;;
  let proj_id := new_id in
  let proj_doc := mk_proj proj_id (pi_organization_id input) (pi_name input)
                    (pi_description input) (pi_status input) (pi_due_date input) now in
  write (InsertOne "projects")
    (fun d => set_projects (insert_one proj_doc (db_projects d)) d);;
  broadcast (pi_organization_id input) "PROJECT_CREATED" {[ "id" := proj_id ]};;
  ret (mk_Project proj_doc 0 0).

Definition project_update_data (input : ProjectUpdateInput) : gmap string string :=
  set_if_given "due_date" (pu_due_date input)
    (set_if_given "status" (pu_status input)
       (set_if_given "description" (pu_description input)
          (set_if_given "name" (pu_name input) ∅))).

Definition update_project (user : option user_doc) (id : string)
    (input : ProjectUpdateInput) : M Project :=
  user <- authenticated user;;
  proj <- query (fun d => find_one (proj_with_id id) (db_projects d));;
  proj <- or_raise proj ProjectNotFound;;
  org <- query (fun d => find_one (org_with_id_user (p_organization_id proj) (u_id user))
                           (db_organizations d));;
  _ <- or_raise org AccessDenied;;
  let update_data := project_update_data input in
  (if decide (update_data = ∅) then ret tt
   else write (UpdateOne "projects")
          (fun d => set_projects
                      (update_one (proj_with_id id) (set_proj update_data) (db_projects d)) d));;
  updated <- query (fun d => find_one (proj_with_id id) (db_projects d));;
  task_count <- query (fun d => count_documents (task_with_project id) (db_tasks d));;
  completed_tasks <-
    query (fun d => count_documents (task_with_project_status id "DONE") (db_tasks d));;
  broadcast (p_organization_id proj) "PROJECT_UPDATED" {[ "id" := id ]};;
  updated <- or_raise updated TypeError;;
  ret (mk_Project updated task_count completed_tasks).

Definition delete_project (user : option user_doc) (id : string) : M bool :=
  user <- authenticated user;;
  proj <- query (fun d => find_one (proj_with_id id) (db_projects d));;
  proj <- or_raise proj ProjectNotFound;;
  org <- query (fun d => find_one (org_with_id_user (p_organization_id proj) (u_id user))
                           (db_organizations d));;
  _ <- or_raise org AccessDenied;;
  (* Delete all related data *)
  ts <- query (fun d => find_to_list (task_with_project id) 1000 (db_tasks d));;
  write (DeleteMany "task_comments")
    (fun d => set_task_comments
                (delete_many (comment_with_task_in (map t_id ts)) (db_task_comments d)) d);;
  write (DeleteMany "tasks")
    (fun d => set_tasks (delete_many (task_with_project id) (db_tasks d)) d);;
  write (DeleteOne "projects")
    (fun d => set_projects (delete_one (proj_with_id id) (db_projects d)) d);;
  broadcast (p_organization_id proj) "PROJECT_DELETED" {[ "id" := id ]};;
  ret true.

Definition create_task (user : option user_doc) (new_id now : string)
    (input : TaskInput) : M Task :=
  user <- authenticated user;;
  proj <- query (fun d => find_one (proj_with_id (ti_project_id input)) (db_projects d));;
  proj <- or_raise proj ProjectNotFound;;
  org <- query (fun d => find_one (org_with_id_user (p_organization_id proj) (u_id user))
                           (db_organizations d));;
  _ <- or_raise org AccessDenied;;
  let task_id := new_id in
  let task_doc := mk_task task_id (ti_project_id input) (ti_title input)
                    (ti_description input) (ti_status input) (ti_assignee_email input)
                    (ti_due_date input) now in
  write (InsertOne "tasks") (fun d => set_tasks (insert_one task_doc (db_tasks d)) d);;
  broadcast (p_organization_id proj) "TASK_CREATED"
    (<[ "id" := task_id ]> {[ "project_id" := ti_project_id input ]});;
  ret task_doc.

Definition task_update_data (input : TaskUpdateInput) : gmap string string :=
  set_if_given "due_date" (tu_due_date input)
    (set_if_given "assignee_email" (tu_assignee_email input)
       (set_if_given "status" (tu_status input)
          (set_if_given "description" (tu_description input)
             (set_if_given "title" (tu_title input) ∅)))).

Definition update_task (user : option user_doc) (id : string)
    (input : TaskUpdateInput) : M Task :=
  user <- authenticated user;;
  task <- query (fun d => find_one (task_with_id id) (db_tasks d));;
  task <- or_raise task TaskNotFound;;
  proj <- query (fun d => find_one (proj_with_id (t_project_id task)) (db_projects d));;
  proj <- or_raise proj ProjectNotFound;;
  org <- query (fun d => find_one (org_with_id_user (p_organization_id proj) (u_id user))
                           (db_organizations d));;
  _ <- or_raise org AccessDenied;;
  let update_data := task_update_data input in
  (if decide (update_data = ∅) then ret tt
   else write (UpdateOne "tasks")
          (fun d => set_tasks
                      (update_one (task_with_id id) (set_task update_data) (db_tasks d)) d));;
  updated <- query (fun d => find_one (task_with_id id) (db_tasks d));;
  broadcast (p_organization_id proj) "TASK_UPDATED"
    (<[ "id" := id ]> {[ "project_id" := t_project_id task ]});;
  or_raise updated TypeError.

Definition delete_task (user : option user_doc) (id : string) : M bool :=
  user <- authenticated user;;
  task <- query (fun d => find_one (task_with_id id) (db_tasks d));;
  task <- or_raise task TaskNotFound;;
  proj <- query (fun d => find_one (proj_with_id (t_project_id task)) (db_projects d));;
  proj <- or_raise proj ProjectNotFound;;
  org <- query (fun d => find_one (org_with_id_user (p_organization_id proj) (u_id user))
                           (db_organizations d));;
  _ <- or_raise org AccessDenied;;
  write (DeleteMany "task_comments")
    (fun d => set_task_comments (delete_many (comment_with_task id) (db_task_comments d)) d);;
  write (DeleteOne "tasks")
    (fun d => set_tasks (delete_one (task_with_id id) (db_tasks d)) d);;
  broadcast (p_organization_id proj) "TASK_DELETED"
    (<[ "id" := id ]> {[ "project_id" := t_project_id task ]});;
  ret true.

Definition add_comment (user : option user_doc) (new_id now : string)
    (input : TaskCommentInput) : M TaskComment :=
  user <- authenticated user;;
  task <- query (fun d => find_one (task_with_id (ci_task_id input)) (db_tasks d));;
  task <- or_raise task TaskNotFound;;
  proj <- query (fun d => find_one (proj_with_id (t_project_id task)) (db_projects d));;
  proj <- or_raise proj ProjectNotFound;;
  org <- query (fun d => find_one (org_with_id_user (p_organization_id proj) (u_id user))
                           (db_organizations d));;
  _ <- or_raise org AccessDenied;;
  let comment_id := new_id in
  let comment_doc := mk_comment comment_id (ci_task_id input) (ci_content input)
                       (u_email user) now in
  write (InsertOne "task_comments")
    (fun d => set_task_comments (insert_one comment_doc (db_task_comments d)) d);;
  broadcast (p_organization_id proj) "COMMENT_ADDED"
    (<[ "id" := comment_id ]> {[ "task_id" := ci_task_id input ]});;
  ret comment_doc.

Definition delete_comment (user : option user_doc) (id : string) : M bool :=
  user <- authenticated user;;
  comment <- query (fun d => find_one (comment_with_id id) (db_task_comments d));;
  comment <- or_raise comment CommentNotFound;;
  (if String.eqb (c_author_email comment) (u_email user) then ret tt else raise AccessDenied);;
  write (DeleteOne "task_comments")
    (fun d => set_task_comments (delete_one (comment_with_id id) (db_task_comments d)) d);;
  ret true.

End Mutation.

(** ** Subscription *)

Record SubscriptionEvent := mk_SubscriptionEvent {
  se_event_type : string;
  se_entity_type : string;
  se_entity_id : string;
  se_organization_id : string
}.

(** [s.split("_")[0]] *)
Fixpoint split_head (s : string) : string :=
  match s with
  | EmptyString => EmptyString
  | String c s' =>
      (* 95 is the code of the underscore *)
      if Ascii.eqb c (Ascii.ascii_of_nat 95) then EmptyString else String c (split_head s')
  end.

Module Subscription.
Import SubscriptionManager.

(** Where the async generator [organization_events] is suspended. Both
    suspension points lie inside the [try] block. *)
Inductive generator :=
| AtGet (queue : queue_ref)      (* in [await queue.get()] *)
| AtYield (queue : queue_ref)    (* at the [yield] *)
| Finished.

(** The first lines of the body, up to the first [await queue.get()]. *)
Definition organization_events (organization_id : string) : M generator :=
  queue <- subscribe organization_id;;
  ret (AtGet queue).

(** One turn of the loop: the pending [queue.get()] completes with the
    oldest item and the event is yielded. With an empty queue the
    generator stays suspended and nothing is yielded. *)
Definition next (organization_id : string) (g : generator)
    : M (option SubscriptionEvent * generator) :=
  fun w =>
    match g with
    | AtGet queue | AtYield queue =>
        match heap w !! queue with
        | Some (ev :: items) =>
            (Returned (Some (mk_SubscriptionEvent (ev_type ev) (split_head (ev_type ev))
                               (default "" (ev_data ev !! "id")) organization_id),
                       AtYield queue),
             with_heap (<[queue := items]> (heap w)) w)
        | _ => (Returned (None, AtGet queue), w)
        end
    | Finished => (Returned (None, Finished), w)
    end.

(** An exception [e] arrives at the suspension point: a cancellation of
    the task awaiting the queue, or [athrow]/[aclose] at the yield. Only
    [except asyncio.CancelledError] is there to catch it; after the
    handler the generator returns. Any other exception leaves the [try]
    statement unhandled. *)
Definition throw (organization_id : string) (e : exn) (g : generator) : M generator :=
  match g with
  | AtGet queue | AtYield queue =>
      match e with
      | CancelledError => unsubscribe organization_id queue;; ret Finished
      | _ => raise e
      end
  | Finished => raise e
  end.

End Subscription.

(** ** The mutations on organization-scoped entities, as one request type *)
Inductive mutation :=
| CreateProject (new_id now : string) (input : ProjectInput)
| UpdateProject (id : string) (input : ProjectUpdateInput)
| DeleteProject (id : string)
| CreateTask (new_id now : string) (input : TaskInput)
| UpdateTask (id : string) (input : TaskUpdateInput)
| DeleteTask (id : string)
| AddComment (new_id now : string) (input : TaskCommentInput)
| DeleteComment (id : string).

(** Runs a mutation for its effect on the world. *)
Definition run (user : option user_doc) (m : mutation) : M unit :=
  match m with
  | CreateProject new_id now input => Mutation.create_project user new_id now input;; ret tt
  | UpdateProject id input => Mutation.update_project user id input;; ret tt
  | DeleteProject id => Mutation.delete_project user id;; ret tt
  | CreateTask new_id now input => Mutation.create_task user new_id now input;; ret tt
  | UpdateTask id input => Mutation.update_task user id input;; ret tt
  | DeleteTask id => Mutation.delete_task user id;; ret tt
  | AddComment new_id now input => Mutation.add_comment user new_id now input;; ret tt
  | DeleteComment id => Mutation.delete_comment user id;; ret tt
  end.

(** ** A small world used by the examples

    Alice owns the organization [acme]; Bob owns nothing there. Project
    [p1] of [acme] has the task [t1], which carries Alice's comment [c1]. *)
Definition alice : user_doc := mk_user "u-alice" "a@x.com" "Alice" "2024-01-01T00:00:00+00:00".
Definition bob : user_doc := mk_user "u-bob" "b@x.com" "Bob" "2024-01-02T00:00:00+00:00".

Definition acme : org_doc :=
  mk_org "o-acme" "u-alice" "acme" "acme-co" "a@x.com" "2024-01-03T00:00:00+00:00".
Definition p1 : proj_doc :=
  mk_proj "p1" "o-acme" "Launch" "first project" "ACTIVE" None "2024-01-04T00:00:00+00:00".
Definition t1 : task_doc :=
  mk_task "t1" "p1" "Write plan" "draft" "TODO" "a@x.com" (Some "2024-02-01")
    "2024-01-05T00:00:00+00:00".
Definition c1 : comment_doc :=
  mk_comment "c1" "t1" "private note" "a@x.com" "2024-01-06T00:00:00+00:00".

Definition acme_db : database := mk_db [acme] [p1] [t1] [c1].

(** No subscriber yet. *)
Definition acme_world : world := mk_world acme_db ∅ [] [].

(** [acme_world] once a subscriber has opened [organization_events] on
    [acme]: queue 0 is registered under ["o-acme"]. *)
Definition acme_subscribed : world :=
  snd (Subscription.organization_events "o-acme" acme_world).

(** ** Vocabulary of the properties *)

(** The input of an [update_task] call that supplies only [status]. *)
Definition status_only (status : string) : TaskUpdateInput :=
  mk_TaskUpdateInput None None (Some status) None None.

(** What a partial update may not touch: every collection but [tasks], the
    number of tasks, and every task with another id. *)
Definition only_task_changed (id : string) (d d' : database) : Prop :=
  db_organizations d' = db_organizations d /\
  db_projects d' = db_projects d /\
  db_task_comments d' = db_task_comments d /\
  length (db_tasks d') = length (db_tasks d) /\
  forall t, In t (db_tasks d) -> task_with_id id t = false -> In t (db_tasks d').

(** The update inputs with every field omitted. *)
Definition no_project_fields : ProjectUpdateInput := mk_ProjectUpdateInput None None None None.
Definition no_task_fields : TaskUpdateInput := mk_TaskUpdateInput None None None None None.

(** The writes to the Entity Store among a list of calls. *)
Definition is_write (c : call) : bool :=
  match c with
  | Broadcast _ _ => false
  | _ => true
  end.

(** The events published among a list of calls, with the organization id
    each was scoped to. *)
Fixpoint published (cs : list call) : list (string * event) :=
  match cs with
  | [] => []
  | Broadcast o ev :: cs' => (o, ev) :: published cs'
  | _ :: cs' => published cs'
  end.

(** [acme_subscribed] after Alice marked [t1] as done and the subscriber
    took the event off its queue: the generator is suspended at the yield. *)
Definition acme_yielded : world :=
  snd (Subscription.next "o-acme" (Subscription.AtGet 0)
         (snd (Mutation.update_task (Some alice) "t1" (status_only "DONE") acme_subscribed))).



(** The rate [project_stats] reports for [c] completed tasks out of [t]. *)
Definition rate (c t : nat) : float :=
  float_round1 (PrimFloat.mul (PrimFloat.div (float_of_nat c) (float_of_nat t)) 100).




(** The id of the entity a mutation creates, changes or deletes. *)
Definition entity_id (m : mutation) : string :=
  match m with
  | CreateProject new_id _ _ | CreateTask new_id _ _ | AddComment new_id _ _ => new_id
  | UpdateProject id _ | DeleteProject id | UpdateTask id _ | DeleteTask id
  | DeleteComment id => id
  end.

(** The project a task or comment mutation works under, by the ownership
    chain of the store. *)
Definition owning_project (m : mutation) (d : database) : option string :=
  match m with
  | CreateTask _ _ input => Some (ti_project_id input)
  | UpdateTask id _ | DeleteTask id =>
      t_project_id <$> find_one (task_with_id id) (db_tasks d)
  | AddComment _ _ input =>
      t_project_id <$> find_one (task_with_id (ci_task_id input)) (db_tasks d)
  | DeleteComment id =>
      c ← find_one (comment_with_id id) (db_task_comments d);
      t_project_id <$> find_one (task_with_id (c_task_id c)) (db_tasks d)
  | _ => None
  end.

(** The organization at the root of the ownership chain of the entity a
    mutation works on. *)
Definition root_organization (m : mutation) (d : database) : option string :=
  match m with
  | CreateProject _ _ input => Some (pi_organization_id input)
  | UpdateProject id _ | DeleteProject id =>
      p_organization_id <$> find_one (proj_with_id id) (db_projects d)
  | _ =>
      pid ← owning_project m d;
      p_organization_id <$> find_one (proj_with_id pid) (db_projects d)
  end.

(** The event each resolver hands to [broadcast], read off its last lines;
    [delete_comment] has no such line. *)
Definition event_of (m : mutation) (d : database) : option event :=
  match m with
  | CreateProject new_id _ _ => Some (mk_event "PROJECT_CREATED" {[ "id" := new_id ]})
  | UpdateProject id _ => Some (mk_event "PROJECT_UPDATED" {[ "id" := id ]})
  | DeleteProject id => Some (mk_event "PROJECT_DELETED" {[ "id" := id ]})
  | CreateTask new_id _ input =>
      Some (mk_event "TASK_CREATED"
              (<[ "id" := new_id ]> {[ "project_id" := ti_project_id input ]}))
  | UpdateTask id _ =>
      t ← find_one (task_with_id id) (db_tasks d);
      Some (mk_event "TASK_UPDATED" (<[ "id" := id ]> {[ "project_id" := t_project_id t ]}))
  | DeleteTask id =>
      t ← find_one (task_with_id id) (db_tasks d);
      Some (mk_event "TASK_DELETED" (<[ "id" := id ]> {[ "project_id" := t_project_id t ]}))
  | AddComment new_id _ input =>
      Some (mk_event "COMMENT_ADDED"
              (<[ "id" := new_id ]> {[ "task_id" := ci_task_id input ]}))
  | DeleteComment _ => None
  end.

(** [broadcast]'s effect on the queues: the event is put once on every
    queue in the list registered for the organization. *)
Definition deliver (o : string) (ev : event) (w : world) : list (list event) :=
  foldl (SubscriptionManager.put ev) (heap w) (default [] (connections w !! o)).

(** [s] ends with [suffix]. *)
Fixpoint ends_with (suffix s : string) : bool :=
  String.eqb suffix s ||
  match s with
  | EmptyString => false
  | String _ s' => ends_with suffix s'
  end.

(** An event type of the form [{RESOURCE}_{CREATED|UPDATED|DELETED}]. *)
Definition crud_event_type (s : string) : bool :=
  ends_with "_CREATED" s || ends_with "_UPDATED" s || ends_with "_DELETED" s.

(** The mutation Alice runs in the examples: a second comment on [t1]. *)
Definition second_comment : mutation :=
  AddComment "c2" "2024-01-07T00:00:00+00:00" (mk_TaskCommentInput "t1" "second note").

(** The caller owns no organization with this id: there is none with the
    id, or those there are belong to other users. *)
Definition owns_none (u : user_doc) (oid : string) (d : database) : Prop :=
  forall o, In o (db_organizations d) -> o_id o = oid -> o_user_id o <> u_id u.

(** The project id a mutation starts its chain from. *)
Definition project_reference (m : mutation) : option string :=
  match m with
  | UpdateProject id _ | DeleteProject id => Some id
  | CreateTask _ _ input => Some (ti_project_id input)
  | _ => None
  end.

(** The task id a mutation starts its chain from. *)
Definition task_reference (m : mutation) : option string :=
  match m with
  | UpdateTask id _ | DeleteTask id => Some id
  | AddComment _ _ input => Some (ci_task_id input)
  | _ => None
  end.

(** The call ended with an exception of kind [k] and changed nothing. *)
Definition fails_with {A} (k : failure_kind) (r : outcome A * world) (w : world) : Prop :=
  exists e, r = (Raised e, w) /\ kind e = k.

(** An empty answer: [None] is returned, no exception is raised. *)
Definition answers_nothing {A} (r : outcome (option A) * world) (w : world) : Prop :=
  r = (Returned None, w).

(** Task number [n] of project [p1]. *)
Definition numbered_task (n : nat) : task_doc :=
  mk_task (String.append "k" (pretty n)) "p1" "job" "" "TODO" "" None
    "2024-01-05T00:00:00+00:00".

(** A comment on the last of 1001 tasks. *)
Definition late_comment : comment_doc :=
  mk_comment "c-late" "k1000" "left behind" "a@x.com" "2024-01-06T00:00:00+00:00".

(** Project [p1] of [acme] with the 1001 tasks [k0] ... [k1000]. *)
Definition busy_world : world :=
  mk_world (mk_db [acme] [p1] (map numbered_task (seq 0 1001)) [late_comment]) ∅ [] [].

(** The registry invariant, kept by every operation from an empty registry
    on: a channel is registered at most once under an organization and
    refers to an allocated queue. *)
Definition hub_wf (w : world) : Prop :=
  forall o qs, connections w !! o = Some qs ->
               List.NoDup qs /\ forall q, In q qs -> q < length (heap w).

(** ** Operations on the hub and the subscription, as one type

    What a process does to the registry and the queues while it runs:
    subscriptions are opened, advanced and ended, events are broadcast, and
    mutations run. *)
Inductive hub_op :=
| OpSubscribe (o : string)
| OpUnsubscribe (o : string) (queue : queue_ref)
| OpBroadcast (o event_type : string) (data : gmap string string)
| OpOpen (o : string)
| OpNext (o : string) (g : Subscription.generator)
| OpThrow (o : string) (e : exn) (g : Subscription.generator)
| OpMutation (user : option user_doc) (m : mutation).

(** The world after one operation, whatever it returned or raised. *)
Definition hub_step (w : world) (op : hub_op) : world :=
  match op with
  | OpSubscribe o => snd (SubscriptionManager.subscribe o w)
  | OpUnsubscribe o queue => snd (SubscriptionManager.unsubscribe o queue w)
  | OpBroadcast o event_type data => snd (SubscriptionManager.broadcast o event_type data w)
  | OpOpen o => snd (Subscription.organization_events o w)
  | OpNext o g => snd (Subscription.next o g w)
  | OpThrow o e g => snd (Subscription.throw o e g w)
  | OpMutation user m => snd (run user m w)
  end.

Definition hub_steps (w : world) (ops : list hub_op) : world := foldl hub_step w ops.

(** The subscriber of [acme] and a second one, of another organization. *)
Definition two_subscribers : world :=
  hub_steps acme_world [OpSubscribe "o-acme"; OpSubscribe "o-other"].

(** A call of [broadcast], by its arguments. *)
Definition publication : Type := string * string * gmap string string.

(** The world after a sequence of [broadcast] calls. *)
Definition broadcast_all (w : world) (bs : list publication) : world :=
  foldl (fun w '(o, event_type, data) => snd (SubscriptionManager.broadcast o event_type data w))
    w bs.

(** The events of the publications scoped to organization [o], in order. *)
Definition events_for (o : string) (bs : list publication) : list event :=
  map (fun '(_, event_type, data) => mk_event event_type data)
    (List.filter (fun '(o', _, _) => String.eqb o' o) bs).

(** The first word of the event type a mutation publishes. *)
Definition resource (m : mutation) : string :=
  match m with
  | CreateProject _ _ _ | UpdateProject _ _ | DeleteProject _ => "PROJECT"
  | CreateTask _ _ _ | UpdateTask _ _ | DeleteTask _ => "TASK"
  | AddComment _ _ _ | DeleteComment _ => "COMMENT"
  end.

(** The [SubscriptionEvent] the generator builds from a queued item. *)
Definition subscription_event (organization_id : string) (ev : event) : SubscriptionEvent :=
  mk_SubscriptionEvent (ev_type ev) (split_head (ev_type ev))
    (default "" (ev_data ev !! "id")) organization_id.

(** [n] turns of the subscription loop: the events yielded, in order, and
    where the generator and the world are afterwards. *)
Fixpoint turns (n : nat) (organization_id : string) (g : Subscription.generator) (w : world)
    : list SubscriptionEvent * Subscription.generator * world :=
  match n with
  | O => ([], g, w)
  | S n' =>
      match Subscription.next organization_id g w with
      | (Returned (Some e, g'), w') =>
          let '(es, g'', w'') := turns n' organization_id g' w' in (e :: es, g'', w'')
      | (Returned (None, g'), w') => turns n' organization_id g' w'
      | (Raised _, w') => ([], g, w')
      end
  end.

(** No underscore occurs in the string. *)
Definition underscore_free (s : string) : Prop :=
  ~ In (Ascii.ascii_of_nat 95) (String.list_ascii_of_string s).

(** The caller owns the organization of the project with this id: the first
    project with the id exists, and so does an organization with the
    project's [organization_id] whose [user_id] is the caller's id. *)
Definition owns_project (u : user_doc) (pid : string) (d : database) : Prop :=
  exists p o,
    find_one (proj_with_id pid) (db_projects d) = Some p /\
    In o (db_organizations d) /\
    o_id o = p_organization_id p /\ o_user_id o = u_id u.

(** The caller owns an organization with this id. *)
Definition owns_organization (u : user_doc) (oid : string) (d : database) : Prop :=
  exists o, In o (db_organizations d) /\ o_id o = oid /\ o_user_id o = u_id u.

(** The task belongs to a project of the organization. *)
Definition task_of_organization (oid : string) (d : database) (t : task_doc) : bool :=
  existsb (fun p => proj_with_org oid p && String.eqb (t_project_id t) (p_id p))
    (db_projects d).

(** [acme] with a second project, on hold, and three tasks, two of them done. *)
Definition acme_two_projects : world :=
  mk_world
    (mk_db [acme]
       [p1; mk_proj "p2" "o-acme" "Later" "" "ON_HOLD" None "2024-01-07T00:00:00+00:00"]
       [t1;
        mk_task "t2" "p2" "a" "" "DONE" "" None "2024-01-08T00:00:00+00:00";
        mk_task "t3" "p1" "b" "" "DONE" "" None "2024-01-09T00:00:00+00:00";
        mk_task "t4" "p-elsewhere" "c" "" "DONE" "" None "2024-01-09T00:00:00+00:00"]
       [c1])
    ∅ [] [].

(** [acme_world] where the comment on [t1] was written by Bob. *)
Definition acme_with_bobs_comment : world :=
  mk_world
    (mk_db [acme] [p1] [t1]
       [mk_comment "c1" "t1" "from outside" "b@x.com" "2024-01-06T00:00:00+00:00"])
    ∅ [] [].

(** ** Accounts, tokens and the request context

    The [users] collection, the resolvers that work on it, and the context
    getter that turns an [Authorization] header into the request's user.
    What passlib and jose compute is not modelled: a resolver takes the
    fresh hash and the fresh token it obtained as arguments, as it takes
    the fresh id and the clock reading, and the two checking functions are
    the variables [verify_password] and [jwt_decode] of this section. *)

(** A document of [db.users]. *)
Record account_doc := mk_account {
  a_id : string;
  a_email : string;
  a_password : string;
  a_name : string;
  a_created_at : string
}.

(** The projection [{"_id": 0, "password": 0}], and the [User] type. *)
Definition user_of (a : account_doc) : user_doc :=
  mk_user (a_id a) (a_email a) (a_name a) (a_created_at a).

Definition account_with_email (email : string) (a : account_doc) : bool :=
  String.eqb (a_email a) email.

Definition org_with_slug (slug : string) (o : org_doc) : bool := String.eqb (o_slug o) slug.

(** The exceptions of the resolvers outside the project, task and comment
    core: those of [exn], the three further messages, what passlib raises
    when it is given a stored string that is not a hash it knows
    ([UnknownHashError], a [ValueError]), and FastAPI's [HTTPException]
    with its status code and detail. *)
Inductive exception :=
| Core (e : exn)
| EmailAlreadyRegistered      (* Exception("Email already registered") *)
| InvalidCredentials          (* Exception("Invalid credentials") *)
| SlugAlreadyExists           (* Exception("Organization slug already exists") *)
| VerifyError                 (* raised by pwd_context.verify itself *)
| HTTPException (status_code : nat) (detail : string).

Record RegisterInput := mk_RegisterInput {
  ri_email : string;
  ri_password : string;
  ri_name : string
}.

Record LoginInput := mk_LoginInput {
  li_email : string;
  li_password : string
}.

Record OrganizationInput := mk_OrganizationInput {
  oi_name : string;
  oi_slug : string;
  oi_contact_email : string
}.

Record AuthPayload := mk_AuthPayload {
  ap_token : string;
  ap_user : user_doc
}.

(** What a request or a websocket handshake carries of interest here:
    [headers.get("Authorization")]. *)
Record connection := mk_connection {
  authorization : option string
}.

(** [s[n:]] *)
Fixpoint drop_chars (n : nat) (s : string) : string :=
  match n, s with
  | O, _ => s
  | S n', String _ s' => drop_chars n' s'
  | S _, EmptyString => EmptyString
  end.

(** [if auth_header and auth_header.startswith("Bearer "): token = auth_header[7:]] *)
Definition bearer_token (c : connection) : option string :=
  match authorization c with
  | Some auth_header =>
      if negb (String.eqb auth_header "") && String.prefix "Bearer " auth_header
      then Some (drop_chars 7 auth_header)
      else None
  | None => None
  end.

Section Accounts.
(** [pwd_context.verify(plain_password, hashed_password)]: [Some] of its
    answer, or [None] when passlib raises instead of answering. *)
Variable verify_password : string -> string -> option bool.
(** [jwt.decode(token, SECRET_KEY, algorithms=[ALGORITHM])] followed by
    [payload.get("sub")]: [None] stands for a [JWTError], [Some None] for a
    payload without [sub]. *)
Variable jwt_decode : string -> option (option string).

Definition get_current_user (users : list account_doc) (token : string) : option user_doc :=
  match jwt_decode token with
  | Some (Some email) => user_of <$> find_one (account_with_email email) users
  | Some None => None
  | None => None
  end.

(** The ["user"] entry of the context built by the second, effective
    definition of [get_context]. *)
Definition get_context (users : list account_doc) (request websocket : option connection)
    : option user_doc :=
  let token :=
    match request with
    | Some request => bearer_token request
    | None =>
        match websocket with
        | Some websocket => bearer_token websocket
        | None => None
        end
    end in
  match token with
  | Some token => if String.eqb token "" then None else get_current_user users token
  | None => None
  end.

(** [Mutation.register]; [hashed] is what [get_password_hash(input.password)]
    returned and [token] what [create_access_token] returned. *)
Definition register (new_id now hashed token : string) (input : RegisterInput)
    (users : list account_doc) : (exception + AuthPayload) * list account_doc :=
  match find_one (account_with_email (ri_email input)) users with
  | Some _ => (inl EmailAlreadyRegistered, users)
  | None =>
      let user_id := new_id in
      let user_doc := mk_account user_id (ri_email input) hashed (ri_name input) now in
      (inr (mk_AuthPayload token (mk_user user_id (ri_email input) (ri_name input) now)),
       insert_one user_doc users)
  end.

(** [Mutation.login] *)
Definition login (token : string) (input : LoginInput) (users : list account_doc)
    : (exception + AuthPayload) * list account_doc :=
  match find_one (account_with_email (li_email input)) users with
  | Some user =>
      match verify_password (li_password input) (a_password user) with
      | Some true =>
          (inr (mk_AuthPayload token
                  (mk_user (a_id user) (a_email user) (a_name user) (a_created_at user))),
           users)
      | Some false => (inl InvalidCredentials, users)
      | None => (inl VerifyError, users)
      end
  | None => (inl InvalidCredentials, users)
  end.

(** [register_rest], [login_rest] and [get_me], the REST twins. *)
Definition register_rest (new_id now hashed token : string) (user : RegisterInput)
    (users : list account_doc) : (exception + AuthPayload) * list account_doc :=
  match find_one (account_with_email (ri_email user)) users with
  | Some _ => (inl (HTTPException 400 "Email already registered"), users)
  | None =>
      let user_id := new_id in
      let user_doc := mk_account user_id (ri_email user) hashed (ri_name user) now in
      (inr (mk_AuthPayload token (mk_user user_id (ri_email user) (ri_name user) now)),
       insert_one user_doc users)
  end.

Definition login_rest (token : string) (user : LoginInput) (users : list account_doc)
    : (exception + AuthPayload) * list account_doc :=
  match find_one (account_with_email (li_email user)) users with
  | Some db_user =>
      match verify_password (li_password user) (a_password db_user) with
      | Some true =>
          (inr (mk_AuthPayload token
                  (mk_user (a_id db_user) (a_email db_user) (a_name db_user)
                     (a_created_at db_user))),
           users)
      | Some false => (inl (HTTPException 401 "Invalid credentials"), users)
      | None => (inl VerifyError, users)
      end
  | None => (inl (HTTPException 401 "Invalid credentials"), users)
  end.

Definition get_me (users : list account_doc) (credentials : string) : exception + user_doc :=
  match get_current_user users credentials with
  | Some user => inr user
  | None => inl (HTTPException 401 "Invalid token")
  end.

End Accounts.

(** [Mutation.create_organization] *)
Definition create_organization (user : option user_doc) (new_id now : string)
    (input : OrganizationInput) (w : world) : (exception + Organization) * world :=
  match user with
  | None => (inl (Core NotAuthenticated), w)
  | Some user =>
      match find_one (org_with_slug (oi_slug input)) (db_organizations (db w)) with
      | Some _ => (inl SlugAlreadyExists, w)
      | None =>
          let org_id := new_id in
          let org_doc := mk_org org_id (u_id user) (oi_name input) (oi_slug input)
                           (oi_contact_email input) now in
          (inr (mk_Organization org_id (oi_name input) (oi_slug input)
                  (oi_contact_email input) now),
           log (InsertOne "organizations")
             (with_db (set_organizations (insert_one org_doc (db_organizations (db w)))
                         (db w)) w))
      end
  end.

(** A token format for the examples: the token of an email is the email
    behind the prefix ["jwt:"]; anything else fails to decode. *)
Definition example_decode (token : string) : option (option string) :=
  if String.prefix "jwt:" token then Some (Some (drop_chars 4 token)) else None.

(** A hash for the examples: the hash of a password is the password behind
    the prefix ["hash:"], and a string without that prefix is no hash. *)
Definition example_verify (plain_password hashed_password : string) : option bool :=
  if String.prefix "hash:" hashed_password
  then Some (String.eqb hashed_password (String.append "hash:" plain_password))
  else None.

(** The calls that touch [db.users], and a run of them one after another. *)
Inductive account_op :=
| OpRegister (new_id now hashed token : string) (input : RegisterInput)
| OpRegisterRest (new_id now hashed token : string) (user : RegisterInput)
| OpLogin (token : string) (input : LoginInput)
| OpLoginRest (token : string) (user : LoginInput).

Definition account_step (verify_password : string -> string -> option bool)
    (users : list account_doc) (op : account_op) : list account_doc :=
  match op with
  | OpRegister new_id now hashed token input =>
      (register new_id now hashed token input users).2
  | OpRegisterRest new_id now hashed token user =>
      (register_rest new_id now hashed token user users).2
  | OpLogin token input => (login verify_password token input users).2
  | OpLoginRest token user => (login_rest verify_password token user users).2
  end.

Definition account_steps (verify_password : string -> string -> option bool)
    (users : list account_doc) (ops : list account_op) : list account_doc :=
  foldl (account_step verify_password) users ops.

(** The REST status and detail that stand for a GraphQL exception. *)
Definition as_http_exception (e : exception) : exception :=
  match e with
  | EmailAlreadyRegistered => HTTPException 400 "Email already registered"
  | InvalidCredentials => HTTPException 401 "Invalid credentials"
  | e => e
  end.

Definition as_http {A} (r : (exception + A) * list account_doc)
    : (exception + A) * list account_doc :=
  (match r.1 with inl e => inl (as_http_exception e) | inr a => inr a end, r.2).

(** One registered account, with the example hash of its password. *)
Definition carol_account : account_doc :=
  mk_account "u-carol" "c@x.com" "hash:secret" "Carol" "2024-01-03T00:00:00+00:00".
Definition carol_input : RegisterInput := mk_RegisterInput "c@x.com" "secret" "Carol".
Definition dave_input : RegisterInput := mk_RegisterInput "d@x.com" "pw" "Dave".

(** * Properties *)

(** ** Collections *)
Section CollectionFacts.
Context {A : Type}.
Implicit Types (f g : A -> bool) (l : list A).

Lemma find_one_Some f l x : find_one f l = Some x -> f x = true /\ In x l.
Proof.
  unfold find_one. intros H. apply find_some in H. tauto.
Qed.

Lemma find_one_None f l x : find_one f l = None -> In x l -> f x = false.
Proof. unfold find_one. intros H. exact (find_none f l H x). Qed.

Lemma find_one_update_one f upd l :
  (forall d, f d = true -> f (upd d) = true) ->
  find_one f (update_one f upd l) = option_map upd (find_one f l).
Proof.
  intros Hstable. induction l as [|d l IH]; [reflexivity|].
  cbn. destruct (f d) eqn:Hd; cbn.
  - now rewrite (Hstable d Hd).
  - now rewrite Hd.
Qed.

Lemma update_one_keeps f upd l x : In x l -> f x = false -> In x (update_one f upd l).
Proof.
  induction l as [|d l IH]; [easy|].
  intros [->|Hin] Hx; cbn.
  - rewrite Hx. now left.
  - destruct (f d); [now right | right; auto].
Qed.

Lemma update_one_length f upd l : length (update_one f upd l) = length l.
Proof.
  induction l as [|d l IH]; [reflexivity|].
  cbn. destruct (f d); cbn; congruence.
Qed.

Lemma delete_many_In f l x : In x (delete_many f l) <-> In x l /\ f x = false.
Proof.
  unfold delete_many. rewrite filter_In. now rewrite negb_true_iff.
Qed.

Lemma count_documents_le f g l :
  (forall d, f d = true -> g d = true) -> count_documents f l <= count_documents g l.
Proof.
  intros Hfg. unfold count_documents.
  induction l as [|d l IH]; [reflexivity|].
  cbn. destruct (f d) eqn:Hf.
  - rewrite (Hfg d Hf). cbn. lia.
  - destruct (g d); cbn; lia.
Qed.

Lemma find_to_list_all f n l :
  count_documents f l <= n -> find_to_list f n l = List.filter f l.
Proof. unfold count_documents, find_to_list. intros H. now apply take_ge. Qed.

End CollectionFacts.

Lemma in_ids_true ids x : in_ids ids x = true <-> In x ids.
Proof.
  unfold in_ids. rewrite existsb_exists. split.
  - intros (y & Hy & Heq). apply String.eqb_eq in Heq. now subst.
  - intros H. exists x. split; [assumption | apply String.eqb_refl].
Qed.

(** ** The notification hub *)

Lemma broadcast_run o ty data w :
  SubscriptionManager.broadcast o ty data w
  = (Returned tt,
     mk_world (db w) (connections w)
       (foldl (SubscriptionManager.put (mk_event ty data)) (heap w)
          (default [] (connections w !! o)))
       (calls w ++ [Broadcast o (mk_event ty data)])).
Proof.
  unfold SubscriptionManager.broadcast. cbn.
  destruct (connections w !! o); reflexivity.
Qed.

(** ** Partial updates *)

Lemma set_if_given_lookup_ne key value ud k :
  key <> k -> set_if_given key value ud !! k = ud !! k.
Proof.
  intros Hne. destruct value as [v|]; cbn; [|reflexivity].
  now apply lookup_insert_ne.
Qed.

Lemma set_if_given_lookup_eq key value ud :
  set_if_given key value ud !! key = match value with Some v => Some v | None => ud !! key end.
Proof.
  destruct value as [v|]; cbn; [|reflexivity]. apply lookup_insert_eq.
Qed.

Ltac lookup_update_data :=
  repeat (rewrite set_if_given_lookup_ne by discriminate);
  try rewrite set_if_given_lookup_eq;
  repeat (rewrite set_if_given_lookup_ne by discriminate);
  try apply lookup_empty.

Lemma task_update_data_empty input :
  Mutation.task_update_data input = ∅ <->
  tu_title input = None /\ tu_description input = None /\ tu_status input = None /\
  tu_assignee_email input = None /\ tu_due_date input = None.
Proof.
  destruct input as [[a|] [b|] [c|] [d|] [e|]]; unfold Mutation.task_update_data; cbn;
    split; try (intros H; exfalso; revert H; apply insert_non_empty);
    try (intros (?&?&?&?&?); discriminate); auto.
Qed.

Lemma project_update_data_empty input :
  Mutation.project_update_data input = ∅ <->
  pu_name input = None /\ pu_description input = None /\ pu_status input = None /\
  pu_due_date input = None.
Proof.
  destruct input as [[a|] [b|] [c|] [d|]]; unfold Mutation.project_update_data; cbn;
    split; try (intros H; exfalso; revert H; apply insert_non_empty);
    try (intros (?&?&?&?); discriminate); auto.
Qed.

(** What [update_one] with [{"$set": task_update_data input}] does to a
    task, field by field. *)
Lemma set_task_fields input t :
  let t' := set_task (Mutation.task_update_data input) t in
  t_id t' = t_id t /\ t_project_id t' = t_project_id t /\ t_created_at t' = t_created_at t /\
  t_title t' = default (t_title t) (tu_title input) /\
  t_description t' = default (t_description t) (tu_description input) /\
  t_status t' = default (t_status t) (tu_status input) /\
  t_assignee_email t' = default (t_assignee_email t) (tu_assignee_email input) /\
  t_due_date t' = match tu_due_date input with Some v => Some v | None => t_due_date t end.
Proof.
  unfold set_task, Mutation.task_update_data. cbn.
  repeat split; lookup_update_data;
    try reflexivity;
    match goal with |- context [match ?o with _ => _ end] => destruct o; reflexivity end.
Qed.

Lemma set_proj_fields input p :
  let p' := set_proj (Mutation.project_update_data input) p in
  p_id p' = p_id p /\ p_organization_id p' = p_organization_id p /\
  p_created_at p' = p_created_at p /\
  p_name p' = default (p_name p) (pu_name input) /\
  p_description p' = default (p_description p) (pu_description input) /\
  p_status p' = default (p_status p) (pu_status input) /\
  p_due_date p' = match pu_due_date input with Some v => Some v | None => p_due_date p end.
Proof.
  unfold set_proj, Mutation.project_update_data. cbn.
  repeat split; lookup_update_data;
    try reflexivity;
    match goal with |- context [match ?o with _ => _ end] => destruct o; reflexivity end.
Qed.

Lemma task_with_id_set_task input id t :
  task_with_id id (set_task (Mutation.task_update_data input) t) = task_with_id id t.
Proof.
  unfold task_with_id. now destruct (set_task_fields input t) as (-> & _).
Qed.

Lemma proj_with_id_set_proj input id p :
  proj_with_id id (set_proj (Mutation.project_update_data input) p) = proj_with_id id p.
Proof.
  unfold proj_with_id. now destruct (set_proj_fields input p) as (-> & _).
Qed.

(** ** [update_task] and [update_project] on an entity the caller owns *)
Section OwnedTask.
Variables (user : user_doc) (id : string) (w : world).
Variables (task : task_doc) (proj : proj_doc) (org : org_doc).
Hypothesis Htask : find_one (task_with_id id) (db_tasks (db w)) = Some task.
Hypothesis Hproj : find_one (proj_with_id (t_project_id task)) (db_projects (db w)) = Some proj.
Hypothesis Horg :
  find_one (org_with_id_user (p_organization_id proj) (u_id user)) (db_organizations (db w))
  = Some org.

Let task_updated : event :=
  mk_event "TASK_UPDATED" (<[ "id" := id ]> {[ "project_id" := t_project_id task ]}).

Lemma update_task_writes input :
  Mutation.task_update_data input <> ∅ ->
  Mutation.update_task (Some user) id input w
  = (Returned (set_task (Mutation.task_update_data input) task),
     mk_world
       (set_tasks (update_one (task_with_id id) (set_task (Mutation.task_update_data input))
                     (db_tasks (db w))) (db w))
       (connections w)
       (foldl (SubscriptionManager.put task_updated) (heap w)
          (default [] (connections w !! p_organization_id proj)))
       (calls w ++ [UpdateOne "tasks"; Broadcast (p_organization_id proj) task_updated])).
Proof.
  intros Hne. unfold Mutation.update_task, bind, authenticated, or_raise, query, ret, write.
  cbn. rewrite Htask. cbn. rewrite Hproj. cbn. rewrite Horg. cbn.
  destruct (decide (Mutation.task_update_data input = ∅)) as [He|_]; [contradiction|].
  cbn. rewrite broadcast_run. cbn.
  rewrite find_one_update_one by (intros d; now rewrite task_with_id_set_task).
  rewrite Htask. cbn. now rewrite <- app_assoc.
Qed.

Lemma update_task_skips input :
  Mutation.task_update_data input = ∅ ->
  Mutation.update_task (Some user) id input w
  = (Returned task,
     mk_world (db w) (connections w)
       (foldl (SubscriptionManager.put task_updated) (heap w)
          (default [] (connections w !! p_organization_id proj)))
       (calls w ++ [Broadcast (p_organization_id proj) task_updated])).
Proof.
  intros He. unfold Mutation.update_task, bind, authenticated, or_raise, query, ret, write.
  cbn. rewrite Htask. cbn. rewrite Hproj. cbn. rewrite Horg. cbn.
  destruct (decide (Mutation.task_update_data input = ∅)) as [_|Hne]; [|contradiction].
  cbn. rewrite broadcast_run. cbn. now rewrite Htask.
Qed.

End OwnedTask.

Lemma update_task_frame user id input w task proj org t' w' :
  find_one (task_with_id id) (db_tasks (db w)) = Some task ->
  find_one (proj_with_id (t_project_id task)) (db_projects (db w)) = Some proj ->
  find_one (org_with_id_user (p_organization_id proj) (u_id user)) (db_organizations (db w))
  = Some org ->
  Mutation.update_task (Some user) id input w = (Returned t', w') ->
  t' = set_task (Mutation.task_update_data input) task /\
  find_one (task_with_id id) (db_tasks (db w')) = Some t' /\
  only_task_changed id (db w) (db w').
Proof.
  intros Htask Hproj Horg Hrun.
  destruct (decide (Mutation.task_update_data input = ∅)) as [He|Hne].
  - rewrite (update_task_skips user id w task proj org Htask Hproj Horg input He) in Hrun.
    injection Hrun as <- <-. cbn. rewrite He.
    split; [now destruct task|]. split; [assumption|].
    unfold only_task_changed. auto.
  - rewrite (update_task_writes user id w task proj org Htask Hproj Horg input Hne) in Hrun.
    injection Hrun as <- <-. cbn.
    repeat split; try reflexivity.
    + rewrite find_one_update_one by (intros d; now rewrite task_with_id_set_task).
      now rewrite Htask.
    + apply update_one_length.
    + intros t Hin Hid. now apply update_one_keeps.
Qed.

(** C9. For an existing task whose chain resolves to an organization of the
    caller, [update_task] returns, and the task it returns is the one stored
    under that id afterwards. A field omitted from the input keeps its prior
    stored value, a field that is supplied takes the supplied value, and
    [id], [project_id] and [created_at] never change; so an input that
    supplies only [status] changes the stored status and leaves [title],
    [description], [assignee_email], [due_date], [project_id] and
    [created_at] as they were. Nothing else in the store changes. *)
Theorem update_task_changes_only_supplied_fields
    (user : user_doc) (id : string) (w : world)
    (task : task_doc) (proj : proj_doc) (org : org_doc)
    (Htask : find_one (task_with_id id) (db_tasks (db w)) = Some task)
    (Hproj : find_one (proj_with_id (t_project_id task)) (db_projects (db w)) = Some proj)
    (Horg : find_one (org_with_id_user (p_organization_id proj) (u_id user))
              (db_organizations (db w)) = Some org) :
  (forall input, exists t' w',
      Mutation.update_task (Some user) id input w = (Returned t', w') /\
      find_one (task_with_id id) (db_tasks (db w')) = Some t' /\
      only_task_changed id (db w) (db w') /\
      t_id t' = t_id task /\ t_project_id t' = t_project_id task /\
      t_created_at t' = t_created_at task /\
      (tu_title input = None -> t_title t' = t_title task) /\
      (tu_description input = None -> t_description t' = t_description task) /\
      (tu_status input = None -> t_status t' = t_status task) /\
      (tu_assignee_email input = None -> t_assignee_email t' = t_assignee_email task) /\
      (tu_due_date input = None -> t_due_date t' = t_due_date task) /\
      (forall v, tu_title input = Some v -> t_title t' = v) /\
      (forall v, tu_description input = Some v -> t_description t' = v) /\
      (forall v, tu_status input = Some v -> t_status t' = v) /\
      (forall v, tu_assignee_email input = Some v -> t_assignee_email t' = v) /\
      (forall v, tu_due_date input = Some v -> t_due_date t' = Some v)) /\
  (forall status, exists t' w',
      Mutation.update_task (Some user) id (status_only status) w = (Returned t', w') /\
      find_one (task_with_id id) (db_tasks (db w')) = Some t' /\
      only_task_changed id (db w) (db w') /\
      t' = mk_task (t_id task) (t_project_id task) (t_title task) (t_description task)
             status (t_assignee_email task) (t_due_date task) (t_created_at task)).
Proof.
  assert (Hgen : forall input, exists t' w',
             Mutation.update_task (Some user) id input w = (Returned t', w') /\
             t' = set_task (Mutation.task_update_data input) task /\
             find_one (task_with_id id) (db_tasks (db w')) = Some t' /\
             only_task_changed id (db w) (db w')).
  { intros input.
    destruct (Mutation.update_task (Some user) id input w) as [r w'] eqn:Hrun.
    destruct (decide (Mutation.task_update_data input = ∅)) as [He|Hne].
    - pose proof Hrun as Hrun'.
      rewrite (update_task_skips user id w task proj org Htask Hproj Horg input He) in Hrun'.
      injection Hrun' as <- Hw. exists task, w'. split; [reflexivity|].
      exact (update_task_frame user id input w task proj org task w' Htask Hproj Horg Hrun).
    - pose proof Hrun as Hrun'.
      rewrite (update_task_writes user id w task proj org Htask Hproj Horg input Hne) in Hrun'.
      injection Hrun' as <- Hw. eexists _, w'. split; [reflexivity|].
      exact (update_task_frame user id input w task proj org _ w' Htask Hproj Horg Hrun). }
  split.
  - intros input. destruct (Hgen input) as (t' & w' & Hrun & -> & Hstored & Hframe).
    exists (set_task (Mutation.task_update_data input) task), w'.
    destruct (set_task_fields input task) as (Hid & Hpid & Hcr & Hti & Hde & Hst & Has & Hdu).
    rewrite Hti, Hde, Hst, Has, Hdu.
    repeat match goal with |- _ /\ _ => split end; try assumption;
      try (intros Hnone; now rewrite Hnone);
      intros v Hv; now rewrite Hv.
  - intros status. destruct (Hgen (status_only status)) as (t' & w' & Hrun & -> & Hstored & Hframe).
    eexists _, w'.
    repeat match goal with |- _ /\ _ => split end; try eassumption.
    reflexivity.
Qed.

Lemma update_task_changes_only_supplied_fields_witness :
  find_one (task_with_id "t1") (db_tasks (db acme_world)) = Some t1 /\
  exists t' w',
    Mutation.update_task (Some alice) "t1" (status_only "DONE") acme_world = (Returned t', w') /\
    find_one (task_with_id "t1") (db_tasks (db w')) = Some t' /\
    only_task_changed "t1" (db acme_world) (db w') /\
    t' = mk_task "t1" "p1" "Write plan" "draft" "DONE" "a@x.com" (Some "2024-02-01")
           "2024-01-05T00:00:00+00:00".
Proof.
  split; [reflexivity|].
  exact (proj2 (update_task_changes_only_supplied_fields alice "t1" acme_world t1 p1 acme
                  eq_refl eq_refl eq_refl) "DONE").
Defined.

Section OwnedProject.
Variables (user : user_doc) (id : string) (w : world).
Variables (proj : proj_doc) (org : org_doc).
Hypothesis Hproj : find_one (proj_with_id id) (db_projects (db w)) = Some proj.
Hypothesis Horg :
  find_one (org_with_id_user (p_organization_id proj) (u_id user)) (db_organizations (db w))
  = Some org.

Let project_updated : event := mk_event "PROJECT_UPDATED" {[ "id" := id ]}.

Lemma update_project_writes input :
  Mutation.project_update_data input <> ∅ ->
  Mutation.update_project (Some user) id input w
  = (Returned (mk_Project (set_proj (Mutation.project_update_data input) proj)
                 (count_documents (task_with_project id) (db_tasks (db w)))
                 (count_documents (task_with_project_status id "DONE") (db_tasks (db w)))),
     mk_world
       (set_projects (update_one (proj_with_id id) (set_proj (Mutation.project_update_data input))
                        (db_projects (db w))) (db w))
       (connections w)
       (foldl (SubscriptionManager.put project_updated) (heap w)
          (default [] (connections w !! p_organization_id proj)))
       (calls w ++ [UpdateOne "projects"; Broadcast (p_organization_id proj) project_updated])).
Proof.
  intros Hne. unfold Mutation.update_project, bind, authenticated, or_raise, query, ret, write.
  cbn. rewrite Hproj. cbn. rewrite Horg. cbn.
  destruct (decide (Mutation.project_update_data input = ∅)) as [He|_]; [contradiction|].
  cbn. rewrite broadcast_run. cbn.
  rewrite find_one_update_one by (intros d; now rewrite proj_with_id_set_proj).
  rewrite Hproj. cbn. now rewrite <- app_assoc.
Qed.

Lemma update_project_skips input :
  Mutation.project_update_data input = ∅ ->
  Mutation.update_project (Some user) id input w
  = (Returned (mk_Project proj
                 (count_documents (task_with_project id) (db_tasks (db w)))
                 (count_documents (task_with_project_status id "DONE") (db_tasks (db w)))),
     mk_world (db w) (connections w)
       (foldl (SubscriptionManager.put project_updated) (heap w)
          (default [] (connections w !! p_organization_id proj)))
       (calls w ++ [Broadcast (p_organization_id proj) project_updated])).
Proof.
  intros He. unfold Mutation.update_project, bind, authenticated, or_raise, query, ret, write.
  cbn. rewrite Hproj. cbn. rewrite Horg. cbn.
  destruct (decide (Mutation.project_update_data input = ∅)) as [_|Hne]; [|contradiction].
  cbn. rewrite broadcast_run. cbn. now rewrite Hproj.
Qed.

End OwnedProject.

(** C10. For an existing project, or task, whose chain resolves to an
    organization of the caller, an update whose input omits every field
    returns the stored entity as it is, leaves the Entity Store as it was
    without calling any write on it, and makes exactly one call of
    [broadcast]: [PROJECT_UPDATED], respectively [TASK_UPDATED], scoped to
    the organization of the entity's project. *)
Theorem update_with_every_field_omitted :
  (forall (user : user_doc) (id : string) (w : world) (proj : proj_doc) (org : org_doc),
      find_one (proj_with_id id) (db_projects (db w)) = Some proj ->
      find_one (org_with_id_user (p_organization_id proj) (u_id user)) (db_organizations (db w))
      = Some org ->
      exists r w' new_calls,
        Mutation.update_project (Some user) id no_project_fields w = (Returned r, w') /\
        project_doc r = proj /\
        db w' = db w /\
        calls w' = calls w ++ new_calls /\
        List.filter is_write new_calls = [] /\
        published new_calls
        = [(p_organization_id proj, mk_event "PROJECT_UPDATED" {[ "id" := id ]})]) /\
  (forall (user : user_doc) (id : string) (w : world)
          (task : task_doc) (proj : proj_doc) (org : org_doc),
      find_one (task_with_id id) (db_tasks (db w)) = Some task ->
      find_one (proj_with_id (t_project_id task)) (db_projects (db w)) = Some proj ->
      find_one (org_with_id_user (p_organization_id proj) (u_id user)) (db_organizations (db w))
      = Some org ->
      exists r w' new_calls,
        Mutation.update_task (Some user) id no_task_fields w = (Returned r, w') /\
        r = task /\
        db w' = db w /\
        calls w' = calls w ++ new_calls /\
        List.filter is_write new_calls = [] /\
        published new_calls
        = [(p_organization_id proj,
            mk_event "TASK_UPDATED" (<[ "id" := id ]> {[ "project_id" := t_project_id task ]}))]).
Proof.
  split.
  - intros user id w proj org Hproj Horg.
    eexists _, _, _. split.
    + apply (update_project_skips user id w proj org Hproj Horg). reflexivity.
    + cbn. repeat split; reflexivity.
  - intros user id w task proj org Htask Hproj Horg.
    eexists _, _, _. split.
    + apply (update_task_skips user id w task proj org Htask Hproj Horg). reflexivity.
    + cbn. repeat split; reflexivity.
Qed.

Lemma update_with_every_field_omitted_witness :
  (exists r w',
      Mutation.update_project (Some alice) "p1" no_project_fields acme_subscribed
      = (Returned r, w') /\
      project_doc r = p1 /\ db w' = db acme_subscribed /\
      heap w' = [[mk_event "PROJECT_UPDATED" {[ "id" := "p1" ]}]]) /\
  (exists r w',
      Mutation.update_task (Some alice) "t1" no_task_fields acme_subscribed = (Returned r, w') /\
      r = t1 /\ db w' = db acme_subscribed /\
      heap w'
      = [[mk_event "TASK_UPDATED" (<[ "id" := "t1" ]> {[ "project_id" := "p1" ]})]]).
Proof.
  split.
  - destruct (proj1 update_with_every_field_omitted alice "p1" acme_subscribed p1 acme
                eq_refl eq_refl) as (r & w' & cs & Hrun & Hr & Hdb & _).
    exists r, w'. repeat split; try assumption.
    vm_compute in Hrun. now injection Hrun as <- <-.
  - destruct (proj2 update_with_every_field_omitted alice "t1" acme_subscribed t1 p1 acme
                eq_refl eq_refl eq_refl) as (r & w' & cs & Hrun & Hr & Hdb & _).
    exists r, w'. repeat split; try assumption.
    vm_compute in Hrun. now injection Hrun as <- <-.
Defined.

(** ** Reading comments *)

(** [task_comments] never looks at the task, its project or the
    organization: any two authenticated callers get the same answer. *)
Lemma task_comments_ignores_caller (u u' : user_doc) (task_id : string) (w : world) :
  Query.task_comments (Some u) task_id w
  = (Returned (find_to_list (comment_with_task task_id) 1000 (db_task_comments (db w))), w) /\
  Query.task_comments (Some u) task_id w = Query.task_comments (Some u') task_id w.
Proof. split; reflexivity. Qed.

(** C1, at a failing input. Bob does not own [acme], and the sibling
    queries [tasks] and [task] refuse him the task [t1] of [acme]; yet
    [task_comments] hands him the comment [c1] on that task. *)
Theorem task_comments_answers_a_non_owner :
  o_user_id acme <> u_id bob /\
  Query.tasks (Some bob) "p1" acme_world = (Raised AccessDenied, acme_world) /\
  Query.task (Some bob) "t1" acme_world = (Returned None, acme_world) /\
  Query.task_comments (Some bob) "t1" acme_world = (Returned [c1], acme_world).
Proof. repeat split; try reflexivity. discriminate. Qed.

(** ** Leaving the hub *)

Lemma list_remove_None q qs : SubscriptionManager.list_remove q qs = None <-> ~ In q qs.
Proof.
  induction qs as [|q' qs IH]; cbn; [tauto|].
  destruct (Nat.eqb_spec q' q) as [->|Hne].
  - split; [discriminate | intros H; exfalso; apply H; now left].
  - destruct (SubscriptionManager.list_remove q qs).
    + split; [discriminate|]. intros H.
      assert (Hnin : ~ In q qs) by (intros Hin; apply H; now right).
      apply IH in Hnin. discriminate.
    + split; [|reflexivity]. intros _ [Heq|Hin]; [congruence|].
      now apply (proj1 IH).
Qed.

(** With no entry for the organization, [unsubscribe] does nothing. *)
Lemma unsubscribe_unknown_organization o q w :
  connections w !! o = None -> SubscriptionManager.unsubscribe o q w = (Returned tt, w).
Proof. intros H. unfold SubscriptionManager.unsubscribe. now rewrite H. Qed.

(** With an entry that does not hold the channel, [list.remove] raises. *)
Lemma unsubscribe_absent_channel o q qs w :
  connections w !! o = Some qs -> ~ In q qs ->
  SubscriptionManager.unsubscribe o q w = (Raised ValueError, w).
Proof.
  intros H Hnin. unfold SubscriptionManager.unsubscribe. rewrite H.
  apply list_remove_None in Hnin. now rewrite Hnin.
Qed.

(** C2, at a failing input. The only subscriber of [acme] unsubscribes:
    the entry of [acme] stays, empty. Unsubscribing the same channel again
    raises [ValueError]. *)
Theorem unsubscribe_twice_raises :
  connections acme_subscribed !! "o-acme" = Some [0] /\
  exists w',
    SubscriptionManager.unsubscribe "o-acme" 0 acme_subscribed = (Returned tt, w') /\
    connections w' !! "o-acme" = Some [] /\
    SubscriptionManager.unsubscribe "o-acme" 0 w' = (Raised ValueError, w').
Proof.
  split; [reflexivity|].
  eexists. split; [reflexivity|]. split; reflexivity.
Qed.

(** ** Leaving the subscription loop *)

(** An exception other than [CancelledError] passes the handler: it leaves
    the generator with the world as it was, the channel still registered. *)
Lemma throw_unhandled o e queue w :
  e <> CancelledError ->
  Subscription.throw o e (Subscription.AtGet queue) w = (Raised e, w) /\
  Subscription.throw o e (Subscription.AtYield queue) w = (Raised e, w).
Proof. intros He. destruct e; try contradiction; split; reflexivity. Qed.

(** A cancellation runs the handler: the first registration of the channel
    is removed before the generator finishes. *)
Lemma throw_cancelled o queue qs qs' w :
  connections w !! o = Some qs ->
  SubscriptionManager.list_remove queue qs = Some qs' ->
  Subscription.throw o CancelledError (Subscription.AtGet queue) w
  = (Returned Subscription.Finished, with_connections (<[o := qs']> (connections w)) w).
Proof.
  intros Hc Hr. unfold Subscription.throw, bind, SubscriptionManager.unsubscribe.
  now rewrite Hc, Hr.
Qed.

(** C5, at a failing input. The subscriber of [acme] is registered as
    channel 0 and has been handed one event. Closing the generator at the
    yield ([GeneratorExit]) or an error raised in the loop ends the
    subscription with channel 0 still registered under [acme]; only a
    cancellation unsubscribes it. *)
Theorem organization_events_keeps_channel_on_close_or_error :
  Subscription.organization_events "o-acme" acme_world
  = (Returned (Subscription.AtGet 0), acme_subscribed) /\
  connections acme_yielded !! "o-acme" = Some [0] /\
  Subscription.throw "o-acme" GeneratorExit (Subscription.AtYield 0) acme_yielded
  = (Raised GeneratorExit, acme_yielded) /\
  Subscription.throw "o-acme" RuntimeError (Subscription.AtGet 0) acme_subscribed
  = (Raised RuntimeError, acme_subscribed) /\
  connections
    (snd (Subscription.throw "o-acme" CancelledError (Subscription.AtGet 0) acme_subscribed))
    !! "o-acme" = Some [].
Proof. repeat split; reflexivity. Qed.

(** ** Statistics *)

Lemma round_half_even_nearest (n d : Z) :
  (0 < d)%Z -> (0 <= n)%Z ->
  (Z.abs (2 * n - 2 * round_half_even n d * d) <= d)%Z.
Proof.
  intros Hd Hn. unfold round_half_even.
  pose proof (Z.div_mod n d ltac:(lia)) as Hdm.
  pose proof (Z.mod_pos_bound n d Hd) as Hr.
  set (q := (n / d)%Z) in *. set (r := (n mod d)%Z) in *.
  destruct (Z.ltb_spec (2 * r) d); [nia|].
  destruct (Z.ltb_spec d (2 * r)); [nia|].
  destruct (Z.even q); nia.
Qed.

(** [round(x, 1)] of a float with fractional bits: its exact value
    [m / 2^k] times ten lies within one half of the integer [q] whose
    tenth is returned. *)
Lemma float_round1_nearest (x : float) (s : bool) (m k : positive) :
  Prim2SF x = S754_finite s m (Zneg k) ->
  exists q : Z,
    float_round1 x = tenths s q /\
    (Z.abs (2 * (10 * Zpos m) - 2 * q * 2 ^ Zpos k) <= 2 ^ Zpos k)%Z.
Proof.
  intros Hx. exists (round_half_even (10 * Zpos m) (2 ^ Zpos k)). split.
  - unfold float_round1. now rewrite Hx.
  - apply round_half_even_nearest; [apply Z.pow_pos_nonneg|]; lia.
Qed.




(** Thirds are cut to one decimal; the ties 6.25 and 43.75, exact in
    binary64, go to the even tenth. *)
Example rate_examples :
  rate 1 1 = 100%float /\ rate 0 5 = 0%float /\
  rate 1 3 = tenths false 333 /\ rate 2 3 = tenths false 667 /\
  rate 1 16 = tenths false 62 /\ rate 7 16 = tenths false 438.
Proof. repeat split; vm_compute; reflexivity. Qed.





(** ** What a mutation publishes *)

Ltac unfold_resolver :=
  unfold run, Mutation.create_project, Mutation.update_project, Mutation.delete_project,
    Mutation.create_task, Mutation.update_task, Mutation.delete_task,
    Mutation.add_comment, Mutation.delete_comment,
    bind, authenticated, or_raise, query, ret, raise, write in *.

(** Steps through a resolver that is known to have returned: every lookup
    it depends on is split into its cases, and those that raise are closed. *)
Ltac invert_returned H :=
  repeat first
    [ discriminate H
    | progress cbn in H
    | rewrite broadcast_run in H
    | match type of H with
      | context [match ?x with _ => _ end] =>
          lazymatch x with
          | context [match _ with _ => _ end] => fail
          | _ => destruct x eqn:?
          end
      end ];
  simplify_eq.

(** A mutation that returns was called by an authenticated user, leaves the
    registry as it was, and, unless it is [delete_comment], ends with one
    call of [broadcast] for the organization at the root of the chain, which
    the caller owns; the calls before it are writes to the store. *)
Lemma run_returned user m w w' :
  run user m w = (Returned tt, w') ->
  exists u, user = Some u /\ connections w' = connections w /\
    match m with
    | DeleteComment _ =>
        calls w' = calls w ++ [DeleteOne "task_comments"] /\ heap w' = heap w
    | _ =>
        exists o org ev writes,
          root_organization m (db w) = Some o /\
          find_one (org_with_id_user o (u_id u)) (db_organizations (db w)) = Some org /\
          event_of m (db w) = Some ev /\
          calls w' = calls w ++ writes ++ [Broadcast o ev] /\
          published writes = [] /\
          heap w' = deliver o ev w
    end.
Proof.
  intros H. destruct m; unfold_resolver; invert_returned H.
  all: eexists; split; [reflexivity|]; split; [reflexivity|].
  all: try (split; reflexivity).
  all: cbn.
  all: repeat match goal with Heq : _ = _ |- _ => rewrite Heq end; cbn.
  all: eexists _, _, _, _; repeat split; try reflexivity; try eassumption.
  all: try match goal with
           | Heq : find_one ?f ?l = Some _ |- context [find_one ?f ?l] =>
               rewrite Heq; reflexivity
           end.
  all: try lazymatch goal with
           | |- ?a ++ ?b = ?a ++ ?l ++ ?b => unify l (@nil call); reflexivity
           | |- (?a ++ ?x) ++ ?b = ?a ++ ?l ++ ?b =>
               unify l x; symmetry; apply app_assoc
           | |- ((?a ++ ?x) ++ ?y) ++ ?b = ?a ++ ?l ++ ?b =>
               unify l (x ++ y); now rewrite <- !app_assoc
           | |- (((?a ++ ?x) ++ ?y) ++ ?z) ++ ?b = ?a ++ ?l ++ ?b =>
               unify l (x ++ y ++ z); now rewrite <- !app_assoc
           end.
  all: try reflexivity.
Qed.

Lemma published_app cs cs' : published (cs ++ cs') = published cs ++ published cs'.
Proof.
  induction cs as [|c cs IH]; [reflexivity|].
  destruct c; cbn; now rewrite ?IH.
Qed.

(** ** What a subscriber sees *)

Lemma put_lookup ev h q q' :
  SubscriptionManager.put ev h q !! q'
  = if decide (q = q') then (fun items => items ++ [ev]) <$> h !! q' else h !! q'.
Proof.
  unfold SubscriptionManager.put. rewrite list_lookup_alter.
  repeat case_decide; subst; first [reflexivity | congruence].
Qed.

(** A queue that is not registered for the organization is left alone. *)
Lemma deliver_other ev qs h q :
  ~ In q qs -> foldl (SubscriptionManager.put ev) h qs !! q = h !! q.
Proof.
  revert h. induction qs as [|q' qs IH]; intros h Hnin; [reflexivity|].
  cbn. rewrite IH by (intros Hin; apply Hnin; now right).
  rewrite put_lookup. destruct (decide (q' = q)) as [->|_]; [|reflexivity].
  exfalso. apply Hnin. now left.
Qed.

(** A queue registered once for the organization gets the event once, at
    its end. *)
Lemma deliver_once ev qs h q :
  List.NoDup qs -> In q qs ->
  foldl (SubscriptionManager.put ev) h qs !! q = (fun items => items ++ [ev]) <$> h !! q.
Proof.
  revert h. induction qs as [|q' qs IH]; intros h Hnd Hin; [destruct Hin|].
  apply List.NoDup_cons_iff in Hnd as [Hq' Hnd]. cbn.
  destruct Hin as [->|Hin].
  - rewrite deliver_other by assumption. rewrite put_lookup.
    now destruct (decide (q = q)).
  - rewrite IH by assumption. rewrite put_lookup.
    destruct (decide (q' = q)) as [->|_]; [contradiction | reflexivity].
Qed.

(** Every mutation but [delete_comment], when it returns, has published
    exactly one event, scoped to the organization at the root of the chain:
    each channel registered (once) for that organization has the event
    appended to its queue, and every other queue is as before. *)
Lemma run_publishes_once user m w w' :
  (forall id, m <> DeleteComment id) ->
  run user m w = (Returned tt, w') ->
  exists o ev new_calls,
    root_organization m (db w) = Some o /\
    event_of m (db w) = Some ev /\
    calls w' = calls w ++ new_calls /\
    published new_calls = [(o, ev)] /\
    (forall qs q, connections w !! o = Some qs -> List.NoDup qs -> In q qs ->
                  heap w' !! q = (fun items => items ++ [ev]) <$> heap w !! q) /\
    (forall q, ~ In q (default [] (connections w !! o)) -> heap w' !! q = heap w !! q).
Proof.
  intros Hm Hrun. apply run_returned in Hrun as (u & _ & _ & Hrun).
  destruct m; try (exfalso; eapply Hm; reflexivity);
    destruct Hrun as (o & org & ev & writes & Hroot & _ & Hev & Hcalls & Hwrites & Hheap);
    exists o, ev, (writes ++ [Broadcast o ev]);
    (repeat split; try assumption;
     [ rewrite published_app, Hwrites; reflexivity
     | intros qs q Hqs Hnd Hin; rewrite Hheap; unfold deliver; rewrite Hqs;
       now apply deliver_once
     | intros q Hnin; rewrite Hheap; now apply deliver_other ]).
Qed.

(** [delete_comment] never calls [broadcast], whatever its outcome. *)
Lemma delete_comment_never_publishes user id w r w' :
  Mutation.delete_comment user id w = (r, w') ->
  heap w' = heap w /\ connections w' = connections w /\
  published (calls w') = published (calls w).
Proof.
  unfold Mutation.delete_comment, bind, authenticated, or_raise, query, ret, raise, write.
  destruct user as [u|]; cbn; [|now intros [= <- <-]].
  destruct (find_one (comment_with_id id) (db_task_comments (db w))) as [c|]; cbn;
    [|now intros [= <- <-]].
  destruct (String.eqb (c_author_email c) (u_email u)); cbn; intros [= <- <-]; cbn;
    rewrite ?published_app, ?app_nil_r; auto.
Qed.

(** C3, at a failing input. A subscriber is registered on [acme], the
    organization at the root of comment [c1]. Alice, the author, deletes
    [c1]: the mutation returns [True] and the comment is gone, but no event
    was published and the subscriber's queue is still empty. Adding a
    comment in the same world does publish one event to that queue. *)
Theorem delete_comment_publishes_no_event :
  connections acme_subscribed !! "o-acme" = Some [0] /\
  root_organization (DeleteComment "c1") (db acme_subscribed) = Some "o-acme" /\
  (exists w',
      Mutation.delete_comment (Some alice) "c1" acme_subscribed = (Returned true, w') /\
      db_task_comments (db w') = [] /\
      calls w' = [DeleteOne "task_comments"] /\
      heap w' = [[]]) /\
  heap (snd (Mutation.add_comment (Some alice) "c2" "2024-01-07T00:00:00+00:00"
               (mk_TaskCommentInput "t1" "second note") acme_subscribed))
  = [[mk_event "COMMENT_ADDED" (<[ "id" := "c2" ]> {[ "task_id" := "t1" ]})]].
Proof.
  split; [reflexivity|]. split; [reflexivity|]. split; [|reflexivity].
  eexists. split; [reflexivity|]. repeat split; reflexivity.
Qed.

(** ** The shape of the published events *)

(** C7 as stated fails on the comment event: Alice's [add_comment] on task
    [t1] of project [p1] publishes one event whose type [COMMENT_ADDED] is
    not of the form [{RESOURCE}_{CREATED|UPDATED|DELETED}] and whose payload
    has the keys [id] and [task_id] but no [project_id]. *)
Lemma comment_event_has_another_shape :
  owning_project second_comment (db acme_world) = Some "p1" /\
  exists w' ev,
    run (Some alice) second_comment acme_world = (Returned tt, w') /\
    published (calls w') = [("o-acme", ev)] /\
    ev_type ev = "COMMENT_ADDED" /\
    crud_event_type (ev_type ev) = false /\
    ev_data ev !! "id" = Some "c2" /\
    ev_data ev !! "task_id" = Some "t1" /\
    ev_data ev !! "project_id" = None.
Proof.
  split; [reflexivity|].
  eexists _, _. split; [reflexivity|]. repeat split; reflexivity.
Qed.

(** C7, amended. Every event a mutation publishes has one of the seven
    types [PROJECT_CREATED], [PROJECT_UPDATED], [PROJECT_DELETED],
    [TASK_CREATED], [TASK_UPDATED], [TASK_DELETED] (all of the form
    [{RESOURCE}_{CREATED|UPDATED|DELETED}]) and [COMMENT_ADDED], and a
    payload that holds the id of the changed entity under [id]. A task
    event also holds, under [project_id], the id of the project that owns
    the task. The comment event holds the id of the commented task under
    [task_id], and no [project_id]. *)
Theorem published_event_shape (user : option user_doc) (m : mutation) (w w' : world)
    (new_calls : list call) (o : string) (ev : event) :
  run user m w = (Returned tt, w') ->
  calls w' = calls w ++ new_calls ->
  In (o, ev) (published new_calls) ->
  ev_data ev !! "id" = Some (entity_id m) /\
  match m with
  | CreateProject _ _ _ =>
      ev_type ev = "PROJECT_CREATED" /\ crud_event_type (ev_type ev) = true
  | UpdateProject _ _ =>
      ev_type ev = "PROJECT_UPDATED" /\ crud_event_type (ev_type ev) = true
  | DeleteProject _ =>
      ev_type ev = "PROJECT_DELETED" /\ crud_event_type (ev_type ev) = true
  | CreateTask _ _ _ =>
      ev_type ev = "TASK_CREATED" /\ crud_event_type (ev_type ev) = true /\
      exists pid, owning_project m (db w) = Some pid /\ ev_data ev !! "project_id" = Some pid
  | UpdateTask _ _ =>
      ev_type ev = "TASK_UPDATED" /\ crud_event_type (ev_type ev) = true /\
      exists pid, owning_project m (db w) = Some pid /\ ev_data ev !! "project_id" = Some pid
  | DeleteTask _ =>
      ev_type ev = "TASK_DELETED" /\ crud_event_type (ev_type ev) = true /\
      exists pid, owning_project m (db w) = Some pid /\ ev_data ev !! "project_id" = Some pid
  | AddComment _ _ input =>
      ev_type ev = "COMMENT_ADDED" /\
      ev_data ev !! "task_id" = Some (ci_task_id input) /\
      ev_data ev !! "project_id" = None
  | DeleteComment _ => False
  end.
Proof.
  intros Hrun Hcalls Hin.
  apply run_returned in Hrun as (u & _ & _ & Hrun).
  destruct m;
    try (destruct Hrun as (o' & org & ev' & writes & _ & _ & Hev & Hcalls' & Hwrites & _);
         rewrite Hcalls' in Hcalls; apply app_inv_head in Hcalls; subst new_calls;
         rewrite published_app, Hwrites in Hin; cbn in Hin;
         destruct Hin as [[= <- <-]|[]]; cbn in Hev).
  1-4, 7: injection Hev as <-; cbn; repeat split; try reflexivity;
    try (eexists; split; [reflexivity|]); now simplify_map_eq.
  1-2: destruct (find_one (task_with_id id) (db_tasks (db w))) as [t|] eqn:Ht;
    [|discriminate]; injection Hev as <-; cbn; rewrite Ht; cbn;
    repeat split; try reflexivity;
    try (eexists; split; [reflexivity|]); now simplify_map_eq.
  destruct Hrun as [Hcalls' _]. rewrite Hcalls' in Hcalls.
  apply app_inv_head in Hcalls. subst new_calls. destruct Hin.
Qed.

Lemma published_event_shape_witness :
  exists ev,
    published (calls (snd (run (Some alice) second_comment acme_world))) = [("o-acme", ev)] /\
    ev_data ev !! "id" = Some "c2" /\
    ev_type ev = "COMMENT_ADDED" /\
    ev_data ev !! "task_id" = Some "t1" /\
    ev_data ev !! "project_id" = None.
Proof.
  eexists. split; [reflexivity|].
  exact (published_event_shape (Some alice) second_comment acme_world
           (snd (run (Some alice) second_comment acme_world)) _ "o-acme" _
           eq_refl eq_refl (or_introl eq_refl)).
Defined.

(** ** Failure kinds *)

Lemma owns_none_find u oid d :
  owns_none u oid d <->
  find_one (org_with_id_user oid (u_id u)) (db_organizations d) = None.
Proof.
  unfold owns_none, find_one. split.
  - intros H. destruct (find _ _) as [o|] eqn:Hf; [|reflexivity].
    apply find_some in Hf as [Hin [Hid Hu]%andb_true_iff].
    apply String.eqb_eq in Hid, Hu. now destruct (H o Hin Hid).
  - intros Hf o Hin Hid Hu.
    pose proof (find_none _ _ Hf o Hin) as Hno. unfold org_with_id_user in Hno.
    rewrite Hid, Hu, !String.eqb_refl in Hno. discriminate.
Qed.

Lemma project_mutation_failure u m pid w :
  project_reference m = Some pid ->
  (find_one (proj_with_id pid) (db_projects (db w)) = None ->
   run (Some u) m w = (Raised ProjectNotFound, w)) /\
  (forall p, find_one (proj_with_id pid) (db_projects (db w)) = Some p ->
             owns_none u (p_organization_id p) (db w) ->
             run (Some u) m w = (Raised AccessDenied, w)).
Proof.
  intros Href. split.
  - intros Hp. destruct m; try discriminate; injection Href as <-;
      unfold_resolver; cbn; now rewrite Hp.
  - intros p Hp Ho%owns_none_find. destruct m; try discriminate; injection Href as <-;
      unfold_resolver; cbn; rewrite Hp; cbn; now rewrite Ho.
Qed.

Lemma task_mutation_failure u m tid w :
  task_reference m = Some tid ->
  (find_one (task_with_id tid) (db_tasks (db w)) = None ->
   run (Some u) m w = (Raised TaskNotFound, w)) /\
  (forall t, find_one (task_with_id tid) (db_tasks (db w)) = Some t ->
             find_one (proj_with_id (t_project_id t)) (db_projects (db w)) = None ->
             run (Some u) m w = (Raised ProjectNotFound, w)) /\
  (forall t p, find_one (task_with_id tid) (db_tasks (db w)) = Some t ->
               find_one (proj_with_id (t_project_id t)) (db_projects (db w)) = Some p ->
               owns_none u (p_organization_id p) (db w) ->
               run (Some u) m w = (Raised AccessDenied, w)).
Proof.
  intros Href. repeat split.
  - intros Ht. destruct m; try discriminate; injection Href as <-;
      unfold_resolver; cbn; now rewrite Ht.
  - intros t Ht Hp. destruct m; try discriminate; injection Href as <-;
      unfold_resolver; cbn; rewrite Ht; cbn; now rewrite Hp.
  - intros t p Ht Hp Ho%owns_none_find. destruct m; try discriminate; injection Href as <-;
      unfold_resolver; cbn; rewrite Ht; cbn; rewrite Hp; cbn; now rewrite Ho.
Qed.

Lemma organization_reference_failure u oid w :
  owns_none u oid (db w) ->
  (forall new_id now input,
      pi_organization_id input = oid ->
      run (Some u) (CreateProject new_id now input) w = (Raised OrganizationNotFound, w)) /\
  Query.projects (Some u) oid w = (Raised OrganizationNotFound, w) /\
  Query.project_stats (Some u) oid w = (Raised OrganizationNotFound, w) /\
  Query.organization (Some u) oid w = (Returned None, w).
Proof.
  intros Ho%owns_none_find. repeat split.
  - intros new_id now input <-. unfold_resolver. cbn. now rewrite Ho.
  - unfold Query.projects. unfold_resolver. cbn. now rewrite Ho.
  - unfold Query.project_stats. unfold_resolver. cbn. now rewrite Ho.
  - unfold Query.organization. unfold_resolver. cbn. now rewrite Ho.
Qed.

Lemma project_query_failure u pid w :
  (find_one (proj_with_id pid) (db_projects (db w)) = None ->
   Query.tasks (Some u) pid w = (Raised ProjectNotFound, w) /\
   Query.project (Some u) pid w = (Returned None, w)) /\
  (forall p, find_one (proj_with_id pid) (db_projects (db w)) = Some p ->
             owns_none u (p_organization_id p) (db w) ->
             Query.tasks (Some u) pid w = (Raised AccessDenied, w) /\
             Query.project (Some u) pid w = (Raised AccessDenied, w)).
Proof.
  split.
  - intros Hp. unfold Query.tasks, Query.project. unfold_resolver. cbn. now rewrite Hp.
  - intros p Hp Ho%owns_none_find. unfold Query.tasks, Query.project. unfold_resolver. cbn.
    rewrite Hp. cbn. now rewrite Ho.
Qed.

Lemma task_query_failure u tid w :
  (find_one (task_with_id tid) (db_tasks (db w)) = None ->
   Query.task (Some u) tid w = (Returned None, w)) /\
  (forall t, find_one (task_with_id tid) (db_tasks (db w)) = Some t ->
             find_one (proj_with_id (t_project_id t)) (db_projects (db w)) = None ->
             Query.task (Some u) tid w = (Returned None, w)) /\
  (forall t p, find_one (task_with_id tid) (db_tasks (db w)) = Some t ->
               find_one (proj_with_id (t_project_id t)) (db_projects (db w)) = Some p ->
               owns_none u (p_organization_id p) (db w) ->
               Query.task (Some u) tid w = (Returned None, w)).
Proof.
  repeat split.
  - intros Ht. unfold Query.task. unfold_resolver. cbn. now rewrite Ht.
  - intros t Ht Hp. unfold Query.task. unfold_resolver. cbn. rewrite Ht. cbn. now rewrite Hp.
  - intros t p Ht Hp Ho%owns_none_find. unfold Query.task. unfold_resolver. cbn.
    rewrite Ht. cbn. rewrite Hp. cbn. now rewrite Ho.
Qed.

(** C6 as stated fails where the reference is an organization id: [acme]
    exists and is owned by Alice, yet for Bob [projects] fails with
    "Organization not found", of kind NotFound and not AccessDenied, and
    [organization] silently answers [None]. *)
Lemma foreign_organization_reads_as_missing :
  find_one (org_with_id "o-acme") (db_organizations (db acme_world)) = Some acme /\
  o_user_id acme <> u_id bob /\
  Query.projects (Some bob) "o-acme" acme_world = (Raised OrganizationNotFound, acme_world) /\
  kind OrganizationNotFound = KNotFound /\
  ~ fails_with KAccessDenied (Query.projects (Some bob) "o-acme" acme_world) acme_world /\
  Query.organization (Some bob) "o-acme" acme_world = (Returned None, acme_world).
Proof.
  repeat split; try reflexivity; try discriminate.
  intros (e & He & Hk). vm_compute in He. injection He as <-. discriminate.
Qed.

(** C6, amended. For every authenticated caller, where the reference is a
    project or task id (the mutations [update_project], [delete_project],
    [create_task], [update_task], [delete_task], [add_comment] and the query
    [tasks]) the failure kind tells resolution from ownership: a task or
    project id of the chain that does not resolve fails with NotFound, and a
    chain that resolves to a project whose organization the caller does not
    own fails with AccessDenied. Where the reference is an organization id
    ([create_project], [projects], [project_stats]) an organization the
    caller does not own fails with NotFound, the same as one that does not
    exist, and [organization] answers [None]. The query [project] answers
    [None] for an id that does not resolve and fails with AccessDenied for a
    project of another owner; the query [task] answers [None] in every such
    case. A failing call changes nothing. *)
Theorem failure_kinds_by_reference (u : user_doc) (w : world) :
  (forall m pid,
      project_reference m = Some pid ->
      (find_one (proj_with_id pid) (db_projects (db w)) = None ->
       fails_with KNotFound (run (Some u) m w) w) /\
      (forall p, find_one (proj_with_id pid) (db_projects (db w)) = Some p ->
                 owns_none u (p_organization_id p) (db w) ->
                 fails_with KAccessDenied (run (Some u) m w) w)) /\
  (forall m tid,
      task_reference m = Some tid ->
      (find_one (task_with_id tid) (db_tasks (db w)) = None ->
       fails_with KNotFound (run (Some u) m w) w) /\
      (forall t, find_one (task_with_id tid) (db_tasks (db w)) = Some t ->
                 find_one (proj_with_id (t_project_id t)) (db_projects (db w)) = None ->
                 fails_with KNotFound (run (Some u) m w) w) /\
      (forall t p, find_one (task_with_id tid) (db_tasks (db w)) = Some t ->
                   find_one (proj_with_id (t_project_id t)) (db_projects (db w)) = Some p ->
                   owns_none u (p_organization_id p) (db w) ->
                   fails_with KAccessDenied (run (Some u) m w) w)) /\
  (forall pid,
      (find_one (proj_with_id pid) (db_projects (db w)) = None ->
       fails_with KNotFound (Query.tasks (Some u) pid w) w /\
       answers_nothing (Query.project (Some u) pid w) w) /\
      (forall p, find_one (proj_with_id pid) (db_projects (db w)) = Some p ->
                 owns_none u (p_organization_id p) (db w) ->
                 fails_with KAccessDenied (Query.tasks (Some u) pid w) w /\
                 fails_with KAccessDenied (Query.project (Some u) pid w) w)) /\
  (forall tid,
      (find_one (task_with_id tid) (db_tasks (db w)) = None ->
       answers_nothing (Query.task (Some u) tid w) w) /\
      (forall t, find_one (task_with_id tid) (db_tasks (db w)) = Some t ->
                 find_one (proj_with_id (t_project_id t)) (db_projects (db w)) = None ->
                 answers_nothing (Query.task (Some u) tid w) w) /\
      (forall t p, find_one (task_with_id tid) (db_tasks (db w)) = Some t ->
                   find_one (proj_with_id (t_project_id t)) (db_projects (db w)) = Some p ->
                   owns_none u (p_organization_id p) (db w) ->
                   answers_nothing (Query.task (Some u) tid w) w)) /\
  (forall oid,
      owns_none u oid (db w) ->
      (forall new_id now input,
          pi_organization_id input = oid ->
          fails_with KNotFound (run (Some u) (CreateProject new_id now input) w) w) /\
      fails_with KNotFound (Query.projects (Some u) oid w) w /\
      fails_with KNotFound (Query.project_stats (Some u) oid w) w /\
      answers_nothing (Query.organization (Some u) oid w) w).
Proof.
  unfold fails_with, answers_nothing.
  split; [|split; [|split; [|split]]].
  - intros m pid Href. destruct (project_mutation_failure u m pid w Href) as [Hnf Had].
    split; [intros H | intros p H Ho]; eexists; (split; [eauto | reflexivity]).
  - intros m tid Href.
    destruct (task_mutation_failure u m tid w Href) as (Hnf & Hpnf & Had).
    split; [|split]; [intros H | intros t H Hp | intros t p H Hp Ho];
      eexists; (split; [eauto | reflexivity]).
  - intros pid. destruct (project_query_failure u pid w) as [Hnf Had].
    split.
    + intros H. destruct (Hnf H) as [H1 H2]. split; [|assumption].
      eexists; (split; [eassumption | reflexivity]).
    + intros p H Ho. destruct (Had p H Ho) as [H1 H2].
      split; eexists; (split; [eassumption | reflexivity]).
  - intros tid. exact (task_query_failure u tid w).
  - intros oid Ho.
    destruct (organization_reference_failure u oid w Ho) as (Hc & Hp & Hs & Hq).
    split; [|split; [|split]]; try assumption;
      [intros new_id now input Hin | |]; eexists; (split; [eauto | reflexivity]).
Qed.

Lemma bob_owns_no_acme : owns_none bob "o-acme" (db acme_world).
Proof. intros o [<-|[]] _. discriminate. Defined.

Lemma failure_kinds_by_reference_witness :
  fails_with KAccessDenied (run (Some bob) (DeleteTask "t1") acme_world) acme_world /\
  fails_with KNotFound (run (Some bob) (DeleteTask "no-such-task") acme_world) acme_world /\
  fails_with KNotFound (Query.projects (Some bob) "o-acme" acme_world) acme_world /\
  answers_nothing (Query.organization (Some bob) "o-acme" acme_world) acme_world.
Proof.
  destruct (failure_kinds_by_reference bob acme_world) as (_ & Htask & _ & _ & Horg).
  destruct (Htask (DeleteTask "t1") "t1" eq_refl) as (_ & _ & Hdenied).
  destruct (Htask (DeleteTask "no-such-task") "no-such-task" eq_refl) as (Hmissing & _).
  destruct (Horg "o-acme" bob_owns_no_acme) as (_ & Hprojects & _ & Horganization).
  split; [|split; [|split]].
  - exact (Hdenied t1 p1 eq_refl eq_refl bob_owns_no_acme).
  - exact (Hmissing eq_refl).
  - exact Hprojects.
  - exact Horganization.
Defined.

(** ** Cascade on [delete_project] *)

Lemma delete_project_run user id w proj org :
  find_one (proj_with_id id) (db_projects (db w)) = Some proj ->
  find_one (org_with_id_user (p_organization_id proj) (u_id user)) (db_organizations (db w))
  = Some org ->
  Mutation.delete_project (Some user) id w
  = (Returned true,
     mk_world
       (mk_db (db_organizations (db w))
          (delete_one (proj_with_id id) (db_projects (db w)))
          (delete_many (task_with_project id) (db_tasks (db w)))
          (delete_many
             (comment_with_task_in
                (map t_id (find_to_list (task_with_project id) 1000 (db_tasks (db w)))))
             (db_task_comments (db w))))
       (connections w)
       (deliver (p_organization_id proj) (mk_event "PROJECT_DELETED" {[ "id" := id ]}) w)
       (calls w ++ [DeleteMany "task_comments"; DeleteMany "tasks"; DeleteOne "projects";
                    Broadcast (p_organization_id proj)
                      (mk_event "PROJECT_DELETED" {[ "id" := id ]})])).
Proof.
  intros Hproj Horg. unfold_resolver. cbn. rewrite Hproj. cbn. rewrite Horg. cbn.
  rewrite broadcast_run. cbn. unfold deliver. now rewrite <- !app_assoc.
Qed.

(** After [delete_project] no task of the project is left, whatever their
    number; of the comments, those on the first 1000 tasks of the project
    are gone, that is all of them when the project has at most 1000 tasks. *)
Lemma delete_project_cascade user id w proj org r w' :
  find_one (proj_with_id id) (db_projects (db w)) = Some proj ->
  find_one (org_with_id_user (p_organization_id proj) (u_id user)) (db_organizations (db w))
  = Some org ->
  Mutation.delete_project (Some user) id w = (r, w') ->
  r = Returned true /\
  (forall t, In t (db_tasks (db w')) -> t_project_id t <> id) /\
  (count_documents (task_with_project id) (db_tasks (db w)) <= 1000 ->
   forall c t, In c (db_task_comments (db w')) ->
               In t (db_tasks (db w)) -> t_project_id t = id -> c_task_id c <> t_id t).
Proof.
  intros Hproj Horg Hrun. rewrite (delete_project_run user id w proj org Hproj Horg) in Hrun.
  injection Hrun as <- <-. cbn. split; [reflexivity|]. split.
  - intros t [_ Ht]%delete_many_In Heq. unfold task_with_project in Ht.
    rewrite Heq, String.eqb_refl in Ht. discriminate.
  - intros Hcount c t [_ Hc]%delete_many_In Hin Hpid Heq.
    rewrite find_to_list_all in Hc by assumption.
    assert (Hids : In (c_task_id c) (map t_id (List.filter (task_with_project id)
                                                 (db_tasks (db w))))).
    { rewrite Heq. apply in_map. apply filter_In. split; [assumption|].
      unfold task_with_project. rewrite Hpid. apply String.eqb_refl. }
    apply in_ids_true in Hids. unfold comment_with_task_in in Hc.
    rewrite Hids in Hc. discriminate.
Qed.

(** C4, at a failing input. Project [p1] has 1001 tasks and the last one,
    [k1000], has a comment. Alice deletes [p1]: the project and all its
    tasks are gone, but the comment on [k1000] is still in the store and
    [task_comments] still returns it. *)
Theorem delete_project_keeps_comments_past_1000_tasks :
  count_documents (task_with_project "p1") (db_tasks (db busy_world)) = 1001 /\
  In (numbered_task 1000) (db_tasks (db busy_world)) /\
  c_task_id late_comment = t_id (numbered_task 1000) /\
  fst (Mutation.delete_project (Some alice) "p1" busy_world) = Returned true /\
  db_projects (db (snd (Mutation.delete_project (Some alice) "p1" busy_world))) = [] /\
  db_tasks (db (snd (Mutation.delete_project (Some alice) "p1" busy_world))) = [] /\
  db_task_comments (db (snd (Mutation.delete_project (Some alice) "p1" busy_world)))
  = [late_comment] /\
  fst (Query.task_comments (Some alice) "k1000"
         (snd (Mutation.delete_project (Some alice) "p1" busy_world)))
  = Returned [late_comment].
Proof.
  split; [vm_compute; reflexivity|].
  split; [apply in_map_iff; exists 1000; split; [reflexivity | apply in_seq; lia]|].
  split; [vm_compute; reflexivity|].
  repeat split; vm_compute; reflexivity.
Qed.

(** ** The registry invariant *)

Lemma hub_wf_initial d cs : hub_wf (mk_world d ∅ [] cs).
Proof. intros o qs H. cbn in H. now rewrite lookup_empty in H. Qed.

Lemma deliver_length ev qs h : length (foldl (SubscriptionManager.put ev) h qs) = length h.
Proof.
  revert h. induction qs as [|q qs IH]; intros h; [reflexivity|].
  cbn. rewrite IH. apply length_alter.
Qed.

Lemma list_remove_Some q qs qs' :
  SubscriptionManager.list_remove q qs = Some qs' ->
  List.NoDup qs -> List.NoDup qs' /\ forall x, In x qs' -> In x qs.
Proof.
  revert qs'. induction qs as [|q' qs IH]; intros qs' Hr Hnd; [discriminate|].
  apply List.NoDup_cons_iff in Hnd as [Hq' Hnd]. cbn in Hr.
  destruct (Nat.eqb q' q).
  - injection Hr as <-. split; [assumption | intros x Hx; now right].
  - destruct (SubscriptionManager.list_remove q qs) as [r|]; [|discriminate].
    injection Hr as <-. destruct (IH r eq_refl Hnd) as [Hr Hsub]. split.
    + apply List.NoDup_cons; [|assumption]. intros Hin. apply Hq'. now apply Hsub.
    + intros x [->|Hx]; [now left | right; now apply Hsub].
Qed.

Lemma subscribe_wf o w : hub_wf w -> hub_wf (snd (SubscriptionManager.subscribe o w)).
Proof.
  intros Hwf o' qs'. unfold SubscriptionManager.subscribe. cbn.
  rewrite length_app. cbn. rewrite lookup_alter.
  destruct (decide (o = o')) as [<-|Hne].
  - destruct (connections w !! o) as [qs|] eqn:Hqs.
    + rewrite Hqs. cbn. intros [= <-]. destruct (Hwf o qs Hqs) as [Hnd Hlt]. split.
      * apply List.NoDup_app; [assumption | apply List.NoDup_cons; [easy | constructor] |].
        intros a Ha [<-|[]]. specialize (Hlt _ Ha). lia.
      * intros q [Hq|[<-|[]]]%in_app_iff; [specialize (Hlt _ Hq)|]; lia.
    + rewrite lookup_insert_eq. cbn. intros [= <-]. split.
      * apply List.NoDup_cons; [easy | constructor].
      * intros q [<-|[]]. lia.
  - intros Hqs. assert (Hold : connections w !! o' = Some qs').
    { destruct (connections w !! o); [assumption|]. now rewrite lookup_insert_ne in Hqs. }
    destruct (Hwf o' qs' Hold) as [Hnd Hlt]. split; [assumption|].
    intros q Hq. specialize (Hlt _ Hq). lia.
Qed.

Lemma unsubscribe_wf o q w : hub_wf w -> hub_wf (snd (SubscriptionManager.unsubscribe o q w)).
Proof.
  intros Hwf. unfold SubscriptionManager.unsubscribe.
  destruct (connections w !! o) as [qs|] eqn:Hqs; [|assumption].
  destruct (SubscriptionManager.list_remove q qs) as [qs'|] eqn:Hr; [|assumption].
  cbn. intros o' qs0. cbn. destruct (decide (o = o')) as [<-|Hne].
  - rewrite lookup_insert_eq. intros [= <-].
    destruct (Hwf o qs Hqs) as [Hnd Hlt].
    destruct (list_remove_Some q qs qs' Hr Hnd) as [Hnd' Hsub]. split; [assumption|].
    intros x Hx. apply Hlt. now apply Hsub.
  - rewrite lookup_insert_ne by assumption. apply Hwf.
Qed.

(** No mutation registers or removes a channel or allocates a queue,
    whatever its outcome. *)
Lemma run_keeps_registry user m w r w' :
  run user m w = (r, w') ->
  connections w' = connections w /\ length (heap w') = length (heap w).
Proof.
  intros H. destruct m; unfold_resolver;
    repeat first
      [ progress cbn in H
      | rewrite broadcast_run in H
      | match type of H with
        | context [match ?x with _ => _ end] =>
            lazymatch x with
            | context [match _ with _ => _ end] => fail
            | _ => destruct x eqn:?
            end
        end ];
    injection H as <- <-; cbn; rewrite ?deliver_length; split; reflexivity.
Qed.

Lemma run_wf user m w r w' : hub_wf w -> run user m w = (r, w') -> hub_wf w'.
Proof.
  intros Hwf Hrun o qs. apply run_keeps_registry in Hrun as [-> ->]. apply Hwf.
Qed.

(** In a world that satisfies the invariant, each channel registered for
    the organization of a mutation receives its event exactly once. *)
Lemma run_delivers_to_subscribers user m w w' :
  hub_wf w ->
  (forall id, m <> DeleteComment id) ->
  run user m w = (Returned tt, w') ->
  exists o ev,
    root_organization m (db w) = Some o /\
    event_of m (db w) = Some ev /\
    (forall qs q, connections w !! o = Some qs -> In q qs ->
                  exists items, heap w !! q = Some items /\
                                heap w' !! q = Some (items ++ [ev])) /\
    (forall o' qs q, o' <> o -> connections w !! o' = Some qs -> In q qs ->
                     ~ In q (default [] (connections w !! o)) ->
                     heap w' !! q = heap w !! q).
Proof.
  intros Hwf Hm Hrun.
  destruct (run_publishes_once user m w w' Hm Hrun)
    as (o & ev & cs & Hroot & Hev & _ & _ & Hin & Hout).
  exists o, ev. repeat split; try assumption.
  - intros qs q Hqs Hq. destruct (Hwf o qs Hqs) as [Hnd Hlt].
    destruct (lookup_lt_is_Some_2 (heap w) q (Hlt q Hq)) as [items Hitems].
    exists items. split; [assumption|].
    rewrite (Hin qs q Hqs Hnd Hq), Hitems. reflexivity.
  - intros o' qs q _ _ _ Hnin. now apply Hout.
Qed.

(** * Further properties of the code *)

(** ** The hub *)

Lemma broadcast_wf o ty data w : hub_wf w -> hub_wf (snd (SubscriptionManager.broadcast o ty data w)).
Proof.
  intros Hwf o' qs. rewrite broadcast_run. cbn. rewrite deliver_length. apply Hwf.
Qed.

Lemma next_wf o g w : hub_wf w -> hub_wf (snd (Subscription.next o g w)).
Proof.
  intros Hwf. unfold Subscription.next.
  destruct g as [q|q|]; try assumption;
    (destruct (heap w !! q) as [[|ev items]|]; try assumption;
     intros o' qs; cbn; rewrite length_insert; apply Hwf).
Qed.

Lemma throw_wf o e g w : hub_wf w -> hub_wf (snd (Subscription.throw o e g w)).
Proof.
  intros Hwf. unfold Subscription.throw.
  destruct g as [q|q|]; try assumption;
    (destruct e; try assumption; unfold bind, ret;
     pose proof (unsubscribe_wf o q w Hwf) as Hu;
     destruct (SubscriptionManager.unsubscribe o q w) as [[e'|[]] w']; exact Hu).
Qed.

Lemma hub_step_wf w op : hub_wf w -> hub_wf (hub_step w op).
Proof.
  intros Hwf. destruct op; cbn.
  - now apply subscribe_wf.
  - now apply unsubscribe_wf.
  - now apply broadcast_wf.
  - exact (subscribe_wf o w Hwf).
  - now apply next_wf.
  - now apply throw_wf.
  - destruct (run user m w) as [r w'] eqn:Hrun. exact (run_wf user m w r w' Hwf Hrun).
Qed.

Lemma hub_steps_wf w ops : hub_wf w -> hub_wf (hub_steps w ops).
Proof.
  unfold hub_steps. revert w.
  induction ops as [|op ops IH]; intros w Hwf; [assumption|].
  cbn. apply IH. now apply hub_step_wf.
Qed.

Lemma two_subscribers_wf : hub_wf two_subscribers.
Proof. apply hub_steps_wf. apply hub_wf_initial. Qed.

(** X1. Whatever sequence of subscriptions, unsubscriptions, broadcasts,
    generator steps and mutations a process goes through from an empty
    registry, each channel is registered at most once under an organization
    and every registered channel is a queue that was allocated. *)
Theorem registry_invariant_always_holds (d : database) (ops : list hub_op) :
  hub_wf (hub_steps (mk_world d ∅ [] []) ops).
Proof. apply hub_steps_wf. apply hub_wf_initial. Qed.

Lemma subscribe_lookup o w o' :
  connections (snd (SubscriptionManager.subscribe o w)) !! o'
  = if decide (o = o')
    then Some (default [] (connections w !! o) ++ [length (heap w)])
    else connections w !! o'.
Proof.
  unfold SubscriptionManager.subscribe. cbn. rewrite lookup_alter.
  destruct (decide (o = o')) as [<-|Hne].
  - destruct (connections w !! o) as [qs|] eqn:Hqs; [now rewrite Hqs|].
    now rewrite lookup_insert_eq.
  - destruct (connections w !! o); [reflexivity | now rewrite lookup_insert_ne].
Qed.

Lemma list_remove_last q qs :
  ~ In q qs -> SubscriptionManager.list_remove q (qs ++ [q]) = Some qs.
Proof.
  induction qs as [|q' qs IH]; intros Hnin; cbn.
  - now rewrite Nat.eqb_refl.
  - destruct (Nat.eqb_spec q' q) as [->|Hne]; [exfalso; apply Hnin; now left|].
    rewrite IH; [reflexivity|]. intros Hin. apply Hnin. now right.
Qed.

(** In a world that keeps the invariant, the queue [subscribe] is about to
    allocate is registered nowhere. *)
Lemma next_queue_unregistered w o qs :
  hub_wf w -> connections w !! o = Some qs -> ~ In (length (heap w)) qs.
Proof.
  intros Hwf Hqs Hin. destruct (Hwf o qs Hqs) as [_ Hlt]. specialize (Hlt _ Hin). lia.
Qed.

Lemma default_unregistered w o :
  hub_wf w -> ~ In (length (heap w)) (default [] (connections w !! o)).
Proof.
  intros Hwf. destruct (connections w !! o) as [qs|] eqn:Hqs; cbn; [|tauto].
  now apply (next_queue_unregistered w o qs).
Qed.

Lemma broadcast_all_connections w bs : connections (broadcast_all w bs) = connections w.
Proof.
  revert w. induction bs as [|[[o ty] data] bs IH]; intros w; [reflexivity|].
  cbn. unfold broadcast_all in IH. rewrite IH. now rewrite broadcast_run.
Qed.

(** X2. A subscriber sees exactly the events published for its
    organization after it subscribed, each once and in the order of the
    [broadcast] calls: its queue starts empty, and events for other
    organizations never reach it. *)
Theorem subscriber_sees_exactly_later_events (o : string) (w : world) (bs : list publication) :
  hub_wf w ->
  exists q w1,
    SubscriptionManager.subscribe o w = (Returned q, w1) /\
    heap w1 !! q = Some [] /\
    heap (broadcast_all w1 bs) !! q = Some (events_for o bs).
Proof.
  intros Hwf. exists (length (heap w)), (snd (SubscriptionManager.subscribe o w)).
  split; [reflexivity|].
  set (q := length (heap w)). set (w1 := snd (SubscriptionManager.subscribe o w)).
  assert (Hq0 : heap w1 !! q = Some []).
  { subst q w1. cbn. rewrite lookup_app_r by lia. now rewrite Nat.sub_diag. }
  split; [assumption|].
  assert (Hwf1 : hub_wf w1) by now apply subscribe_wf.
  assert (Hreg : forall o', In q (default [] (connections w1 !! o')) <-> o' = o).
  { intros o'. subst w1. rewrite subscribe_lookup.
    destruct (decide (o = o')) as [<-|Hne]; cbn.
    - split; [reflexivity|]. intros _. apply in_app_iff. right. now left.
    - split; [|congruence]. intros Hin. exfalso.
      now apply (default_unregistered w o' Hwf). }
  assert (Hgen : forall w2 acc,
             connections w2 = connections w1 -> heap w2 !! q = Some acc ->
             heap (broadcast_all w2 bs) !! q = Some (acc ++ events_for o bs)).
  { clear Hq0. induction bs as [|[[o' ty] data] bs IH]; intros w2 acc Hc Hh.
    - cbn. now rewrite app_nil_r.
    - cbn. unfold broadcast_all in IH. unfold events_for. cbn.
      destruct (String.eqb_spec o' o) as [->|Hne].
      + rewrite (IH _ (acc ++ [mk_event ty data])).
        * cbn. now rewrite <- app_assoc.
        * now rewrite broadcast_run.
        * rewrite broadcast_run. cbn. rewrite Hc.
          destruct (connections w1 !! o) as [qs|] eqn:Hqs.
          -- cbn. rewrite (deliver_once _ qs).
             ++ now rewrite Hh.
             ++ now destruct (Hwf1 o qs Hqs).
             ++ specialize (Hreg o). rewrite Hqs in Hreg. now apply Hreg.
          -- exfalso. specialize (Hreg o). rewrite Hqs in Hreg. cbn in Hreg. now apply Hreg.
      + apply IH.
        * now rewrite broadcast_run.
        * rewrite broadcast_run. cbn. rewrite Hc. rewrite deliver_other; [assumption|].
          intros Hin. apply Hreg in Hin. contradiction. }
  rewrite (Hgen w1 [] eq_refl Hq0). reflexivity.
Qed.

Lemma subscriber_sees_exactly_later_events_witness :
  exists q w1,
    SubscriptionManager.subscribe "o-acme" two_subscribers = (Returned q, w1) /\
    heap w1 !! q = Some [] /\
    heap (broadcast_all w1 [("o-acme", "TASK_CREATED", {[ "id" := "t2" ]});
                            ("o-other", "TASK_DELETED", {[ "id" := "t9" ]});
                            ("o-acme", "TASK_UPDATED", {[ "id" := "t2" ]})]) !! q
    = Some [mk_event "TASK_CREATED" {[ "id" := "t2" ]};
            mk_event "TASK_UPDATED" {[ "id" := "t2" ]}].
Proof.
  exact (subscriber_sees_exactly_later_events "o-acme" two_subscribers _ two_subscribers_wf).
Defined.

Lemma unregistered_queue_untouched w q bs :
  (forall o, ~ In q (default [] (connections w !! o))) ->
  heap (broadcast_all w bs) !! q = heap w !! q.
Proof.
  revert w. induction bs as [|[[o ty] data] bs IH]; intros w Hun; [reflexivity|].
  cbn. unfold broadcast_all in IH. rewrite IH.
  - rewrite broadcast_run. cbn. now apply deliver_other.
  - intros o'. rewrite broadcast_run. cbn. apply Hun.
Qed.

(** X3. One [broadcast] reaches every channel registered for the
    organization exactly once, at the end of its queue, and touches no
    other queue; the store and the registry are left alone. With no
    subscriber for the organization the event is dropped. *)
Theorem broadcast_reaches_every_subscriber_once
    (o event_type : string) (data : gmap string string) (w : world) :
  hub_wf w ->
  exists w',
    SubscriptionManager.broadcast o event_type data w = (Returned tt, w') /\
    db w' = db w /\ connections w' = connections w /\
    length (heap w') = length (heap w) /\
    (forall q, In q (default [] (connections w !! o)) ->
               exists items, heap w !! q = Some items /\
                             heap w' !! q = Some (items ++ [mk_event event_type data])) /\
    (forall q, ~ In q (default [] (connections w !! o)) -> heap w' !! q = heap w !! q) /\
    (default [] (connections w !! o) = [] -> heap w' = heap w).
Proof.
  intros Hwf. rewrite broadcast_run. eexists. split; [reflexivity|]. cbn.
  split; [reflexivity|]. split; [reflexivity|]. split; [apply deliver_length|].
  split; [|split].
  - intros q Hq. destruct (connections w !! o) as [qs|] eqn:Hqs; [|destruct Hq].
    cbn in *. destruct (Hwf o qs Hqs) as [Hnd Hlt].
    destruct (lookup_lt_is_Some_2 (heap w) q (Hlt q Hq)) as [items Hitems].
    exists items. split; [assumption|].
    rewrite deliver_once by assumption. now rewrite Hitems.
  - intros q Hq. now apply deliver_other.
  - intros ->. reflexivity.
Qed.

Lemma broadcast_reaches_every_subscriber_once_witness :
  exists w',
    SubscriptionManager.broadcast "o-acme" "PROJECT_CREATED" {[ "id" := "p2" ]} two_subscribers
    = (Returned tt, w') /\
    heap w' = [[mk_event "PROJECT_CREATED" {[ "id" := "p2" ]}]; []].
Proof.
  destruct (broadcast_reaches_every_subscriber_once "o-acme" "PROJECT_CREATED"
              {[ "id" := "p2" ]} two_subscribers two_subscribers_wf) as (w' & Hrun & _).
  exists w'. split; [exact Hrun|].
  vm_compute in Hrun. now injection Hrun as <-.
Defined.

(** X4. Unsubscribing the channel [subscribe] has just returned undoes the
    registration: the call returns, the organization's list is what it was
    (an organization that had no entry keeps an empty one), the entries of
    other organizations are untouched, and no later [broadcast] reaches the
    channel. *)
Theorem unsubscribe_undoes_subscribe (o : string) (w : world) :
  hub_wf w ->
  exists q w1 w2,
    SubscriptionManager.subscribe o w = (Returned q, w1) /\
    SubscriptionManager.unsubscribe o q w1 = (Returned tt, w2) /\
    connections w2 !! o = Some (default [] (connections w !! o)) /\
    (forall o', o' <> o -> connections w2 !! o' = connections w !! o') /\
    (forall bs, heap (broadcast_all w2 bs) !! q = Some []).
Proof.
  intros Hwf.
  set (q := length (heap w)). set (w1 := snd (SubscriptionManager.subscribe o w)).
  pose proof (subscribe_lookup o w o) as Ho. fold w1 q in Ho.
  destruct (decide (o = o)) as [_|]; [|contradiction].
  pose proof (list_remove_last q _ (default_unregistered w o Hwf)) as Hrm. fold q in Hrm.
  exists q, w1. eexists. split; [reflexivity|].
  unfold SubscriptionManager.unsubscribe. rewrite Ho, Hrm.
  split; [reflexivity|]. cbn -[w1].
  assert (Hother : forall o', o' <> o ->
            <[o := default [] (connections w !! o)]> (connections w1) !! o'
            = connections w !! o').
  { intros o' Hne. rewrite lookup_insert_ne by congruence.
    subst w1. rewrite subscribe_lookup. destruct (decide (o = o')); congruence. }
  split; [apply lookup_insert_eq|]. split; [exact Hother|].
  intros bs. rewrite unregistered_queue_untouched.
  - subst q w1. cbn. rewrite lookup_app_r by lia. now rewrite Nat.sub_diag.
  - intros o'. cbn -[w1]. destruct (decide (o' = o)) as [->|Hne].
    + rewrite lookup_insert_eq. cbn. now apply default_unregistered.
    + rewrite (Hother o' Hne). now apply default_unregistered.
Qed.

Lemma unsubscribe_undoes_subscribe_witness :
  exists q w1 w2,
    SubscriptionManager.subscribe "o-acme" two_subscribers = (Returned q, w1) /\
    SubscriptionManager.unsubscribe "o-acme" q w1 = (Returned tt, w2) /\
    connections w2 !! "o-acme" = Some [0].
Proof.
  destruct (unsubscribe_undoes_subscribe "o-acme" two_subscribers two_subscribers_wf)
    as (q & w1 & w2 & Hs & Hu & Hc & _).
  exists q, w1, w2. split; [exact Hs|]. split; [exact Hu|]. exact Hc.
Defined.

(** ** The subscription *)

(** X5. [split("_")[0]] as the generator uses it: a string without an
    underscore is returned whole, and a string with one is cut before the
    first underscore. *)
Theorem split_head_cuts_at_first_underscore (a b : string) :
  underscore_free a ->
  split_head a = a /\
  split_head (String.append a (String (Ascii.ascii_of_nat 95) b)) = a.
Proof.
  unfold underscore_free. induction a as [|c a IH]; intros Hfree.
  - split; [reflexivity|]. cbn. reflexivity.
  - cbn in Hfree.
    destruct IH as [IH1 IH2]; [intros Hin; apply Hfree; now right|].
    change (split_head (String c a))
      with (if Ascii.eqb c (Ascii.ascii_of_nat 95) then EmptyString
            else String c (split_head a)).
    change (split_head (String.append (String c a) (String (Ascii.ascii_of_nat 95) b)))
      with (if Ascii.eqb c (Ascii.ascii_of_nat 95) then EmptyString
            else String c (split_head (String.append a (String (Ascii.ascii_of_nat 95) b)))).
    destruct (Ascii.eqb_spec c (Ascii.ascii_of_nat 95)) as [Heq|Hne].
    + exfalso. apply Hfree. now left.
    + now rewrite IH1, IH2.
Qed.

Lemma underscore_free_by_evaluation (s : string) :
  forallb (fun c => negb (Ascii.eqb c (Ascii.ascii_of_nat 95)))
    (String.list_ascii_of_string s) = true ->
  underscore_free s.
Proof.
  intros Hs Hin. rewrite forallb_forall in Hs. specialize (Hs _ Hin).
  now rewrite Ascii.eqb_refl in Hs.
Qed.

Lemma split_head_cuts_at_first_underscore_witness :
  split_head "HEALTHCHECK" = "HEALTHCHECK" /\ split_head "TASK_UPDATED_TWICE" = "TASK".
Proof.
  split.
  - exact (proj1 (split_head_cuts_at_first_underscore "HEALTHCHECK" ""
                    (underscore_free_by_evaluation "HEALTHCHECK" eq_refl))).
  - exact (proj2 (split_head_cuts_at_first_underscore "TASK" "UPDATED_TWICE"
                    (underscore_free_by_evaluation "TASK" eq_refl))).
Defined.

Lemma event_of_fields m d ev :
  event_of m d = Some ev ->
  ev_data ev !! "id" = Some (entity_id m) /\ split_head (ev_type ev) = resource m.
Proof.
  destruct m; cbn; try discriminate;
    try (destruct (find_one _ _); cbn; [|discriminate]);
    intros [= <-]; cbn; split; try reflexivity; now simplify_map_eq.
Qed.

(** X6. A mutation, seen from a subscription opened just before it. When
    the mutation (any but [delete_comment]) returns and the organization at
    the root of its chain is the subscribed one, the next turn of the
    generator yields one [SubscriptionEvent] with the published type, the
    entity type [PROJECT], [TASK] or [COMMENT], the id of the changed
    entity and the subscribed organization id, and empties the queue. When
    the root is another organization, nothing is yielded. *)
Theorem mutation_reaches_new_subscriber
    (o : string) (user : option user_doc) (m : mutation) (w w2 : world) :
  hub_wf w ->
  (forall id, m <> DeleteComment id) ->
  run user m (snd (Subscription.organization_events o w)) = (Returned tt, w2) ->
  Subscription.organization_events o w
  = (Returned (Subscription.AtGet (length (heap w))),
     snd (Subscription.organization_events o w)) /\
  exists o' ev,
    root_organization m (db w) = Some o' /\
    event_of m (db w) = Some ev /\
    (o' = o ->
     exists w3,
       Subscription.next o (Subscription.AtGet (length (heap w))) w2
       = (Returned (Some (mk_SubscriptionEvent (ev_type ev) (resource m) (entity_id m) o),
                    Subscription.AtYield (length (heap w))), w3) /\
       heap w3 !! length (heap w) = Some []) /\
    (o' <> o ->
     Subscription.next o (Subscription.AtGet (length (heap w))) w2
     = (Returned (None, Subscription.AtGet (length (heap w))), w2)).
Proof.
  intros Hwf Hm Hrun. split; [reflexivity|].
  change (snd (Subscription.organization_events o w))
    with (snd (SubscriptionManager.subscribe o w)) in Hrun.
  set (q := length (heap w)) in *. set (w1 := snd (SubscriptionManager.subscribe o w)) in *.
  assert (Hwf1 : hub_wf w1) by now apply subscribe_wf.
  assert (Hq0 : heap w1 !! q = Some []).
  { subst q w1. cbn. rewrite lookup_app_r by lia. now rewrite Nat.sub_diag. }
  destruct (run_publishes_once user m w1 w2 Hm Hrun)
    as (o' & ev & cs & Hroot & Hev & _ & _ & Hin & Hout).
  exists o', ev. split; [exact Hroot|]. split; [exact Hev|].
  destruct (event_of_fields m _ ev Hev) as [Hid Hres].
  pose proof (subscribe_lookup o w) as Hlook. fold w1 q in Hlook.
  split.
  - intros ->. specialize (Hlook o). destruct (decide (o = o)); [|contradiction].
    destruct (Hwf1 o _ Hlook) as [Hnd _].
    assert (Hq : heap w2 !! q = Some [ev]).
    { rewrite (Hin _ q Hlook Hnd), Hq0; [reflexivity|]. apply in_app_iff. right. now left. }
    unfold Subscription.next. rewrite Hq. eexists. split.
    + rewrite Hid, Hres. reflexivity.
    + cbn. apply list_lookup_insert_eq. now apply lookup_lt_Some in Hq.
  - intros Hne. specialize (Hlook o'). destruct (decide (o = o')); [congruence|].
    assert (Hq : heap w2 !! q = Some []).
    { rewrite Hout, Hq0; [reflexivity|]. rewrite Hlook. now apply default_unregistered. }
    unfold Subscription.next. now rewrite Hq.
Qed.

Lemma mutation_reaches_new_subscriber_witness :
  exists w2 w3,
    run (Some alice) second_comment (snd (Subscription.organization_events "o-acme" acme_world))
    = (Returned tt, w2) /\
    Subscription.next "o-acme" (Subscription.AtGet 0) w2
    = (Returned (Some (mk_SubscriptionEvent "COMMENT_ADDED" "COMMENT" "c2" "o-acme"),
                 Subscription.AtYield 0), w3).
Proof.
  eexists.
  destruct (mutation_reaches_new_subscriber "o-acme" (Some alice) second_comment acme_world _
              (hub_wf_initial acme_db []) ltac:(discriminate) eq_refl)
    as (_ & o' & ev & Hroot & Hev & Hsame & _).
  injection Hroot as <-. injection Hev as <-.
  destruct (Hsame eq_refl) as (w3 & Hnext & _).
  exists w3. split; [reflexivity | exact Hnext].
Defined.

Lemma turns_spec n o q g w evs :
  g = Subscription.AtGet q \/ g = Subscription.AtYield q ->
  heap w !! q = Some evs ->
  exists g' w',
    turns n o g w = (map (subscription_event o) (take n evs), g', w') /\
    (g' = g \/ g' = Subscription.AtGet q \/ g' = Subscription.AtYield q) /\
    heap w' !! q = Some (drop n evs) /\
    db w' = db w /\ connections w' = connections w /\ calls w' = calls w /\
    length (heap w') = length (heap w).
Proof.
  revert g w evs. induction n as [|n IH]; intros g w evs Hg Hq.
  - exists g, w. cbn. rewrite drop_0. repeat split; auto.
  - assert (Hnext : Subscription.next o g w
                    = match evs with
                      | ev :: items =>
                          (Returned (Some (subscription_event o ev), Subscription.AtYield q),
                           with_heap (<[q := items]> (heap w)) w)
                      | [] => (Returned (None, Subscription.AtGet q), w)
                      end).
    { unfold Subscription.next. destruct Hg as [-> | ->]; rewrite Hq; now destruct evs. }
    cbn [turns]. rewrite Hnext. destruct evs as [|ev items].
    + destruct (IH (Subscription.AtGet q) w [] (or_introl eq_refl) Hq)
        as (g' & w' & Hturns & Hg' & Hrest).
      exists g', w'. rewrite Hturns. cbn. rewrite take_nil, drop_nil in *.
      split; [reflexivity|]. split; [|exact Hrest].
      destruct Hg' as [->|Hg']; auto.
    + assert (Hq' : heap (with_heap (<[q := items]> (heap w)) w) !! q = Some items).
      { cbn. apply list_lookup_insert_eq. now apply lookup_lt_Some in Hq. }
      destruct (IH (Subscription.AtYield q) _ items (or_intror eq_refl) Hq')
        as (g' & w' & Hturns & Hg' & Hdrop & Hdb & Hconn & Hcalls & Hlen).
      exists g', w'. rewrite Hturns. cbn in *. rewrite length_insert in Hlen.
      repeat split; try assumption.
      destruct Hg' as [->|Hg']; auto.
Qed.

(** X7. The generator hands out the queued events oldest first, one per
    turn of its loop, each as a [SubscriptionEvent] for the subscribed
    organization; once the queue is empty further turns yield nothing. The
    turns change nothing but the subscriber's own queue. *)
Theorem generator_yields_queue_in_order
    (n : nat) (o : string) (q : queue_ref) (w : world) (evs : list event) :
  heap w !! q = Some evs ->
  exists g' w',
    turns n o (Subscription.AtGet q) w
    = (map (subscription_event o) (take n evs), g', w') /\
    heap w' !! q = Some (drop n evs) /\
    (forall q', q' <> q -> heap w' !! q' = heap w !! q') /\
    db w' = db w /\ connections w' = connections w /\ calls w' = calls w.
Proof.
  intros Hq.
  assert (Hother : forall n g w evs,
             g = Subscription.AtGet q \/ g = Subscription.AtYield q ->
             heap w !! q = Some evs ->
             forall q', q' <> q -> heap (snd (turns n o g w)) !! q' = heap w !! q').
  { clear. induction n as [|n IH]; intros g w evs Hg Hq q' Hne; [reflexivity|].
    cbn [turns].
    assert (Hnext : Subscription.next o g w
                    = match evs with
                      | ev :: items =>
                          (Returned (Some (subscription_event o ev), Subscription.AtYield q),
                           with_heap (<[q := items]> (heap w)) w)
                      | [] => (Returned (None, Subscription.AtGet q), w)
                      end).
    { unfold Subscription.next. destruct Hg as [-> | ->]; rewrite Hq; now destruct evs. }
    rewrite Hnext. destruct evs as [|ev items].
    - now apply (IH _ _ []); auto.
    - assert (Hq' : heap (with_heap (<[q := items]> (heap w)) w) !! q = Some items).
      { cbn. apply list_lookup_insert_eq. now apply lookup_lt_Some in Hq. }
      specialize (IH (Subscription.AtYield q) _ items (or_intror eq_refl) Hq' q' Hne).
      destruct (turns n o (Subscription.AtYield q) _) as [[es g''] w''].
      cbn in *. rewrite IH. now apply list_lookup_insert_ne. }
  destruct (turns_spec n o q (Subscription.AtGet q) w evs (or_introl eq_refl) Hq)
    as (g' & w' & Hturns & _ & Hdrop & Hdb & Hconn & Hcalls & _).
  exists g', w'. split; [exact Hturns|]. split; [exact Hdrop|].
  split; [|auto].
  intros q' Hne. specialize (Hother n _ w evs (or_introl eq_refl) Hq q' Hne).
  now rewrite Hturns in Hother.
Qed.

Lemma generator_yields_queue_in_order_witness :
  exists g' w',
    turns 3 "o-acme" (Subscription.AtGet 0)
      (broadcast_all acme_subscribed [("o-acme", "TASK_CREATED", {[ "id" := "t2" ]});
                                      ("o-acme", "TASK_DELETED", {[ "id" := "t2" ]})])
    = ([mk_SubscriptionEvent "TASK_CREATED" "TASK" "t2" "o-acme";
        mk_SubscriptionEvent "TASK_DELETED" "TASK" "t2" "o-acme"], g', w') /\
    heap w' !! 0 = Some [].
Proof.
  destruct (generator_yields_queue_in_order 3 "o-acme" 0
              (broadcast_all acme_subscribed [("o-acme", "TASK_CREATED", {[ "id" := "t2" ]});
                                              ("o-acme", "TASK_DELETED", {[ "id" := "t2" ]})])
              _ eq_refl) as (g' & w' & Hturns & Hq & _).
  exists g', w'. split; [exact Hturns | exact Hq].
Defined.

(** X8. A cancelled subscription leaves no registration behind: after the
    subscription was opened, any number of events were broadcast and any
    number of turns were taken, a [CancelledError] makes the generator
    unsubscribe and finish without an exception, and the organization's
    list of channels is what it was before the subscription (an
    organization that had no entry keeps an empty one). *)
Theorem cancelled_subscription_is_unregistered
    (o : string) (w : world) (bs : list publication) (n : nat) :
  hub_wf w ->
  exists g w3 w4,
    snd (turns n o (Subscription.AtGet (length (heap w)))
           (broadcast_all (snd (Subscription.organization_events o w)) bs)) = w3 /\
    snd (fst (turns n o (Subscription.AtGet (length (heap w)))
                (broadcast_all (snd (Subscription.organization_events o w)) bs))) = g /\
    Subscription.throw o CancelledError g w3 = (Returned Subscription.Finished, w4) /\
    connections w4 !! o = Some (default [] (connections w !! o)) /\
    (forall o', o' <> o -> connections w4 !! o' = connections w !! o').
Proof.
  intros Hwf.
  change (snd (Subscription.organization_events o w))
    with (snd (SubscriptionManager.subscribe o w)).
  set (q := length (heap w)). set (w1 := snd (SubscriptionManager.subscribe o w)).
  set (w2 := broadcast_all w1 bs).
  assert (Hlen : q < length (heap w2)).
  { assert (Hl : forall bs w, length (heap (broadcast_all w bs)) = length (heap w)).
    { clear. induction bs as [|[[o ty] data] bs IH]; intros w; [reflexivity|].
      cbn. unfold broadcast_all in IH. rewrite IH, broadcast_run. cbn. apply deliver_length. }
    subst w2. rewrite Hl. subst w1 q. cbn. rewrite length_app. cbn. lia. }
  destruct (lookup_lt_is_Some_2 _ _ Hlen) as [evs Hevs].
  destruct (turns_spec n o q (Subscription.AtGet q) w2 evs (or_introl eq_refl) Hevs)
    as (g & w3 & Hturns & Hg & _ & _ & Hconn & _).
  assert (Hc3 : connections w3 = connections w1).
  { rewrite Hconn. subst w2. apply broadcast_all_connections. }
  pose proof (subscribe_lookup o w) as Hlook. fold w1 q in Hlook.
  pose proof (Hlook o) as Ho. destruct (decide (o = o)); [|contradiction].
  pose proof (list_remove_last q _ (default_unregistered w o Hwf)) as Hrm. fold q in Hrm.
  assert (Hthrow : Subscription.throw o CancelledError g w3
                   = (Returned Subscription.Finished,
                      with_connections (<[o := default [] (connections w !! o)]>
                                          (connections w3)) w3)).
  { assert (Hg' : g = Subscription.AtGet q \/ g = Subscription.AtYield q)
      by (destruct Hg as [->|Hg]; auto).
    unfold Subscription.throw, bind, ret, SubscriptionManager.unsubscribe.
    destruct Hg' as [-> | ->]; rewrite Hc3, Ho, Hrm; reflexivity. }
  exists g, w3. eexists. rewrite Hturns. split; [reflexivity|]. split; [reflexivity|].
  split; [exact Hthrow|]. cbn. split; [apply lookup_insert_eq|].
  intros o' Hne. rewrite lookup_insert_ne by congruence. rewrite Hc3, Hlook.
  destruct (decide (o = o')); congruence.
Qed.

Lemma cancelled_subscription_is_unregistered_witness :
  exists g w3 w4,
    snd (turns 1 "o-acme" (Subscription.AtGet 2)
           (broadcast_all (snd (Subscription.organization_events "o-acme" two_subscribers))
              [("o-acme", "TASK_CREATED", {[ "id" := "t2" ]})])) = w3 /\
    snd (fst (turns 1 "o-acme" (Subscription.AtGet 2)
                (broadcast_all (snd (Subscription.organization_events "o-acme" two_subscribers))
                   [("o-acme", "TASK_CREATED", {[ "id" := "t2" ]})]))) = g /\
    Subscription.throw "o-acme" CancelledError g w3 = (Returned Subscription.Finished, w4) /\
    connections w4 !! "o-acme" = Some [0].
Proof.
  destruct (cancelled_subscription_is_unregistered "o-acme" two_subscribers
              [("o-acme", "TASK_CREATED", {[ "id" := "t2" ]})] 1 two_subscribers_wf)
    as (g & w3 & w4 & H3 & Hg & Hthrow & Hc & _).
  exists g, w3, w4. repeat split; assumption.
Defined.

(** ** Who may read *)

Lemma find_org_owned oid uid l o :
  find_one (org_with_id_user oid uid) l = Some o ->
  In o l /\ o_id o = oid /\ o_user_id o = uid.
Proof.
  intros [[Hid Hu]%andb_true_iff Hin]%find_one_Some.
  apply String.eqb_eq in Hid, Hu. auto.
Qed.

Lemma find_to_list_In {A} (f : A -> bool) n l x :
  In x (find_to_list f n l) -> In x l /\ f x = true.
Proof.
  unfold find_to_list. intros Hin. apply filter_In.
  rewrite <- (take_drop n (List.filter f l)). apply in_or_app. now left.
Qed.

Lemma find_to_list_length {A} (f : A -> bool) n l : length (find_to_list f n l) <= n.
Proof. unfold find_to_list. rewrite length_take. lia. Qed.

(** X9. Without an authenticated user every query but [me], and every
    mutation, raises "Not authenticated" before it reads or writes
    anything; [me] answers [None]. *)
Theorem nothing_without_authentication (w : world) :
  Query.me None w = (Returned None, w) /\
  Query.organizations None w = (Raised NotAuthenticated, w) /\
  (forall id, Query.organization None id w = (Raised NotAuthenticated, w)) /\
  (forall oid, Query.projects None oid w = (Raised NotAuthenticated, w)) /\
  (forall id, Query.project None id w = (Raised NotAuthenticated, w)) /\
  (forall pid, Query.tasks None pid w = (Raised NotAuthenticated, w)) /\
  (forall id, Query.task None id w = (Raised NotAuthenticated, w)) /\
  (forall tid, Query.task_comments None tid w = (Raised NotAuthenticated, w)) /\
  (forall oid, Query.project_stats None oid w = (Raised NotAuthenticated, w)) /\
  (forall m, run None m w = (Raised NotAuthenticated, w)).
Proof.
  repeat split; try reflexivity. intros m. destruct m; reflexivity.
Qed.

Ltac unfold_query :=
  unfold Query.organizations, Query.organization, Query.projects, Query.project,
    Query.tasks, Query.task, Query.task_comments, Query.project_stats, Query.with_counts,
    bind, authenticated, or_raise, query, ret, raise in *.

(** X10. The reads that start from a task or project id answer only the
    owner. When [task] returns a task, [tasks] a list or [project] a
    project, the caller owns the organization of the project concerned.
    What they return is what is stored: the first task with the id; at
    most 1000 tasks, all of the requested project; the first project with
    the id, with the number of stored tasks of that project and the number
    of those whose status is [DONE]. *)
Theorem reads_by_id_answer_only_the_owner (u : user_doc) (w : world) :
  (forall id t w',
      Query.task (Some u) id w = (Returned (Some t), w') ->
      w' = w /\ find_one (task_with_id id) (db_tasks (db w)) = Some t /\
      owns_project u (t_project_id t) (db w)) /\
  (forall pid ts w',
      Query.tasks (Some u) pid w = (Returned ts, w') ->
      w' = w /\ owns_project u pid (db w) /\ length ts <= 1000 /\
      forall t, In t ts -> In t (db_tasks (db w)) /\ t_project_id t = pid) /\
  (forall id r w',
      Query.project (Some u) id w = (Returned (Some r), w') ->
      w' = w /\ owns_project u id (db w) /\
      find_one (proj_with_id id) (db_projects (db w)) = Some (project_doc r) /\
      task_count r = count_documents (task_with_project (p_id (project_doc r)))
                       (db_tasks (db w)) /\
      completed_tasks r
      = count_documents (task_with_project_status (p_id (project_doc r)) "DONE")
          (db_tasks (db w)) /\
      completed_tasks r <= task_count r).
Proof.
  split; [|split].
  - intros id t w' H. unfold_query. invert_returned H.
    split; [reflexivity|]. split; [reflexivity|].
    match goal with Ho : find_one (org_with_id_user _ _) _ = Some ?o |- _ =>
      apply find_org_owned in Ho as (Hin & Hid & Hu) end.
    eexists _, _. eauto.
  - intros pid ts w' H. unfold_query. invert_returned H.
    split; [reflexivity|].
    match goal with Ho : find_one (org_with_id_user _ _) _ = Some ?o |- _ =>
      apply find_org_owned in Ho as (Hin & Hid & Hu) end.
    split; [eexists _, _; eauto|]. split; [apply find_to_list_length|].
    intros t [Hin' Ht]%find_to_list_In. split; [assumption|].
    now apply String.eqb_eq in Ht.
  - intros id r w' H. unfold_query. invert_returned H.
    split; [reflexivity|].
    match goal with Ho : find_one (org_with_id_user _ _) _ = Some ?o |- _ =>
      apply find_org_owned in Ho as (Hin & Hid & Hu) end.
    split; [eexists _, _; eauto|]. cbn. split; [reflexivity|]. split; [reflexivity|].
    split; [reflexivity|].
    apply count_documents_le. intros t. unfold task_with_project_status, task_with_project.
    now intros [Ht _]%andb_true_iff.
Qed.

Lemma reads_by_id_answer_only_the_owner_witness :
  Query.task (Some alice) "t1" acme_world = (Returned (Some t1), acme_world) /\
  owns_project alice "p1" (db acme_world).
Proof.
  split; [reflexivity|].
  exact (proj2 (proj2 (proj1 (reads_by_id_answer_only_the_owner alice acme_world)
                         "t1" t1 acme_world eq_refl))).
Defined.

Lemma for_each_with_counts (ps : list proj_doc) (w : world) :
  Query.for_each Query.with_counts ps w
  = (Returned (map (fun p => mk_Project p
                               (count_documents (task_with_project (p_id p)) (db_tasks (db w)))
                               (count_documents (task_with_project_status (p_id p) "DONE")
                                  (db_tasks (db w)))) ps), w).
Proof.
  induction ps as [|p ps IH]; [reflexivity|].
  change (Query.for_each Query.with_counts (p :: ps) w)
    with (bind (Query.with_counts p)
            (fun b => bind (Query.for_each Query.with_counts ps) (fun bs => ret (b :: bs))) w).
  set (rest := Query.for_each Query.with_counts ps) in *.
  unfold Query.with_counts, bind, query, ret. cbv beta iota. now rewrite IH.
Qed.

Lemma count_by_status_le (oid : string) (l : list proj_doc) :
  count_documents (proj_with_org_status oid "ACTIVE") l
  + count_documents (proj_with_org_status oid "COMPLETED") l
  + count_documents (proj_with_org_status oid "ON_HOLD") l
  <= count_documents (proj_with_org oid) l.
Proof.
  unfold count_documents, proj_with_org_status, proj_with_org.
  induction l as [|p l IH]; [reflexivity|]. cbn.
  destruct (String.eqb (p_organization_id p) oid); cbn; [|exact IH].
  destruct (String.eqb_spec (p_status p) "ACTIVE") as [->|_]; cbn; [lia|].
  destruct (String.eqb_spec (p_status p) "COMPLETED") as [->|_]; cbn; [lia|].
  destruct (String.eqb (p_status p) "ON_HOLD"); cbn; lia.
Qed.

(** X11. The reads that start from an organization answer only its owner.
    [organization] returns an organization only when one with that id has
    the caller as [user_id]; [organizations] returns at most 100
    organizations, all owned by the caller; [projects] and [project_stats]
    return only for an organization the caller owns. [projects] lists at
    most 100 projects, all stored under the requested organization, each
    with the number of stored tasks of that project and the number of those
    whose status is [DONE]. No read changes anything. *)
Theorem organization_reads_answer_only_the_owner (u : user_doc) (w : world) :
  (forall id x w',
      Query.organization (Some u) id w = (Returned (Some x), w') ->
      w' = w /\ org_id x = id /\
      exists o, In o (db_organizations (db w)) /\ x = Organization_of o /\
                o_user_id o = u_id u) /\
  (forall xs w',
      Query.organizations (Some u) w = (Returned xs, w') ->
      w' = w /\ length xs <= 100 /\
      forall x, In x xs ->
                exists o, In o (db_organizations (db w)) /\ x = Organization_of o /\
                          o_user_id o = u_id u) /\
  (forall oid rs w',
      Query.projects (Some u) oid w = (Returned rs, w') ->
      w' = w /\ owns_organization u oid (db w) /\ length rs <= 100 /\
      forall r, In r rs ->
                In (project_doc r) (db_projects (db w)) /\
                p_organization_id (project_doc r) = oid /\
                task_count r = count_documents (task_with_project (p_id (project_doc r)))
                                 (db_tasks (db w)) /\
                completed_tasks r
                = count_documents (task_with_project_status (p_id (project_doc r)) "DONE")
                    (db_tasks (db w)) /\
                completed_tasks r <= task_count r) /\
  (forall oid st w',
      Query.project_stats (Some u) oid w = (Returned st, w') ->
      w' = w /\ owns_organization u oid (db w)).
Proof.
  split; [|split; [|split]].
  - intros id x w' H. unfold_query. invert_returned H.
    match goal with Ho : find_one (org_with_id_user _ _) _ = Some ?o |- _ =>
      apply find_org_owned in Ho as (Hin & Hid & Hu) end.
    split; [reflexivity|]. split; [assumption|]. eauto.
  - intros xs w' H. unfold_query. invert_returned H.
    split; [reflexivity|]. split; [rewrite length_map; apply find_to_list_length|].
    intros x (o & <- & [Hin Ho]%find_to_list_In)%in_map_iff.
    exists o. repeat split; try assumption. now apply String.eqb_eq in Ho.
  - intros oid rs w' H.
    unfold Query.projects, bind, authenticated, or_raise, query, ret, raise in H.
    cbn in H.
    destruct (find_one (org_with_id_user oid (u_id u)) (db_organizations (db w)))
      as [o|] eqn:Ho; cbn in H; [|discriminate].
    rewrite for_each_with_counts in H. injection H as <- <-.
    apply find_org_owned in Ho as (Hin & Hid & Hu).
    split; [reflexivity|]. split; [now exists o|].
    split; [rewrite length_map; apply find_to_list_length|].
    intros r (p & <- & [Hp Hporg]%find_to_list_In)%in_map_iff. cbn.
    split; [assumption|]. split; [now apply String.eqb_eq in Hporg|].
    split; [reflexivity|]. split; [reflexivity|].
    apply count_documents_le. intros t. unfold task_with_project_status, task_with_project.
    now intros [Ht _]%andb_true_iff.
  - intros oid st w' H. unfold Query.project_stats in H. unfold_query.
    cbn in H.
    destruct (find_one (org_with_id_user oid (u_id u)) (db_organizations (db w)))
      as [o|] eqn:Ho; cbn in H; [|discriminate].
    apply find_org_owned in Ho as (Hin & Hid & Hu).
    split; [|now exists o].
    revert H. cbn.
    repeat match goal with
           | |- context [match ?x with _ => _ end] =>
               lazymatch x with
               | context [match _ with _ => _ end] => fail
               | _ => destruct x eqn:?
               end
           end; cbn; try discriminate; intros H; try (now inversion H).
    match goal with Hd : true_div _ _ _ = _ |- _ => unfold true_div, ret in Hd; inversion Hd end.
    now inversion H.
Qed.

Lemma organization_reads_answer_only_the_owner_witness :
  Query.organization (Some alice) "o-acme" acme_world
  = (Returned (Some (Organization_of acme)), acme_world) /\
  exists o, In o (db_organizations (db acme_world)) /\
            Organization_of acme = Organization_of o /\ o_user_id o = u_id alice.
Proof.
  split; [reflexivity|].
  exact (proj2 (proj2 (proj1 (organization_reads_answer_only_the_owner alice acme_world)
                         "o-acme" (Organization_of acme) acme_world eq_refl))).
Defined.

(** ** Statistics, once more *)

Lemma in_ids_projects (f : proj_doc -> bool) (ps : list proj_doc) (x : string) :
  in_ids (map p_id (List.filter f ps)) x
  = existsb (fun p => f p && String.eqb x (p_id p)) ps.
Proof.
  unfold in_ids. induction ps as [|p ps IH]; [reflexivity|].
  cbn. destruct (f p); cbn; now rewrite IH.
Qed.

Lemma count_documents_ext {A} (f g : A -> bool) (l : list A) :
  (forall x, f x = g x) -> count_documents f l = count_documents g l.
Proof. intros H. unfold count_documents. now rewrite (filter_ext f g H). Qed.

Lemma count_documents_nil_ids (l : list task_doc) :
  count_documents (task_with_project_in []) l = 0 /\
  count_documents (task_with_project_in_status [] "DONE") l = 0.
Proof.
  unfold count_documents. split; induction l as [|t l IH]; cbn; auto.
Qed.

(** X12. What [project_stats] counts for an owner. The total is the number
    of stored projects of the organization, and the active, completed and
    on-hold counts are the numbers of those whose status is [ACTIVE],
    [COMPLETED] and [ON_HOLD]; the three together never exceed the total
    (projects with another status are in the total only). When the
    organization has at most 1000 projects, the task counts are those of the
    tasks whose [project_id] is the id of one of its projects, and of the
    done ones among them. *)
Theorem project_stats_counts
    (u : user_doc) (oid : string) (w : world) (org : org_doc)
    (Horg : find_one (org_with_id_user oid (u_id u)) (db_organizations (db w)) = Some org) :
  exists st,
    Query.project_stats (Some u) oid w = (Returned st, w) /\
    total_projects st = count_documents (proj_with_org oid) (db_projects (db w)) /\
    active_projects st
    = count_documents
        (fun p => String.eqb (p_organization_id p) oid && String.eqb (p_status p) "ACTIVE")
        (db_projects (db w)) /\
    completed_projects st
    = count_documents
        (fun p => String.eqb (p_organization_id p) oid && String.eqb (p_status p) "COMPLETED")
        (db_projects (db w)) /\
    on_hold_projects st
    = count_documents
        (fun p => String.eqb (p_organization_id p) oid && String.eqb (p_status p) "ON_HOLD")
        (db_projects (db w)) /\
    active_projects st + completed_projects st + on_hold_projects st <= total_projects st /\
    (count_documents (proj_with_org oid) (db_projects (db w)) <= 1000 ->
     total_tasks st = count_documents (task_of_organization oid (db w)) (db_tasks (db w)) /\
     stats_completed_tasks st
     = count_documents
         (fun t => task_of_organization oid (db w) t && String.eqb (t_status t) "DONE")
         (db_tasks (db w))).
Proof.
  unfold Query.project_stats, bind, authenticated, or_raise, query, ret. cbn.
  rewrite Horg. cbn.
  pose proof (count_by_status_le oid (db_projects (db w))) as Hsum.
  set (ids := map p_id (find_to_list (proj_with_org oid) 1000 (db_projects (db w)))).
  assert (Hids : count_documents (proj_with_org oid) (db_projects (db w)) <= 1000 ->
                 forall t, task_with_project_in ids t = task_of_organization oid (db w) t).
  { intros Hle t. subst ids. rewrite find_to_list_all by assumption.
    unfold task_with_project_in, task_of_organization. apply in_ids_projects. }
  assert (Htasks :
            count_documents (proj_with_org oid) (db_projects (db w)) <= 1000 ->
            match ids with
            | [] => 0
            | _ => count_documents (task_with_project_in ids) (db_tasks (db w))
            end = count_documents (task_of_organization oid (db w)) (db_tasks (db w)) /\
            match ids with
            | [] => 0
            | _ => count_documents (task_with_project_in_status ids "DONE") (db_tasks (db w))
            end = count_documents
                    (fun t => task_of_organization oid (db w) t
                              && String.eqb (t_status t) "DONE") (db_tasks (db w))).
  { intros Hle. specialize (Hids Hle).
    assert (Hc1 : count_documents (task_with_project_in ids) (db_tasks (db w))
                  = count_documents (task_of_organization oid (db w)) (db_tasks (db w)))
      by (apply count_documents_ext; exact Hids).
    assert (Hc2 : count_documents (task_with_project_in_status ids "DONE") (db_tasks (db w))
                  = count_documents
                      (fun t => task_of_organization oid (db w) t
                                && String.eqb (t_status t) "DONE") (db_tasks (db w)))
      by (apply count_documents_ext; intros t; unfold task_with_project_in_status;
          now rewrite <- Hids).
    rewrite <- Hc1, <- Hc2.
    destruct ids; [|split; reflexivity].
    destruct (count_documents_nil_ids (db_tasks (db w))) as [-> ->]. split; reflexivity. }
  destruct ids as [|i ids'] eqn:Heq.
  - eexists. split; [reflexivity|]. cbn. split; [reflexivity|].
    split; [reflexivity|]. split; [reflexivity|]. split; [reflexivity|].
    split; [exact Hsum|]. exact Htasks.
  - destruct (count_documents (task_with_project_in (i :: ids')) (db_tasks (db w)))
      as [|total] eqn:Htotal.
    + cbn. eexists. split; [reflexivity|]. cbn. split; [reflexivity|].
      split; [reflexivity|]. split; [reflexivity|]. split; [reflexivity|].
      split; [exact Hsum|]. intros Hle. destruct (Htasks Hle) as [H1 H2].
      rewrite <- H2. split; [|reflexivity]. now rewrite <- H1.
    + unfold true_div, ret. cbn. eexists. split; [reflexivity|]. cbn.
      split; [reflexivity|].
      split; [reflexivity|]. split; [reflexivity|]. split; [reflexivity|].
      split; [exact Hsum|]. intros Hle.
      destruct (Htasks Hle) as [H1 H2]. rewrite <- H2. split; [|reflexivity].
      now rewrite <- H1.
Qed.

Lemma project_stats_counts_witness :
  exists st,
    Query.project_stats (Some alice) "o-acme" acme_two_projects
    = (Returned st, acme_two_projects) /\
    total_projects st = 2 /\ active_projects st = 1 /\ completed_projects st = 0 /\
    on_hold_projects st = 1 /\ total_tasks st = 3 /\ stats_completed_tasks st = 2.
Proof.
  destruct (project_stats_counts alice "o-acme" acme_two_projects acme eq_refl)
    as (st & Hrun & _).
  exists st. split; [exact Hrun|].
  vm_compute in Hrun. injection Hrun as <-. repeat split; reflexivity.
Defined.

(** ** Who may write, and what a write may touch *)

Lemma find_one_update_one_Some {A} (f : A -> bool) (upd : A -> A) (l : list A) (x : A) :
  (forall d, f d = true -> f (upd d) = true) ->
  find_one f l = Some x -> find_one f (update_one f upd l) = Some (upd x).
Proof. intros Hst Hx. rewrite find_one_update_one by assumption. now rewrite Hx. Qed.

(** Splits a resolver run into the cases of its lookups, whatever it
    returned or raised. *)
Ltac split_run H :=
  repeat first
    [ progress cbn -[Mutation.task_update_data Mutation.project_update_data] in H
    | rewrite broadcast_run in H
    | match type of H with
      | context [match ?x with _ => _ end] =>
          lazymatch x with
          | context [match _ with _ => _ end] => fail
          | _ => destruct x eqn:?
          end
      end ].

(** X13. A mutation that runs with no other request between its steps
    raises only from one of its checks (not authenticated, not found, access
    denied), and every check comes before its first write: a mutation that
    raises has then changed nothing, neither the store, nor the registry,
    nor any queue; no write was made and no event was published. A request
    that gets in between the write and the later read of [update_project]
    or [update_task] is outside this statement. *)
Theorem failed_mutation_changes_nothing
    (user : option user_doc) (m : mutation) (e : exn) (w w' : world) :
  run user m w = (Raised e, w') ->
  w' = w /\
  In e [NotAuthenticated; OrganizationNotFound; ProjectNotFound; TaskNotFound;
        CommentNotFound; AccessDenied].
Proof.
  intros H. destruct m; unfold_resolver; split_run H;
    try discriminate H;
    try (injection H as <- <-; split; [reflexivity | cbn; auto 10]);
    try (exfalso; congruence).
  - (* update_project: the project is still there after the write *)
    exfalso.
    match goal with
    | Hs : find_one (proj_with_id ?i) (db_projects (db w)) = Some ?p,
      Hn : find (proj_with_id ?i) (update_one _ ?upd ?l) = None |- _ =>
        pose proof (find_one_update_one_Some (proj_with_id i) upd l p
                      (fun d => eq_trans (proj_with_id_set_proj input i d)) Hs) as Hc;
        unfold find_one in Hc; congruence
    end.
  - (* update_task: the task is still there after the write *)
    exfalso.
    match goal with
    | Hs : find_one (task_with_id ?i) (db_tasks (db w)) = Some ?t,
      Hn : find (task_with_id ?i) (update_one _ ?upd ?l) = None |- _ =>
        pose proof (find_one_update_one_Some (task_with_id i) upd l t
                      (fun d => eq_trans (task_with_id_set_task input i d)) Hs) as Hc;
        unfold find_one in Hc; congruence
    end.
Qed.

Lemma failed_mutation_changes_nothing_witness :
  run (Some bob) (DeleteProject "p1") acme_subscribed = (Raised AccessDenied, acme_subscribed).
Proof.
  assert (H : exists w', run (Some bob) (DeleteProject "p1") acme_subscribed
                         = (Raised AccessDenied, w')) by (eexists; reflexivity).
  destruct H as [w' H].
  rewrite <- (proj1 (failed_mutation_changes_nothing _ _ _ _ _ H)) at 2. exact H.
Defined.

(** X14. A mutation returns only for a caller with the right over the
    entity. For every mutation but [delete_comment] that is an
    authenticated caller who owns the organization at the root of the
    entity's chain. For [delete_comment] it is the author of the comment,
    whoever owns the organization. *)
Theorem mutation_returns_only_for_owner_or_author
    (user : option user_doc) (m : mutation) (w w' : world) :
  run user m w = (Returned tt, w') ->
  exists u,
    user = Some u /\
    match m with
    | DeleteComment id =>
        exists c, find_one (comment_with_id id) (db_task_comments (db w)) = Some c /\
                  c_author_email c = u_email u
    | _ => exists o, root_organization m (db w) = Some o /\ owns_organization u o (db w)
    end.
Proof.
  intros Hrun. destruct m;
    try (apply run_returned in Hrun as (u & -> & _ & o & org & _ & _ & Hroot & Horg & _);
         exists u; split; [reflexivity|]; exists o; split; [exact Hroot|];
         apply find_org_owned in Horg as (Hin & Hid & Hu); now exists org).
  unfold_resolver. invert_returned Hrun.
  eexists. split; [reflexivity|]. eexists. split; [reflexivity|].
  match goal with Heq : String.eqb _ _ = true |- _ => now apply String.eqb_eq in Heq end.
Qed.

Lemma mutation_returns_only_for_owner_or_author_witness :
  exists o, root_organization (DeleteTask "t1") (db acme_world) = Some o /\
            owns_organization alice o (db acme_world).
Proof.
  destruct (mutation_returns_only_for_owner_or_author (Some alice) (DeleteTask "t1")
              acme_world (snd (run (Some alice) (DeleteTask "t1") acme_world)) eq_refl)
    as (u & Hu & H).
  injection Hu as <-. exact H.
Defined.

(** X15. What a mutation never touches, whatever it returns or raises: the
    organizations and the registry, always; beyond that the project
    mutations other than [delete_project] leave tasks and comments alone,
    the task mutations leave projects alone ([delete_task] may remove
    comments), and the comment mutations leave projects and tasks alone. *)
Theorem mutation_leaves_other_collections
    (user : option user_doc) (m : mutation) (r : outcome unit) (w w' : world) :
  run user m w = (r, w') ->
  db_organizations (db w') = db_organizations (db w) /\
  connections w' = connections w /\
  match m with
  | CreateProject _ _ _ | UpdateProject _ _ =>
      db_tasks (db w') = db_tasks (db w) /\ db_task_comments (db w') = db_task_comments (db w)
  | DeleteProject _ => True
  | CreateTask _ _ _ | UpdateTask _ _ =>
      db_projects (db w') = db_projects (db w) /\
      db_task_comments (db w') = db_task_comments (db w)
  | DeleteTask _ => db_projects (db w') = db_projects (db w)
  | AddComment _ _ _ | DeleteComment _ =>
      db_projects (db w') = db_projects (db w) /\ db_tasks (db w') = db_tasks (db w)
  end.
Proof.
  intros H. destruct m; unfold_resolver; split_run H;
    injection H as <- <-; cbn; auto.
Qed.

Lemma mutation_leaves_other_collections_witness :
  db_projects (db (snd (run (Some alice) (DeleteTask "t1") acme_world)))
  = db_projects (db acme_world).
Proof.
  exact (proj2 (proj2 (mutation_leaves_other_collections (Some alice) (DeleteTask "t1") _ _ _
                         (surjective_pairing _)))).
Defined.

(** ** Creating and reading back *)

Lemma find_one_insert_one {A} (f : A -> bool) (l : list A) (x : A) :
  find_one f (insert_one x l)
  = match find_one f l with
    | Some y => Some y
    | None => if f x then Some x else None
    end.
Proof.
  unfold find_one, insert_one. induction l as [|y l IH]; cbn.
  - now destruct (f x).
  - destruct (f y); [reflexivity | exact IH].
Qed.

Lemma count_documents_insert_one {A} (f : A -> bool) (l : list A) (x : A) :
  count_documents f (insert_one x l) = count_documents f l + (if f x then 1 else 0).
Proof.
  unfold count_documents, insert_one. rewrite List.filter_app, length_app. cbn.
  now destruct (f x).
Qed.

(** X16. Creating a task and reading it back. For a caller who owns the
    project's organization, [create_task] with an id that no stored task
    has returns a task with exactly the supplied fields, the new id and the
    creation time, stores it after the others, and [task] with that id then
    returns the same task. *)
Theorem created_task_is_read_back
    (u : user_doc) (new_id now : string) (input : TaskInput) (w : world)
    (p : proj_doc) (o : org_doc) :
  find_one (proj_with_id (ti_project_id input)) (db_projects (db w)) = Some p ->
  find_one (org_with_id_user (p_organization_id p) (u_id u)) (db_organizations (db w))
  = Some o ->
  find_one (task_with_id new_id) (db_tasks (db w)) = None ->
  exists w',
    Mutation.create_task (Some u) new_id now input w
    = (Returned (mk_task new_id (ti_project_id input) (ti_title input) (ti_description input)
                   (ti_status input) (ti_assignee_email input) (ti_due_date input) now), w') /\
    db_tasks (db w')
    = db_tasks (db w)
      ++ [mk_task new_id (ti_project_id input) (ti_title input) (ti_description input)
            (ti_status input) (ti_assignee_email input) (ti_due_date input) now] /\
    Query.task (Some u) new_id w'
    = (Returned (Some (mk_task new_id (ti_project_id input) (ti_title input)
                         (ti_description input) (ti_status input)
                         (ti_assignee_email input) (ti_due_date input) now)), w').
Proof.
  intros Hp Ho Hfresh. unfold_resolver. cbn. rewrite Hp. cbn. rewrite Ho. cbn.
  rewrite broadcast_run. cbn. eexists. split; [reflexivity|]. split; [reflexivity|].
  unfold_query. cbn.
  pose proof (find_one_insert_one (task_with_id new_id) (db_tasks (db w))
                (mk_task new_id (ti_project_id input) (ti_title input) (ti_description input)
                   (ti_status input) (ti_assignee_email input) (ti_due_date input) now))
    as Hfind.
  rewrite Hfresh in Hfind. unfold task_with_id at 2 in Hfind. cbn in Hfind.
  rewrite String.eqb_refl in Hfind. unfold find_one in *. rewrite Hfind. cbn.
  rewrite Hp. cbn. now rewrite Ho.
Qed.

Lemma created_task_is_read_back_witness :
  exists w',
    Mutation.create_task (Some alice) "t2" "2024-01-10T00:00:00+00:00"
      (mk_TaskInput "p1" "Review" "" "TODO" "" None) acme_world
    = (Returned (mk_task "t2" "p1" "Review" "" "TODO" "" None "2024-01-10T00:00:00+00:00"), w')
    /\
    Query.task (Some alice) "t2" w'
    = (Returned (Some (mk_task "t2" "p1" "Review" "" "TODO" "" None
                         "2024-01-10T00:00:00+00:00")), w').
Proof.
  destruct (created_task_is_read_back alice "t2" "2024-01-10T00:00:00+00:00"
              (mk_TaskInput "p1" "Review" "" "TODO" "" None) acme_world p1 acme
              eq_refl eq_refl eq_refl) as (w' & Hc & _ & Hq).
  exists w'. split; assumption.
Defined.

Lemma find_to_list_insert_one {A} (f : A -> bool) (n : nat) (l : list A) (x : A) :
  f x = true -> count_documents f l < n ->
  find_to_list f n (insert_one x l) = find_to_list f n l ++ [x].
Proof.
  unfold find_to_list, insert_one, count_documents. intros Hx Hlt.
  rewrite List.filter_app. cbn. rewrite Hx.
  rewrite (take_ge (List.filter f l)) by lia.
  apply take_ge. rewrite length_app. cbn. lia.
Qed.

(** X17. Creating a project and reading it back. For an owner of the
    organization, [create_project] with an id that no stored project has
    returns the project with the supplied fields and the counts 0 and 0,
    and stores it after the others. When no stored task refers to the new
    id, [project] with that id then returns the same answer. *)
Theorem created_project_is_read_back
    (u : user_doc) (new_id now : string) (input : ProjectInput) (w : world) (o : org_doc) :
  find_one (org_with_id_user (pi_organization_id input) (u_id u)) (db_organizations (db w))
  = Some o ->
  find_one (proj_with_id new_id) (db_projects (db w)) = None ->
  exists w',
    Mutation.create_project (Some u) new_id now input w
    = (Returned (mk_Project
                   (mk_proj new_id (pi_organization_id input) (pi_name input)
                      (pi_description input) (pi_status input) (pi_due_date input) now)
                   0 0), w') /\
    db_projects (db w')
    = db_projects (db w)
      ++ [mk_proj new_id (pi_organization_id input) (pi_name input)
            (pi_description input) (pi_status input) (pi_due_date input) now] /\
    (count_documents (task_with_project new_id) (db_tasks (db w)) = 0 ->
     Query.project (Some u) new_id w'
     = (Returned (Some (mk_Project
                          (mk_proj new_id (pi_organization_id input) (pi_name input)
                             (pi_description input) (pi_status input) (pi_due_date input)
                             now)
                          0 0)), w')).
Proof.
  intros Ho Hfresh. unfold_resolver. cbn. rewrite Ho. cbn.
  rewrite broadcast_run. cbn. eexists. split; [reflexivity|]. split; [reflexivity|].
  intros Hnone. unfold_query. cbn.
  pose proof (find_one_insert_one (proj_with_id new_id) (db_projects (db w))
                (mk_proj new_id (pi_organization_id input) (pi_name input)
                   (pi_description input) (pi_status input) (pi_due_date input) now))
    as Hfind.
  rewrite Hfresh in Hfind. unfold proj_with_id at 2 in Hfind. cbn in Hfind.
  rewrite String.eqb_refl in Hfind.
  assert (Hdone : count_documents (task_with_project_status new_id "DONE") (db_tasks (db w))
                  = 0).
  { pose proof (count_documents_le (task_with_project_status new_id "DONE")
                  (task_with_project new_id) (db_tasks (db w))) as Hle.
    rewrite Hnone in Hle. apply Nat.le_0_r, Hle. intros t.
    unfold task_with_project_status, task_with_project. now intros [Ht _]%andb_true_iff. }
  unfold find_one in *. rewrite Hfind. cbn. rewrite Ho. cbn.
  unfold count_documents in *. now rewrite Hnone, Hdone.
Qed.

Lemma created_project_is_read_back_witness :
  exists r w',
    Mutation.create_project (Some alice) "p2" "2024-01-10T00:00:00+00:00"
      (mk_ProjectInput "o-acme" "Second" "" "ACTIVE" None) acme_world = (Returned r, w') /\
    Query.project (Some alice) "p2" w' = (Returned (Some r), w').
Proof.
  destruct (created_project_is_read_back alice "p2" "2024-01-10T00:00:00+00:00"
              (mk_ProjectInput "o-acme" "Second" "" "ACTIVE" None) acme_world acme
              eq_refl eq_refl) as (w' & Hc & _ & Hq).
  eexists _, w'. split; [exact Hc | exact (Hq eq_refl)].
Defined.

(** X18. Adding a comment and reading the comments back. For a caller who
    owns the task's organization, [add_comment] returns a comment with the
    supplied content, the caller's email as author, the new id and the
    creation time. When the task had fewer than 1000 comments,
    [task_comments] then returns the comments it returned before followed
    by the new one. *)
Theorem added_comment_is_read_back
    (u : user_doc) (new_id now : string) (input : TaskCommentInput) (w : world)
    (t : task_doc) (p : proj_doc) (o : org_doc) :
  find_one (task_with_id (ci_task_id input)) (db_tasks (db w)) = Some t ->
  find_one (proj_with_id (t_project_id t)) (db_projects (db w)) = Some p ->
  find_one (org_with_id_user (p_organization_id p) (u_id u)) (db_organizations (db w))
  = Some o ->
  exists w' before,
    Mutation.add_comment (Some u) new_id now input w
    = (Returned (mk_comment new_id (ci_task_id input) (ci_content input) (u_email u) now), w')
    /\
    Query.task_comments (Some u) (ci_task_id input) w = (Returned before, w) /\
    (count_documents (comment_with_task (ci_task_id input)) (db_task_comments (db w)) < 1000 ->
     Query.task_comments (Some u) (ci_task_id input) w'
     = (Returned (before ++ [mk_comment new_id (ci_task_id input) (ci_content input)
                               (u_email u) now]), w')).
Proof.
  intros Ht Hp Ho. unfold_resolver. cbn. rewrite Ht. cbn. rewrite Hp. cbn. rewrite Ho. cbn.
  rewrite broadcast_run. cbn -[insert_one].
  eexists _, (find_to_list (comment_with_task (ci_task_id input)) 1000
                (db_task_comments (db w))).
  split; [reflexivity|].
  unfold_query. cbn -[find_to_list insert_one]. split; [reflexivity|]. intros Hlt.
  rewrite find_to_list_insert_one; [reflexivity | | assumption].
  unfold comment_with_task. cbn. apply String.eqb_refl.
Qed.

Lemma added_comment_is_read_back_witness :
  exists c w',
    run (Some alice) second_comment acme_world = (Returned tt, w') /\
    Query.task_comments (Some alice) "t1" w' = (Returned [c1; c], w') /\
    c_author_email c = "a@x.com".
Proof.
  destruct (added_comment_is_read_back alice "c2" "2024-01-07T00:00:00+00:00"
              (mk_TaskCommentInput "t1" "second note") acme_world t1 p1 acme
              eq_refl eq_refl eq_refl) as (w' & before & Hadd & Hbefore & Hafter).
  injection Hbefore as <-.
  eexists _, w'. split; [|split; [exact (Hafter ltac:(cbn; lia)) | reflexivity]].
  unfold run, second_comment, bind, ret. now rewrite Hadd.
Defined.

(** ** Deleting *)

Lemma delete_one_length {A} (f : A -> bool) (l : list A) (x : A) :
  find_one f l = Some x -> S (length (delete_one f l)) = length l.
Proof.
  unfold find_one. induction l as [|y l IH]; cbn; [discriminate|].
  destruct (f y); [reflexivity|]. intros H. cbn. now rewrite IH.
Qed.

Lemma delete_one_keeps {A} (f : A -> bool) (l : list A) (x : A) :
  In x l -> f x = false -> In x (delete_one f l).
Proof.
  induction l as [|y l IH]; [easy|]. intros [->|Hin] Hx; cbn.
  - rewrite Hx. now left.
  - destruct (f y); [assumption | right; auto].
Qed.

Lemma delete_one_In {A} (f : A -> bool) (l : list A) (x : A) :
  In x (delete_one f l) -> In x l.
Proof.
  induction l as [|y l IH]; [easy|]. cbn. destruct (f y).
  - now right.
  - intros [->|Hin]; [now left | right; auto].
Qed.

(** With unique ids, the one document removed is the only one that matched. *)
Lemma delete_one_unique {A} (key : A -> string) (id : string) (l : list A) (x : A) :
  List.NoDup (map key l) ->
  In x (delete_one (fun d => String.eqb (key d) id) l) -> key x <> id.
Proof.
  induction l as [|y l IH]; [easy|]. cbn. intros Hnd.
  apply List.NoDup_cons_iff in Hnd as [Hy Hnd].
  destruct (String.eqb_spec (key y) id) as [Heq|Hne].
  - intros Hin Hx. apply Hy. rewrite Heq, <- Hx. now apply in_map.
  - intros [<-|Hin]; [assumption | auto].
Qed.

(** X19. [delete_task] by an owner of the task's organization returns
    [True], removes every comment of the task, however many there are, and
    no other comment, and removes one task with the id and no other task.
    With task ids that are unique no task with the id is left, and [task]
    with that id then answers [None]. *)
Theorem delete_task_removes_task_and_all_its_comments
    (u : user_doc) (id : string) (w : world) (t : task_doc) (p : proj_doc) (o : org_doc) :
  find_one (task_with_id id) (db_tasks (db w)) = Some t ->
  find_one (proj_with_id (t_project_id t)) (db_projects (db w)) = Some p ->
  find_one (org_with_id_user (p_organization_id p) (u_id u)) (db_organizations (db w))
  = Some o ->
  exists w',
    Mutation.delete_task (Some u) id w = (Returned true, w') /\
    (forall c, In c (db_task_comments (db w')) <->
               In c (db_task_comments (db w)) /\ c_task_id c <> id) /\
    S (length (db_tasks (db w'))) = length (db_tasks (db w)) /\
    (forall t', In t' (db_tasks (db w)) -> t_id t' <> id -> In t' (db_tasks (db w'))) /\
    (forall t', In t' (db_tasks (db w')) -> In t' (db_tasks (db w))) /\
    (List.NoDup (map t_id (db_tasks (db w))) ->
     (forall t', In t' (db_tasks (db w')) -> t_id t' <> id) /\
     Query.task (Some u) id w' = (Returned None, w')).
Proof.
  intros Ht Hp Ho. unfold_resolver. cbn. rewrite Ht. cbn. rewrite Hp. cbn. rewrite Ho. cbn.
  rewrite broadcast_run. cbn. eexists. split; [reflexivity|]. cbn.
  split; [|split; [|split; [|split]]].
  - intros c. rewrite delete_many_In. unfold comment_with_task.
    destruct (String.eqb_spec (c_task_id c) id); split; intros [Hin Hc]; split;
      try assumption; try congruence; try reflexivity.
  - now apply (delete_one_length _ _ t).
  - intros t' Hin Hne. apply delete_one_keeps; [assumption|].
    unfold task_with_id. now apply String.eqb_neq.
  - intros t'. apply delete_one_In.
  - intros Hnd.
    assert (Hgone : forall t', In t' (delete_one (task_with_id id) (db_tasks (db w))) ->
                               t_id t' <> id)
      by (intros t'; now apply (delete_one_unique t_id id)).
    split; [exact Hgone|].
    unfold_query. cbn.
    destruct (find (task_with_id id) (delete_one (task_with_id id) (db_tasks (db w))))
      as [t'|] eqn:Hfind; [|reflexivity].
    apply find_some in Hfind as [Hin Hid]. apply String.eqb_eq in Hid.
    now destruct (Hgone t' Hin).
Qed.

Lemma delete_task_removes_task_and_all_its_comments_witness :
  exists w',
    Mutation.delete_task (Some alice) "t1" acme_world = (Returned true, w') /\
    db_tasks (db w') = [] /\ db_task_comments (db w') = [] /\
    Query.task (Some alice) "t1" w' = (Returned None, w').
Proof.
  destruct (delete_task_removes_task_and_all_its_comments alice "t1" acme_world t1 p1 acme
              eq_refl eq_refl eq_refl) as (w' & Hrun & _ & _ & _ & _ & Hq).
  exists w'. split; [exact Hrun|].
  assert (Hnd : List.NoDup (map t_id (db_tasks (db acme_world))))
    by (cbn; apply List.NoDup_cons; [easy | constructor]).
  destruct (Hq Hnd) as [_ Hnone].
  vm_compute in Hrun. injection Hrun as <-.
  split; [reflexivity|]. split; [reflexivity|]. exact Hnone.
Defined.

(** X20. [delete_comment] looks at the author only. For a stored comment,
    a caller whose email is the comment's [author_email] gets [True]: one
    comment with the id is removed and every other comment stays, without
    any check of who owns the organization. Any other caller, the owner of
    the organization included, gets "Access denied" and nothing changes. *)
Theorem delete_comment_is_for_the_author_only
    (u : user_doc) (id : string) (w : world) (c : comment_doc) :
  find_one (comment_with_id id) (db_task_comments (db w)) = Some c ->
  (c_author_email c = u_email u ->
   exists w',
     Mutation.delete_comment (Some u) id w = (Returned true, w') /\
     S (length (db_task_comments (db w'))) = length (db_task_comments (db w)) /\
     (forall c', In c' (db_task_comments (db w)) -> c_id c' <> id ->
                 In c' (db_task_comments (db w'))) /\
     (forall c', In c' (db_task_comments (db w')) -> In c' (db_task_comments (db w)))) /\
  (c_author_email c <> u_email u ->
   Mutation.delete_comment (Some u) id w = (Raised AccessDenied, w)).
Proof.
  intros Hc. unfold_resolver. cbn. rewrite Hc. cbn. split.
  - intros ->. rewrite String.eqb_refl. cbn. eexists. split; [reflexivity|]. cbn.
    split; [now apply (delete_one_length _ _ c)|]. split.
    + intros c' Hin Hne. apply delete_one_keeps; [assumption|].
      unfold comment_with_id. now apply String.eqb_neq.
    + intros c'. apply delete_one_In.
  - intros Hne. apply String.eqb_neq in Hne. now rewrite Hne.
Qed.

Lemma delete_comment_is_for_the_author_only_witness :
  o_user_id acme <> u_id bob /\
  (exists w', Mutation.delete_comment (Some bob) "c1" acme_with_bobs_comment
              = (Returned true, w')) /\
  Mutation.delete_comment (Some alice) "c1" acme_with_bobs_comment
  = (Raised AccessDenied, acme_with_bobs_comment).
Proof.
  split; [discriminate|].
  destruct (delete_comment_is_for_the_author_only bob "c1" acme_with_bobs_comment _ eq_refl)
    as [Hauthor _].
  destruct (delete_comment_is_for_the_author_only alice "c1" acme_with_bobs_comment _ eq_refl)
    as [_ Hother].
  split.
  - destruct (Hauthor eq_refl) as (w' & Hrun & _). now exists w'.
  - apply Hother. discriminate.
Defined.

(** ** Updating a project *)

(** X21. [update_project] is a partial update. For a project of an
    organization the caller owns it returns the project as stored after
    the call, with the number of stored tasks of the project and the number
    of those whose status is [DONE]: a field supplied in the input
    has the supplied value (an empty string included), a field omitted
    keeps its stored value, and [id], [organization_id] and [created_at]
    never change. A due date, once set, cannot be cleared again. Every
    other project stays as it was. *)
Theorem update_project_changes_only_supplied_fields
    (u : user_doc) (id : string) (input : ProjectUpdateInput) (w : world)
    (p : proj_doc) (o : org_doc) :
  find_one (proj_with_id id) (db_projects (db w)) = Some p ->
  find_one (org_with_id_user (p_organization_id p) (u_id u)) (db_organizations (db w))
  = Some o ->
  exists r w',
    Mutation.update_project (Some u) id input w = (Returned r, w') /\
    find_one (proj_with_id id) (db_projects (db w')) = Some (project_doc r) /\
    task_count r = count_documents (task_with_project id) (db_tasks (db w)) /\
    completed_tasks r
    = count_documents (task_with_project_status id "DONE") (db_tasks (db w)) /\
    p_id (project_doc r) = p_id p /\
    p_organization_id (project_doc r) = p_organization_id p /\
    p_created_at (project_doc r) = p_created_at p /\
    p_name (project_doc r) = default (p_name p) (pu_name input) /\
    p_description (project_doc r) = default (p_description p) (pu_description input) /\
    p_status (project_doc r) = default (p_status p) (pu_status input) /\
    p_due_date (project_doc r)
    = match pu_due_date input with Some v => Some v | None => p_due_date p end /\
    (is_Some (p_due_date p) -> is_Some (p_due_date (project_doc r))) /\
    length (db_projects (db w')) = length (db_projects (db w)) /\
    (forall p', In p' (db_projects (db w)) -> p_id p' <> id -> In p' (db_projects (db w'))).
Proof.
  intros Hp Ho.
  destruct (set_proj_fields input p) as (Hid & Horg & Hcr & Hna & Hde & Hst & Hdu).
  assert (Hdue : is_Some (p_due_date p) ->
                 is_Some (match pu_due_date input with
                          | Some v => Some v
                          | None => p_due_date p
                          end))
    by (destruct (pu_due_date input); eauto).
  destruct (decide (Mutation.project_update_data input = ∅)) as [He|Hne].
  - rewrite (update_project_skips u id w p o Hp Ho input He).
    apply project_update_data_empty in He as (Hn & Hd & Hs & Hdd).
    eexists _, _. split; [reflexivity|]. cbn.
    rewrite Hn, Hd, Hs, Hdd. cbn. repeat split; auto.
  - rewrite (update_project_writes u id w p o Hp Ho input Hne).
    eexists _, _. split; [reflexivity|]. cbn -[set_proj Mutation.project_update_data].
    rewrite Hid, Horg, Hcr, Hna, Hde, Hst, Hdu.
    split.
    { apply find_one_update_one_Some; [|assumption].
      intros d. now rewrite proj_with_id_set_proj. }
    repeat split; auto.
    + apply update_one_length.
    + intros p' Hin Hne'. apply update_one_keeps; [assumption|].
      unfold proj_with_id. now apply String.eqb_neq.
Qed.

Lemma update_project_changes_only_supplied_fields_witness :
  exists r w',
    Mutation.update_project (Some alice) "p1"
      (mk_ProjectUpdateInput None (Some "") (Some "ON_HOLD") None) acme_world
    = (Returned r, w') /\
    project_doc r
    = mk_proj "p1" "o-acme" "Launch" "" "ON_HOLD" None "2024-01-04T00:00:00+00:00" /\
    task_count r = 1 /\ completed_tasks r = 0.
Proof.
  destruct (update_project_changes_only_supplied_fields alice "p1"
              (mk_ProjectUpdateInput None (Some "") (Some "ON_HOLD") None) acme_world p1 acme
              eq_refl eq_refl) as (r & w' & Hrun & _).
  exists r, w'. split; [exact Hrun|].
  vm_compute in Hrun. injection Hrun as <-. now repeat split.
Defined.


(** ** Accounts, tokens and the request context *)

Lemma prefix_drop_chars (p h : string) :
  String.prefix p h = true -> h = String.append p (drop_chars (String.length p) h).
Proof.
  revert h. induction p as [|a p IH]; intros h H.
  - reflexivity.
  - destruct h as [|b h]; [discriminate H|].
    change (String.prefix (String a p) (String b h))
      with (if Ascii.ascii_dec a b then String.prefix p h else false) in H.
    destruct (Ascii.ascii_dec a b) as [->|]; [|discriminate H].
    change (String b h = String b (String.append p (drop_chars (String.length p) h))).
    f_equal. now apply IH.
Qed.

Lemma prefix_append (p s : string) : String.prefix p (String.append p s) = true.
Proof.
  induction p as [|a p IH]; [now destruct s|].
  change (String.prefix (String a p) (String.append (String a p) s))
    with (if Ascii.ascii_dec a a then String.prefix p (String.append p s) else false).
  now destruct (Ascii.ascii_dec a a).
Qed.

Lemma drop_chars_append (p s : string) : drop_chars (String.length p) (String.append p s) = s.
Proof.
  induction p as [|a p IH].
  - reflexivity.
  - exact IH.
Qed.

Lemma bearer_token_spec (c : connection) (token : string) :
  bearer_token c = Some token <-> authorization c = Some (String.append "Bearer " token).
Proof.
  unfold bearer_token. destruct (authorization c) as [h|]; [|split; intros H; discriminate H].
  split.
  - destruct (negb (String.eqb h "")); [|intros H; discriminate H].
    change (true && String.prefix "Bearer " h) with (String.prefix "Bearer " h).
    destruct (String.prefix "Bearer " h) eqn:Hp; [|intros H; discriminate H].
    intros [= <-]. f_equal. exact (prefix_drop_chars "Bearer " h Hp).
  - intros [= ->]. rewrite prefix_append.
    change (String.eqb (String.append "Bearer " token) "") with false.
    cbn [negb andb]. f_equal; exact (drop_chars_append "Bearer " token).
Qed.

(** X22. Where the context's user comes from. [get_context] has a user
    exactly when the connection it reads (the request if there is one, the
    websocket only when there is no request) carries an [Authorization]
    header made of ["Bearer "] and a non-empty token for which
    [get_current_user] finds that user. *)
Theorem context_user_comes_from_bearer_header
    (jwt_decode : string -> option (option string)) (users : list account_doc)
    (request websocket : option connection) (u : user_doc) :
  get_context jwt_decode users request websocket = Some u <->
  exists c token,
    (request = Some c \/ (request = None /\ websocket = Some c)) /\
    authorization c = Some (String.append "Bearer " token) /\
    token <> "" /\
    get_current_user jwt_decode users token = Some u.
Proof.
  unfold get_context. split.
  - intros H.
    assert (exists c, (request = Some c \/ (request = None /\ websocket = Some c)) /\
              match bearer_token c with
              | Some token =>
                  if String.eqb token "" then None
                  else get_current_user jwt_decode users token
              | None => None
              end = Some u) as (c & Hc & Hu).
    { destruct request as [r|]; [exists r; split; [now left | exact H]|].
      destruct websocket as [ws|]; [exists ws; split; [now right | exact H]|].
      discriminate. }
    destruct (bearer_token c) as [token|] eqn:Hb; [|discriminate].
    destruct (String.eqb_spec token "") as [|Hne]; [discriminate|].
    exists c, token. split; [exact Hc|]. split; [now apply bearer_token_spec|].
    split; [exact Hne | exact Hu].
  - intros (c & token & Hc & Ha & Hne & Hu).
    apply bearer_token_spec in Ha.
    assert (match request with
            | Some request => bearer_token request
            | None => match websocket with
                      | Some websocket => bearer_token websocket
                      | None => None
                      end
            end = Some token) as ->.
    { destruct Hc as [->|[-> ->]]; exact Ha. }
    destruct (String.eqb_spec token "") as [|_]; [contradiction | exact Hu].
Qed.


Lemma find_account_None_iff (email : string) (users : list account_doc) :
  find_one (account_with_email email) users = None <-> ~ In email (map a_email users).
Proof.
  unfold find_one, account_with_email. induction users as [|a users IH]; cbn.
  - split; [intros _ [] | reflexivity].
  - destruct (String.eqb_spec (a_email a) email) as [He|He].
    + split; [discriminate | intros H; exfalso; apply H; now left].
    + rewrite IH. split; [intros H [H'|H']; [contradiction | exact (H H')] | ].
      intros H H'. apply H. now right.
Qed.

Lemma find_account_Some (email : string) (users : list account_doc) (a : account_doc) :
  find_one (account_with_email email) users = Some a -> In a users /\ a_email a = email.
Proof.
  intros H. apply find_one_Some in H as [He Hin]. split; [exact Hin|].
  unfold account_with_email in He. now apply String.eqb_eq.
Qed.

Lemma find_account_fresh (email : string) (users : list account_doc) (a : account_doc) :
  find_one (account_with_email email) users = None -> a_email a = email ->
  find_one (account_with_email email) (insert_one a users) = Some a.
Proof.
  intros Hn He. rewrite find_one_insert_one, Hn. unfold account_with_email.
  now rewrite He, String.eqb_refl.
Qed.

Lemma account_step_grows (verify_password : string -> string -> option bool)
    (users : list account_doc) (op : account_op) :
  account_step verify_password users op = users \/
  exists a, account_step verify_password users op = users ++ [a] /\
            ~ In (a_email a) (map a_email users).
Proof.
  destruct op as [new_id now hashed token input | new_id now hashed token input
                 | token input | token input]; cbn.
  - unfold register.
    destruct (find_one (account_with_email (ri_email input)) users) eqn:Hf; cbn;
      [now left|]. right. eexists. split; [reflexivity|].
    cbn. now apply find_account_None_iff.
  - unfold register_rest.
    destruct (find_one (account_with_email (ri_email input)) users) eqn:Hf; cbn;
      [now left|]. right. eexists. split; [reflexivity|].
    cbn. now apply find_account_None_iff.
  - left. unfold login.
    destruct (find_one (account_with_email (li_email input)) users); [|reflexivity].
    now destruct (verify_password _ _) as [[]|].
  - left. unfold login_rest.
    destruct (find_one (account_with_email (li_email input)) users); [|reflexivity].
    now destruct (verify_password _ _) as [[]|].
Qed.

(** X23. One account per email. Whatever registrations and logins, GraphQL
    or REST, run one after another on a [users] collection whose emails are
    all different, the emails are still all different afterwards, and the
    accounts that were there are still there, unchanged and in place: the
    calls only add accounts behind them. *)
Theorem emails_stay_unique
    (verify_password : string -> string -> option bool) (users : list account_doc)
    (ops : list account_op) :
  List.NoDup (map a_email users) ->
  List.NoDup (map a_email (account_steps verify_password users ops)) /\
  exists added, account_steps verify_password users ops = users ++ added.
Proof.
  unfold account_steps. revert users. induction ops as [|op ops IH]; intros users Hnd; cbn.
  - split; [exact Hnd | exists []; now rewrite app_nil_r].
  - destruct (account_step_grows verify_password users op) as [->|(a & -> & Hfresh)].
    + now apply IH.
    + destruct (IH (users ++ [a])) as [Hnd' [added Hadd]].
      * rewrite map_app. apply List.NoDup_app; [exact Hnd | |].
        -- cbn. apply List.NoDup_cons; [easy | constructor].
        -- intros e He [<-|[]]. contradiction.
      * split; [exact Hnd'|]. exists (a :: added). rewrite Hadd.
        now rewrite <- app_assoc.
Qed.

Lemma emails_stay_unique_witness :
  List.NoDup (map a_email (account_steps example_verify [carol_account]
     [OpRegister "u-2" "2024-02-01T00:00:00+00:00" "hash:other" "jwt:c@x.com" carol_input;
      OpRegisterRest "u-3" "2024-02-02T00:00:00+00:00" "hash:pw" "jwt:d@x.com" dave_input;
      OpLogin "jwt:d@x.com" (mk_LoginInput "d@x.com" "pw")])) /\
  exists added,
    account_steps example_verify [carol_account]
     [OpRegister "u-2" "2024-02-01T00:00:00+00:00" "hash:other" "jwt:c@x.com" carol_input;
      OpRegisterRest "u-3" "2024-02-02T00:00:00+00:00" "hash:pw" "jwt:d@x.com" dave_input;
      OpLogin "jwt:d@x.com" (mk_LoginInput "d@x.com" "pw")]
    = [carol_account] ++ added.
Proof.
  apply (emails_stay_unique example_verify [carol_account]).
  cbn. apply List.NoDup_cons; [intros [] | constructor].
Defined.

(** X24. Register, then log in. When [register] succeeds and the stored
    hash verifies against the password, [login] and [login_rest] with the
    same email and password succeed on the resulting collection, return the
    user that [register] returned with the token issued at login, and leave
    the collection as it is. *)
Theorem registered_account_logs_in
    (verify_password : string -> string -> option bool)
    (new_id now hashed token token' : string) (input : RegisterInput)
    (users users' : list account_doc) (p : AuthPayload) :
  verify_password (ri_password input) hashed = Some true ->
  register new_id now hashed token input users = (inr p, users') ->
  login verify_password token' (mk_LoginInput (ri_email input) (ri_password input)) users'
    = (inr (mk_AuthPayload token' (ap_user p)), users') /\
  login_rest verify_password token' (mk_LoginInput (ri_email input) (ri_password input)) users'
    = (inr (mk_AuthPayload token' (ap_user p)), users').
Proof.
  intros Hv H. unfold register in H.
  destruct (find_one (account_with_email (ri_email input)) users) eqn:Hf; [discriminate H|].
  injection H as <- <-.
  pose proof (find_account_fresh (ri_email input) users
                (mk_account new_id (ri_email input) hashed (ri_name input) now) Hf eq_refl)
    as Hnew.
  unfold login, login_rest. cbn [li_email li_password]. rewrite Hnew.
  cbn [a_password a_id a_email a_name a_created_at ap_user]. now rewrite Hv.
Qed.

Lemma registered_account_logs_in_witness :
  login example_verify "jwt:later"
    (mk_LoginInput (ri_email dave_input) (ri_password dave_input))
    [carol_account; mk_account "u-3" "d@x.com" "hash:pw" "Dave" "2024-02-02T00:00:00+00:00"]
    = (inr (mk_AuthPayload "jwt:later"
              (mk_user "u-3" "d@x.com" "Dave" "2024-02-02T00:00:00+00:00")),
       [carol_account; mk_account "u-3" "d@x.com" "hash:pw" "Dave" "2024-02-02T00:00:00+00:00"]) /\
  login_rest example_verify "jwt:later"
    (mk_LoginInput (ri_email dave_input) (ri_password dave_input))
    [carol_account; mk_account "u-3" "d@x.com" "hash:pw" "Dave" "2024-02-02T00:00:00+00:00"]
    = (inr (mk_AuthPayload "jwt:later"
              (mk_user "u-3" "d@x.com" "Dave" "2024-02-02T00:00:00+00:00")),
       [carol_account; mk_account "u-3" "d@x.com" "hash:pw" "Dave" "2024-02-02T00:00:00+00:00"]).
Proof.
  apply (registered_account_logs_in example_verify "u-3" "2024-02-02T00:00:00+00:00"
           "hash:pw" "jwt:d@x.com" "jwt:later" dave_input [carol_account]
           [carol_account; mk_account "u-3" "d@x.com" "hash:pw" "Dave" "2024-02-02T00:00:00+00:00"]
           (mk_AuthPayload "jwt:d@x.com"
              (mk_user "u-3" "d@x.com" "Dave" "2024-02-02T00:00:00+00:00")));
    reflexivity.
Defined.

(** X25. What [login] tells and does. [login] never changes the [users]
    collection. It returns only when the first account stored under the
    email has a hash that verifies against the password, with that
    account's user and the token issued. When the check of the hash
    answers, every refusal is the one exception [Invalid credentials], for
    an unknown email and for a wrong password alike: the caller cannot tell
    the two apart. The only other failure is the exception that
    [pwd_context.verify] itself raises, on a stored string that is not a
    hash it knows. *)
Theorem login_refusals_look_alike
    (verify_password : string -> string -> option bool) (token : string) (input : LoginInput)
    (users users' : list account_doc) (r : exception + AuthPayload) :
  login verify_password token input users = (r, users') ->
  users' = users /\
  match r with
  | inr p =>
      exists a, find_one (account_with_email (li_email input)) users = Some a /\
                In a users /\ a_email a = li_email input /\
                verify_password (li_password input) (a_password a) = Some true /\
                p = mk_AuthPayload token (user_of a)
  | inl e =>
      (e = InvalidCredentials /\
       (find_one (account_with_email (li_email input)) users = None \/
        exists a, find_one (account_with_email (li_email input)) users = Some a /\
                  verify_password (li_password input) (a_password a) = Some false)) \/
      (e = VerifyError /\
       exists a, find_one (account_with_email (li_email input)) users = Some a /\
                 verify_password (li_password input) (a_password a) = None)
  end.
Proof.
  unfold login. intros H.
  destruct (find_one (account_with_email (li_email input)) users) as [a|] eqn:Hf.
  - destruct (verify_password (li_password input) (a_password a)) as [[]|] eqn:Hv;
      injection H as <- <-; (split; [reflexivity|]).
    + apply find_account_Some in Hf as [Hin He]. exists a. now repeat split.
    + left. split; [reflexivity|]. right. now exists a.
    + right. split; [reflexivity|]. now exists a.
  - injection H as <- <-. split; [reflexivity|]. left. split; [reflexivity | now left].
Qed.

Lemma login_refusals_look_alike_witness :
  login example_verify "jwt:c@x.com" (mk_LoginInput "c@x.com" "guess") [carol_account]
  = (inl InvalidCredentials, [carol_account]) /\
  login example_verify "jwt:e@x.com" (mk_LoginInput "e@x.com" "guess") [carol_account]
  = (inl InvalidCredentials, [carol_account]) /\
  ((InvalidCredentials = InvalidCredentials /\
    (find_one (account_with_email "c@x.com") [carol_account] = None \/
     exists a, find_one (account_with_email "c@x.com") [carol_account] = Some a /\
               example_verify "guess" (a_password a) = Some false)) \/
   (InvalidCredentials = VerifyError /\
    exists a, find_one (account_with_email "c@x.com") [carol_account] = Some a /\
              example_verify "guess" (a_password a) = None)).
Proof.
  split; [reflexivity|]. split; [reflexivity|].
  exact (proj2 (login_refusals_look_alike example_verify "jwt:c@x.com"
                  (mk_LoginInput "c@x.com" "guess") [carol_account] [carol_account]
                  (inl InvalidCredentials) eq_refl)).
Defined.

(** X26. The REST endpoints do what the GraphQL mutations do.
    [register_rest] and [login_rest] store and return exactly what
    [register] and [login] store and return on the same input; they differ
    only in the exception: status 400 with the detail
    [Email already registered], status 401 with the detail
    [Invalid credentials]. *)
Theorem rest_endpoints_agree_with_graphql
    (verify_password : string -> string -> option bool)
    (new_id now hashed token : string) (r : RegisterInput) (l : LoginInput)
    (users : list account_doc) :
  register_rest new_id now hashed token r users
    = as_http (register new_id now hashed token r users) /\
  login_rest verify_password token l users = as_http (login verify_password token l users).
Proof.
  unfold register_rest, register, login_rest, login, as_http. split.
  - now destruct (find_one (account_with_email (ri_email r)) users).
  - destruct (find_one (account_with_email (li_email l)) users) as [a|]; [|reflexivity].
    now destruct (verify_password (li_password l) (a_password a)) as [[]|].
Qed.

(** X27. The token of a registration authenticates. When [register]
    succeeds and the token it was issued is not empty and decodes to the
    registered email, a request, or a websocket without a request, that
    carries ["Bearer "] and that token gets the registered user as its
    context user, and [get_me] returns that user for the token. *)
Theorem registered_token_authenticates
    (jwt_decode : string -> option (option string))
    (new_id now hashed token : string) (input : RegisterInput)
    (users users' : list account_doc) (p : AuthPayload) (other : option connection) :
  token <> "" ->
  jwt_decode token = Some (Some (ri_email input)) ->
  register new_id now hashed token input users = (inr p, users') ->
  let header := mk_connection (Some (String.append "Bearer " (ap_token p))) in
  get_context jwt_decode users' (Some header) other = Some (ap_user p) /\
  get_context jwt_decode users' None (Some header) = Some (ap_user p) /\
  get_me jwt_decode users' (ap_token p) = inr (ap_user p).
Proof.
  intros Hne Hd H header. unfold register in H.
  destruct (find_one (account_with_email (ri_email input)) users) eqn:Hf; [discriminate H|].
  injection H as <- <-. cbn [ap_token ap_user] in *.
  pose proof (find_account_fresh (ri_email input) users
                (mk_account new_id (ri_email input) hashed (ri_name input) now) Hf eq_refl)
    as Hnew.
  assert (get_current_user jwt_decode
            (insert_one (mk_account new_id (ri_email input) hashed (ri_name input) now) users)
            token
          = Some (mk_user new_id (ri_email input) (ri_name input) now)) as Hu.
  { unfold get_current_user. now rewrite Hd, Hnew. }
  assert (bearer_token header = Some token) as Hb by now apply bearer_token_spec.
  unfold get_context, get_me. cbn match. rewrite Hb, Hu.
  destruct (String.eqb_spec token "") as [|_]; [contradiction|]. now repeat split.
Qed.

Lemma registered_token_authenticates_witness :
  get_context example_decode
    [carol_account; mk_account "u-3" "d@x.com" "hash:pw" "Dave" "2024-02-02T00:00:00+00:00"]
    (Some (mk_connection (Some "Bearer jwt:d@x.com"))) None
    = Some (mk_user "u-3" "d@x.com" "Dave" "2024-02-02T00:00:00+00:00") /\
  get_context example_decode
    [carol_account; mk_account "u-3" "d@x.com" "hash:pw" "Dave" "2024-02-02T00:00:00+00:00"]
    None (Some (mk_connection (Some "Bearer jwt:d@x.com")))
    = Some (mk_user "u-3" "d@x.com" "Dave" "2024-02-02T00:00:00+00:00") /\
  get_me example_decode
    [carol_account; mk_account "u-3" "d@x.com" "hash:pw" "Dave" "2024-02-02T00:00:00+00:00"]
    "jwt:d@x.com"
    = inr (mk_user "u-3" "d@x.com" "Dave" "2024-02-02T00:00:00+00:00").
Proof.
  refine (registered_token_authenticates example_decode "u-3" "2024-02-02T00:00:00+00:00"
            "hash:pw" "jwt:d@x.com" dave_input [carol_account]
            [carol_account; mk_account "u-3" "d@x.com" "hash:pw" "Dave" "2024-02-02T00:00:00+00:00"]
            (mk_AuthPayload "jwt:d@x.com"
               (mk_user "u-3" "d@x.com" "Dave" "2024-02-02T00:00:00+00:00"))
            None _ eq_refl eq_refl).
  intros H. discriminate H.
Defined.


Lemma find_slug_None_iff (slug : string) (orgs : list org_doc) :
  find_one (org_with_slug slug) orgs = None <-> ~ In slug (map o_slug orgs).
Proof.
  unfold find_one, org_with_slug. induction orgs as [|o orgs IH]; cbn.
  - split; [intros _ [] | reflexivity].
  - destruct (String.eqb_spec (o_slug o) slug) as [He|He].
    + split; [discriminate | intros H; exfalso; apply H; now left].
    + rewrite IH. split; [intros H [H'|H']; [contradiction | exact (H H')] | ].
      intros H H'. apply H. now right.
Qed.

(** X28. One organization per slug, whoever owns it, for calls that run
    one after another. On a store whose organization slugs are all
    different, a [create_organization] that runs with no other request
    between its slug check and its insert leaves them all different (no
    index guards the slug: two calls that interleave there are outside
    this statement). It is refused, with the world unchanged, exactly when
    there is no caller ([Not authenticated]) or some organization, of any
    user, already has the slug ([Organization slug already exists]);
    otherwise it stores one organization, owned by the caller, behind the
    others. *)
Theorem create_organization_keeps_slugs_unique
    (user : option user_doc) (new_id now : string) (input : OrganizationInput)
    (w w' : world) (r : exception + Organization) :
  List.NoDup (map o_slug (db_organizations (db w))) ->
  create_organization user new_id now input w = (r, w') ->
  List.NoDup (map o_slug (db_organizations (db w'))) /\
  match r with
  | inl e =>
      w' = w /\
      ((e = Core NotAuthenticated /\ user = None) \/
       (e = SlugAlreadyExists /\ user <> None /\
        In (oi_slug input) (map o_slug (db_organizations (db w)))))
  | inr org =>
      ~ In (oi_slug input) (map o_slug (db_organizations (db w))) /\
      exists u, user = Some u /\
        db_organizations (db w')
        = db_organizations (db w)
          ++ [mk_org new_id (u_id u) (oi_name input) (oi_slug input)
                (oi_contact_email input) now]
  end.
Proof.
  intros Hnd H. unfold create_organization in H.
  destruct user as [u|]; [|injection H as <- <-; split; [exact Hnd|]; split; [reflexivity|];
                            now left].
  destruct (find_one (org_with_slug (oi_slug input)) (db_organizations (db w))) as [o|] eqn:Hf;
    injection H as <- <-.
  - split; [exact Hnd|]. split; [reflexivity|]. right. split; [reflexivity|].
    split; [discriminate|]. destruct (find_one_Some _ _ _ Hf) as [Hs Hin].
    unfold org_with_slug in Hs. apply String.eqb_eq in Hs. rewrite <- Hs.
    now apply in_map.
  - apply find_slug_None_iff in Hf. cbn. unfold insert_one. split.
    + rewrite map_app. apply List.NoDup_app; [exact Hnd | |].
      * cbn. apply List.NoDup_cons; [easy | constructor].
      * intros s Hs [<-|[]]. contradiction.
    + split; [exact Hf|]. now exists u.
Qed.

Lemma create_organization_keeps_slugs_unique_witness :
  List.NoDup (map o_slug (db_organizations (db acme_world))) /\
  acme_world = acme_world /\
  ((SlugAlreadyExists = Core NotAuthenticated /\ Some bob = None) \/
   (SlugAlreadyExists = SlugAlreadyExists /\ Some bob <> None /\
    In (o_slug acme) (map o_slug (db_organizations (db acme_world))))).
Proof.
  refine (create_organization_keeps_slugs_unique (Some bob) "org-2"
            "2024-03-01T00:00:00+00:00"
            (mk_OrganizationInput "Beta" (o_slug acme) "beta@x.com")
            acme_world acme_world (inl SlugAlreadyExists) _ eq_refl).
  cbn. apply List.NoDup_cons; [intros [] | constructor].
Defined.

(** X29. A created organization is the creator's. When [create_organization]
    returns with an id that no stored organization has, [organization] with
    that id then answers the creator with the organization returned and
    answers nothing to a caller with another user id, and [create_project]
    in it then succeeds for the creator and is refused with
    [Organization not found] for a caller with another user id. Creating
    the organization publishes no event: the registry and every queue are as
    before, and the one call made is the insert. *)
Theorem created_organization_is_the_creators
    (u v : user_doc) (new_id now : string) (input : OrganizationInput)
    (w w' : world) (org : Organization)
    (proj_id proj_now : string) (pinput : ProjectInput) :
  (forall o, In o (db_organizations (db w)) -> o_id o <> new_id) ->
  u_id v <> u_id u ->
  pi_organization_id pinput = new_id ->
  create_organization (Some u) new_id now input w = (inr org, w') ->
  Query.organization (Some u) new_id w' = (Returned (Some org), w') /\
  Query.organization (Some v) new_id w' = (Returned None, w') /\
  (exists p w'', Mutation.create_project (Some u) proj_id proj_now pinput w'
                 = (Returned p, w'')) /\
  Mutation.create_project (Some v) proj_id proj_now pinput w'
  = (Raised OrganizationNotFound, w') /\
  connections w' = connections w /\ heap w' = heap w /\
  calls w' = calls w ++ [InsertOne "organizations"].
Proof.
  intros Hfresh Hvu Hpi H. unfold create_organization in H.
  destruct (find_one (org_with_slug (oi_slug input)) (db_organizations (db w)));
    [discriminate H|].
  injection H as <- <-.
  set (o := mk_org new_id (u_id u) (oi_name input) (oi_slug input)
              (oi_contact_email input) now).
  assert (forall x, find_one (org_with_id_user new_id x) (db_organizations (db w)) = None)
    as Hold.
  { intros x.
    destruct (find_one (org_with_id_user new_id x) (db_organizations (db w))) as [o'|] eqn:Ho;
      [|reflexivity].
    apply find_one_Some in Ho as [Hb Hin]. unfold org_with_id_user in Hb.
    apply andb_true_iff in Hb as [Hb _]. apply String.eqb_eq in Hb.
    now destruct (Hfresh o' Hin). }
  assert (find_one (org_with_id_user new_id (u_id u))
            (insert_one o (db_organizations (db w))) = Some o) as Hu.
  { rewrite find_one_insert_one, Hold. unfold org_with_id_user. cbn.
    now rewrite !String.eqb_refl. }
  assert (find_one (org_with_id_user new_id (u_id v))
            (insert_one o (db_organizations (db w))) = None) as Hv.
  { rewrite find_one_insert_one, Hold. unfold org_with_id_user. cbn.
    rewrite String.eqb_refl. cbn.
    destruct (String.eqb_spec (u_id u) (u_id v)) as [E|_]; [|reflexivity].
    now destruct Hvu. }
  split; [|split; [|split; [|split]]].
  - unfold Query.organization, bind, authenticated, or_raise, query, ret.
    cbn -[find_one insert_one]. now rewrite Hu.
  - unfold Query.organization, bind, authenticated, or_raise, query, ret.
    cbn -[find_one insert_one]. now rewrite Hv.
  - unfold Mutation.create_project, bind, authenticated, or_raise, query, write, ret.
    cbn -[find_one insert_one SubscriptionManager.broadcast]. rewrite Hpi, Hu.
    cbn -[find_one insert_one SubscriptionManager.broadcast].
    destruct (SubscriptionManager.broadcast new_id "PROJECT_CREATED" _ _) as [[e|[]] w'']
      eqn:Hb; [|now eexists _, _].
    rewrite broadcast_run in Hb. discriminate Hb.
  - unfold Mutation.create_project, bind, authenticated, or_raise, query, raise, ret.
    cbn -[find_one insert_one]. now rewrite Hpi, Hv.
  - now cbn.
Qed.

Lemma created_organization_is_the_creators_witness :
  Query.organization (Some bob) "org-2"
    (create_organization (Some bob) "org-2" "2024-03-01T00:00:00+00:00"
       (mk_OrganizationInput "Beta" "beta" "beta@x.com") acme_world).2
  = (Returned (Some (mk_Organization "org-2" "Beta" "beta" "beta@x.com"
                       "2024-03-01T00:00:00+00:00")),
     (create_organization (Some bob) "org-2" "2024-03-01T00:00:00+00:00"
        (mk_OrganizationInput "Beta" "beta" "beta@x.com") acme_world).2) /\
  Query.organization (Some alice) "org-2"
    (create_organization (Some bob) "org-2" "2024-03-01T00:00:00+00:00"
       (mk_OrganizationInput "Beta" "beta" "beta@x.com") acme_world).2
  = (Returned None,
     (create_organization (Some bob) "org-2" "2024-03-01T00:00:00+00:00"
        (mk_OrganizationInput "Beta" "beta" "beta@x.com") acme_world).2).
Proof.
  pose proof (created_organization_is_the_creators bob alice "org-2"
                "2024-03-01T00:00:00+00:00"
                (mk_OrganizationInput "Beta" "beta" "beta@x.com") acme_world
                (create_organization (Some bob) "org-2" "2024-03-01T00:00:00+00:00"
                   (mk_OrganizationInput "Beta" "beta" "beta@x.com") acme_world).2
                (mk_Organization "org-2" "Beta" "beta" "beta@x.com"
                   "2024-03-01T00:00:00+00:00")
                "p-9" "2024-03-02T00:00:00+00:00"
                (mk_ProjectInput "org-2" "Site" "" "ACTIVE" None)) as H.
  destruct H as (H1 & H2 & _).
  - intros o [<-|[]]. discriminate.
  - discriminate.
  - reflexivity.
  - reflexivity.
  - split; [exact H1 | exact H2].
Defined.
